(** * TruStory octopus: notification worker, user lookup, mention translation
      and metrics reports

    A shallow embedding of the parts of the repository that the specification
    makes statements about, followed by the theorems that settle them.

    Conventions.
    - A Go function returning [(T, error)] returns a pair of options here:
      [None] in the first component is the nil pointer, [None] in the second
      is the nil error.
    - A run-time panic (nil dereference, index out of range, a panic raised by
      the cosmos-sdk coin arithmetic) is [None] in the [option] monad, or the
      [Panicked] outcome of a handler.
    - [time.Time] is an integer number of nanoseconds counted from Go's zero
      time; [Before] is [<]. *)

From stdpp Require Import gmap strings list fin_maps pretty.

(** ** Go helpers *)

Module golang.

(** An [int64] value kept as an integer with its wrap-around written out. *)
Definition wrap64 (z : Z) : Z := ((z + 2 ^ 63) `mod` 2 ^ 64 - 2 ^ 63)%Z.

Definition Time := Z.
Definition Before (t u : Time) : bool := bool_decide (t < u)%Z.
Definition After (t u : Time) : bool := bool_decide (u < t)%Z.
Definition IsZero (t : Time) : bool := bool_decide (t = 0%Z).

(** [strings.HasPrefix]. *)
Fixpoint HasPrefix (s p : string) : bool :=
  match p, s with
  | EmptyString, _ => true
  | String _ _, EmptyString => false
  | String a p', String b s' => if decide (a = b) then HasPrefix s' p' else false
  end.

(** The scan of [strings.ReplaceAll s old new] for a non-empty [old]:
    [skip] counts the bytes of [s] still covered by the occurrence of [old]
    matched last. *)
Fixpoint replaceScan (skip : nat) (s old new : string) : string :=
  match s with
  | EmptyString => EmptyString
  | String c s' =>
      match skip with
      | S k => replaceScan k s' old new
      | O =>
          if HasPrefix s old
          then new +:+ replaceScan (String.length old - 1) s' old new
          else String c (replaceScan 0 s' old new)
      end
  end.

(** With an empty [old], Go inserts [new] before every character and at the
    end (characters are bytes here). *)
Fixpoint intersperse (s new : string) : string :=
  match s with
  | EmptyString => new
  | String c s' => new +:+ String c (intersperse s' new)
  end.

Definition ReplaceAll (s old new : string) : string :=
  match old with
  | EmptyString => intersperse s new
  | String _ _ => replaceScan 0 s old new
  end.

(** [for _, a := range l { body }] with a body that can panic, the loop's
    variables threaded through. *)
Fixpoint foldlM {A S} (body : S → A → option S) (s : S) (l : list A) : option S :=
  match l with
  | [] => Some s
  | a :: l' => s' ← body s a; foldlM body s' l'
  end.

End golang.

(** ** cosmos-sdk coins ([sdk.Int], [sdk.Coin])

    The library is not part of the repository; these definitions follow its
    documented behaviour: an [sdk.Int] is an integer of at most 255 bits whose
    arithmetic panics on overflow, [Int64] panics outside the [int64] range,
    [NewCoin] panics on a negative amount, [Add] and [Sub] panic when the
    denominations differ and [Sub] panics on a negative result.  The check of
    the denomination's syntax in [NewCoin] is left out. *)

Module sdk.

Definition inRange (i : Z) : bool := bool_decide (Z.abs i < 2 ^ 255)%Z.
Definition checked (i : Z) : option Z := if inRange i then Some i else None.

Definition IntAdd (a b : Z) : option Z := checked (a + b).
Definition IntSub (a b : Z) : option Z := checked (a - b).
Definition IntNeg (a : Z) : Z := (- a)%Z.

Definition Int64 (i : Z) : option Z :=
  if bool_decide (- 2 ^ 63 ≤ i < 2 ^ 63)%Z then Some i else None.

Record Coin := mkCoin { Denom : string; Amount : Z }.

Definition NewCoin (denom : string) (amount : Z) : option Coin :=
  if bool_decide (amount < 0)%Z then None else Some (mkCoin denom amount).

Definition NewInt64Coin (denom : string) (amount : Z) : option Coin :=
  NewCoin denom amount.

Definition Add (coin coinB : Coin) : option Coin :=
  if decide (Denom coin = Denom coinB)
  then amount ← IntAdd (Amount coin) (Amount coinB); Some (mkCoin (Denom coin) amount)
  else None.

Definition IsZero (coin : Coin) : bool := bool_decide (Amount coin = 0)%Z.
Definition IsNegative (coin : Coin) : bool := bool_decide (Amount coin < 0)%Z.
Definition IsLT (coin other : Coin) : bool := bool_decide (Amount coin < Amount other)%Z.

Definition Sub (coin coinB : Coin) : option Coin :=
  if decide (Denom coin = Denom coinB)
  then amount ← IntSub (Amount coin) (Amount coinB);
       if bool_decide (amount < 0)%Z then None else Some (mkCoin (Denom coin) amount)
  else None.

End sdk.

(** ** The chain's constants

    [app.StakeDenom] of the chain's [types] package. *)

Module truchain.
Definition StakeDenom : string := "trusteak".
End truchain.

(** ** [package db]: users *)

Module db.

(** The errors of the go-pg driver: [pg.ErrNoRows] and every other one. *)
Inductive error := ErrNoRows | ErrDriver (msg : string).

#[global] Instance error_eq_dec : EqDecision error.
Proof. solve_decision. Defined.

Record User := mkUser {
  ID : Z;
  Username : string;
  Email : string;
  Address : string;
  CreatedAt : golang.Time;
  UpdatedAt : golang.Time;
  LastAuthenticatedAt : option golang.Time;
  UserGroup : Z
}.

(** A client: the rows of the users table, and the driver failure (a lost
    connection, a malformed statement, ...) that a query meets, if any. *)
Record Client := mkClient {
  users : list User;
  failure : option string
}.

(** [c.Model(user).Where(cond).First()]: the error, or the first row that
    satisfies the condition. *)
Definition First (c : Client) (cond : User → bool) : error + User :=
  match failure c with
  | Some msg => inl (ErrDriver msg)
  | None =>
      match List.find cond (users c) with
      | Some u => inr u
      | None => inl ErrNoRows
      end
  end.

(** [UserByID] selects a user by ID. *)
Definition UserByID (c : Client) (id : Z) : option User * option error :=
  match First c (λ u, bool_decide (ID u = id)) with
  | inl ErrNoRows => (None, None)
  | inl err => (None, Some err)
  | inr user => (Some user, None)
  end.

(** Modelled from the spec: the declaration of [NotificationType], the "type
    enum" of a notification, is not among the sources.  The two reward types
    the worker names, and the type whose value is 0. *)
Inductive NotificationType :=
| NotificationTypeZero
| NotificationRewardInviteUnlocked
| NotificationRewardTruUnlocked.

(** Modelled from the spec: [NotificationMeta], the "metadata blob" of a
    notification, whose declaration is not among the sources; the worker
    sends it empty. *)
Record NotificationMeta := mkNotificationMeta { }.

(** [UserGroup.String]: the name of the group; an index below zero is out of
    the range of [userGroupTypeName]. *)
Definition userGroupTypeName : list string :=
  ["User"; "Employee"; "TruStory Debater"; "Research Analyst"].

Definition UserGroup_String (ug : Z) : option string :=
  if bool_decide (Z.of_nat (length userGroupTypeName) ≤ ug)%Z then Some "Unknown"
  else if bool_decide (ug < 0)%Z then None
  else userGroupTypeName !! Z.to_nat ug.

(** *** Mentions ([mention.go]) *)

(** Modelled from the spec: the row type [TwitterProfile] of the data-access
    layer, whose declaration is not among the sources; the two fields the
    mention translator reads. *)
Module TwitterProfile.
Record t := mk { Username : string; Address : string }.
End TwitterProfile.

Section Mentions.

(** [parseMentions] calls [mention.GetTagsAsUniqueStrings], a library
    outside the repository. *)
Variable parseMentions : string → list string.

Variable TwitterProfileByUsername : string → option TwitterProfile.t * option error.

(** The order in which [range] visits the entries of a Go map is not
    specified: some enumeration of them. *)
Variable mapRange : gmap string string → list (string * string).
Hypothesis mapRange_perm : ∀ m, mapRange m ≡ₚ map_to_list m.

(** The first loop of [replaceUsernamesWithAddress]: the map filled so
    far, or the error that ends it. *)
Fixpoint lookupUsernames (usernames : list string)
    (addressByUsername : gmap string string) : gmap string string + error :=
  match usernames with
  | [] => inl addressByUsername
  | username :: rest =>
      match TwitterProfileByUsername username with
      | (_, Some err) => inr err
      | (None, None) =>
          lookupUsernames rest (<[username := username]> addressByUsername)
      | (Some twitterProfile, None) =>
          lookupUsernames rest
            (<[username := TwitterProfile.Address twitterProfile]> addressByUsername)
      end
  end.

(** replace @usernames with @cosmosaddr *)
Definition replaceUsernamesWithAddress (body : string) : string * option error :=
  match lookupUsernames (parseMentions body) ∅ with
  | inr err => (body, Some err)
  | inl addressByUsername =>
      (foldl (λ body '(username, address), golang.ReplaceAll body username address)
             body (mapRange addressByUsername),
       None)
  end.

Definition TranslateToCosmosMentions (body : string) : string * option error :=
  replaceUsernamesWithAddress body.

End Mentions.

End db.

(** ** [package truapi]: reward notification requests *)

Module app.

(** Modelled from the spec: the reward variant of a notification request
    "carries recipient id, optional causer id, and variant-specific payload
    (reward type/amount ...)"; the declarations of [RewardType],
    [RewardCauserAction] and [RewardNotificationRequest] are not among the
    sources.  The constants are those the worker switches on, with one more
    value for every other one; the fields are those the worker reads. *)
Inductive RewardType := RewardTypeInvite | RewardTypeTru | RewardTypeOther.

Inductive RewardCauserAction :=
| RewardCauserActionSignedUp
| RewardCauserActionOneArgument
| RewardCauserActionReceiveFiveAgrees
| RewardCauserActionOther.

Record RewardNotificationRequest := mkRewardNotificationRequest {
  RewardeeID : Z;
  CauserID : Z;
  RewardKind : RewardType;          (* field [RewardType] *)
  RewardAmount : string;
  CauserAction : RewardCauserAction
}.

End app.

(** ** The push service: reward notifications *)

Module push.

(** Modelled from the spec: a notification is a "resolved, user-facing
    message — recipient address, type enum, rendered text, action label,
    metadata blob"; the declaration of [Notification] is not among the
    sources, the fields are those the worker sets. *)
Record Notification := mkNotification {
  To : string;
  TypeID : Z;
  Type_ : db.NotificationType;       (* field [Type] *)
  Msg : string;
  Meta : db.NotificationMeta;
  Action : string;
  Trim : bool
}.

Definition getNotificationTypeFromRequest (n : app.RewardNotificationRequest)
  : db.NotificationType :=
  match app.RewardKind n with
  | app.RewardTypeInvite => db.NotificationRewardInviteUnlocked
  | app.RewardTypeTru => db.NotificationRewardTruUnlocked
  | app.RewardTypeOther => db.NotificationTypeZero
  end.

Section Service.

(** The data store behind [s.db], an interface: any behaviour of the
    lookup, id by id. *)
Variable UserByID : Z → option db.User * option db.error.

(** [sdk.ParseCoin] ([None]: a parse error) and [db.CoinDisplayName]. *)
Variable ParseCoin : string → option sdk.Coin.
Variable CoinDisplayName : string.

Definition getRewardStringFromRequest (n : app.RewardNotificationRequest)
  : option string :=
  match app.RewardKind n with
  | app.RewardTypeInvite => Some (app.RewardAmount n +:+ " invites")
  | app.RewardTypeTru =>
      match ParseCoin (app.RewardAmount n) with
      | None => Some (app.RewardAmount n)
      | Some amount =>
          i ← sdk.Int64 (sdk.Amount amount);
          Some (pretty (i `quot` 1000000000)%Z +:+ " " +:+ CoinDisplayName)
      end
  | app.RewardTypeOther => Some ""
  end.

Definition getRewardReasonFromRequest (n : app.RewardNotificationRequest)
    (causer : option db.User) : option string :=
  match app.RewardKind n with
  | app.RewardTypeInvite =>
      let causedBy :=
        match causer with
        | Some c => db.Username c
        | None => "you"
        end in
      Some (causedBy +:+ " became an active user on TruStory.")
  | app.RewardTypeTru =>
      let stepCompleted :=
        match app.CauserAction n with
        | app.RewardCauserActionSignedUp => "signed up"
        | app.RewardCauserActionOneArgument => "has written at least one argument"
        | app.RewardCauserActionReceiveFiveAgrees => "has received at least five agrees"
        | app.RewardCauserActionOther => ""
        end in
      c ← causer;
      Some (db.Username c +:+ " " +:+ stepCompleted +:+ " on TruStory.")
  | app.RewardTypeOther => Some ""
  end.

(** What one turn of the worker loop does with a request. *)
Inductive Turn :=
| Dropped                      (* logged, [continue] *)
| Sent (n : Notification)      (* [notifications <- ...] *)
| Crashed.                     (* run-time panic *)

(** The causer the loop body holds when it builds the message:
    [None] when a lookup error makes it [continue]. *)
Definition lookupCauser (n : app.RewardNotificationRequest)
  : option (option db.User) :=
  if bool_decide (app.CauserID n ≠ 0%Z)
  then match UserByID (app.CauserID n) with
       | (_, Some _) => None
       | (causer, None) => Some causer
       end
  else Some None.

Definition buildNotification (n : app.RewardNotificationRequest)
    (user causer : option db.User) : option Notification :=
  u ← user;
  reward ← getRewardStringFromRequest n;
  reason ← getRewardReasonFromRequest n causer;
  Some {| To := db.Address u;
          TypeID := 0;
          Type_ := getNotificationTypeFromRequest n;
          Msg := "rewarded with " +:+ reward +:+ " because " +:+ reason;
          Meta := db.mkNotificationMeta;
          Action := "Reward unlocked";
          Trim := true |}.

Definition processRewardNotification (n : app.RewardNotificationRequest) : Turn :=
  match UserByID (app.RewardeeID n) with
  | (_, Some _) => Dropped
  | (user, None) =>
      match lookupCauser n with
      | None => Dropped
      | Some causer =>
          match buildNotification n user causer with
          | Some x => Sent x
          | None => Crashed
          end
      end
  end.

Inductive Ending := ChannelClosed | Panicked.

(** [processRewardsNotifications]: the requests received on
    [rNotifications], in order; the notifications sent, in order, and how
    the loop ended. *)
Fixpoint processRewardsNotifications (rNotifications : list app.RewardNotificationRequest)
  : list Notification * Ending :=
  match rNotifications with
  | [] => ([], ChannelClosed)
  | n :: rest =>
      match processRewardNotification n with
      | Dropped => processRewardsNotifications rest
      | Sent x =>
          let '(sent, ending) := processRewardsNotifications rest in
          (x :: sent, ending)
      | Crashed => ([], Panicked)
      end
  end.

End Service.

End push.

(** ** HTTP handlers: what a handler writes and how it ends

    A handler is run for the calls it makes on the response and on its CSV
    writer, in order, and for how it ends.  [Continue a] is a computation that
    goes on with [a]; [Returned] is a [return] from the handler; [Panicked] is
    a run-time panic, which the HTTP server recovers after whatever was
    written before it.  The calls themselves are taken to succeed. *)

Module http.

Inductive Ctl (A : Type) :=
| Continue (a : A)
| Returned
| Panicked.
Arguments Continue {A} a.
Arguments Returned {A}.
Arguments Panicked {A}.

Definition Handler (O A : Type) : Type := list O * Ctl A.

Definition ret {O A} (a : A) : Handler O A := ([], Continue a).
Definition write {O} (o : O) : Handler O unit := ([o], Continue tt).
Definition exit {O A} : Handler O A := ([], Returned).
Definition panic {O A} : Handler O A := ([], Panicked).

Definition bind {O A B} (m : Handler O A) (k : A → Handler O B) : Handler O B :=
  match m with
  | (out, Continue a) => let '(out', c) := k a in (out ++ out', c)
  | (out, Returned) => (out, Returned)
  | (out, Panicked) => (out, Panicked)
  end.

(** A library call that panics ends the handler. *)
Definition must {O A} (x : option A) : Handler O A :=
  match x with
  | Some a => ret a
  | None => panic
  end.

(** [for _, a := range l { body }], the loop's variables threaded through. *)
Fixpoint forEach {O A S} (l : list A) (s : S) (body : S → A → Handler O S)
  : Handler O S :=
  match l with
  | [] => ret s
  | a :: l' => bind (body s a) (λ s', forEach l' s' body)
  end.

Definition when {O} (b : bool) (m : Handler O unit) : Handler O unit :=
  if b then m else ret tt.

End http.

Notation "'let*' x ':=' m 'in' k" := (http.bind m (λ x, k))
  (at level 10, x pattern, m at level 100, k at level 200).
Notation "m ';;' k" := (http.bind m (λ _, k))
  (at level 100, k at level 200, right associativity).

(** ** The CSV reports ([HandleUsersMetrics], [HandleClaimMetrics],
       [HandleUserClaims], [HandleUserBase]) *)

Module reports.

Import golang http.

(** *** Chain and data-store types *)

Module claim.
Record Claim := mk {
  ID : Z;
  CommunityID : string;
  Body : string;
  Creator : string;              (* [Creator.String()] *)
  CreatedTime : Time
}.
End claim.

Module staking.
Inductive StakeType := StakeBacking | StakeChallenge | StakeUpvote.
#[global] Instance StakeType_eq_dec : EqDecision StakeType.
Proof. solve_decision. Defined.

Module Argument.
Record t := mk {
  ID : Z;
  Creator : string;
  StakeType_ : StakeType;        (* field [StakeType] *)
  CreatedTime : Time
}.
End Argument.

Module Stake.
Record t := mk {
  ArgumentID : Z;
  CommunityID : string;
  Type_ : StakeType;             (* field [Type] *)
  Amount : sdk.Coin;
  Creator : string;
  CreatedTime : Time;
  EndTime : Time;
  Expired : bool
}.
End Stake.
End staking.

Module community.
Record Community := mk { ID : string; Name : string }.
End community.

Module exported.
(** The transaction types [HandleUsersMetrics] tracks, and all others. *)
Inductive TransactionType :=
| TransactionBacking
| TransactionChallenge
| TransactionCuratorReward
| TransactionInterestArgumentCreation
| TransactionInterestUpvoteReceived
| TransactionInterestUpvoteGiven
| TransactionInterestArgumentCreationSlashed
| TransactionInterestUpvoteReceivedSlashed
| TransactionInterestUpvoteGivenSlashed
| TransactionStakeCreatorSlashed
| TransactionStakeCuratorSlashed
| TransactionOther (code : Z).
#[global] Instance TransactionType_eq_dec : EqDecision TransactionType.
Proof. solve_decision. Defined.

(** [t.OneOf(types)] *)
Definition OneOf (t : TransactionType) (types : list TransactionType) : bool :=
  bool_decide (t ∈ types).

Record Transaction := mk {
  ID : Z;
  Type_ : TransactionType;         (* field [Type] *)
  Amount : sdk.Coin;
  CommunityID : string;
  CreatedTime : Time
}.
End exported.

(** Modelled from the spec: the rows of the "relational data-access layer"
    the reports read (comments, view and reply statistics, opened claims and
    arguments), whose declarations are not among the sources; the fields are
    those the handlers read. *)
Module Comment.
Record t := mk { Creator : string; CreatedAt : Time }.
End Comment.

Module ClaimViewsStats.
Record t := mk {
  ClaimID : Z;
  UserViews : Z;
  UniqueUserViews : Z;
  AnonViews : Z;
  UniqueAnonViews : Z;
  UserArgumentsViews : Z;
  UniqueUserArgumentsViews : Z;
  AnonArgumentsViews : Z;
  UniqueAnonArgumentsViews : Z
}.
Definition zero : t := mk 0 0 0 0 0 0 0 0 0%Z.
End ClaimViewsStats.

Module ClaimRepliesStats.
Record t := mk { ClaimID : Z; Replies : Z }.
Definition zero : t := mk 0 0.
End ClaimRepliesStats.

Module UserOpenedClaimsSummary.
Record t := mk {
  Address : string;
  CommunityID : string;
  OpenedClaims : Z;
  UniqueOpenedClaims : Z
}.
End UserOpenedClaimsSummary.

Module UserOpenedArgumentsSummary.
Record t := mk {
  Address : string;
  CommunityID : string;
  OpenedArguments : Z;
  UniqueOpenedArguments : Z
}.
End UserOpenedArgumentsSummary.

Module UserRepliesStats.
Record t := mk { Address : string; CommunityID : string; Replies : Z }.
End UserRepliesStats.

(** *** The request and the response *)

Record Request := mkRequest {
  ParseForm : option string;          (* the error of [r.ParseForm()] *)
  FormValue_date : string;            (* [r.FormValue("date")] *)
  Header_MetricsSecret : string       (* [r.Header.Get("Metrics-Secret")] *)
}.

(** Modelled from the spec: the [render] package is not among the sources;
    handlers "translate [errors] to 400/401/500 responses with a plain-text
    message", so that [render.Error] is a write of a message and a status
    code.

    [CsvWrite] is the call [csvw.Write]: it hands a record to the CSV writer,
    which keeps it in its buffer.  The record reaches the response when the
    buffer is sent on, by the [csvw.Flush] that the handlers call after a row
    (after the rows of a user in [HandleUsersMetrics]); a handler that returns
    before it has written a row sends no CSV record at all.  The list of
    outputs is the list of the calls, in their order. *)
Inductive Output :=
| HeaderAdd (key value : string)      (* [w.Header().Add] *)
| RenderError (msg : string) (code : Z)   (* [render.Error] *)
| CsvWrite (record : list string).    (* [csvw.Write] *)

Definition StatusBadRequest : Z := 400.
Definition StatusUnauthorized : Z := 401.
Definition StatusInternalServerError : Z := 500.

(** [uint64(x)] of an [int64] *)
Definition uint64 (x : Z) : Z := (x `mod` 2 ^ 64)%Z.

(** *** The services behind [ta] *)

Record TruAPI := mkTruAPI {
  Config_Metrics_Secret : string;
  (* [ta.Query] of the claims before a time, decoded: the error of the
     query or of the decoding, or the claims *)
  QueryClaimsBeforeTime : Time → string + list claim.Claim;
  (* [ta.Query] of the arguments of a claim, decoded *)
  QueryClaimArguments : Z → string + list staking.Argument.t;
  claimStakesResolver : claim.Claim → list staking.Stake.t;
  (* [ta.Query] of the communities: the error of the query, then the error
     of the decoding or the communities *)
  QueryCommunities : option string;
  DecodeCommunities : string + list community.Community;
  appAccountTransactionsResolver : string → list exported.Transaction;
  (* the data store, [ta.DBClient] *)
  FindAll_users : list db.User * option string;
  OpenedClaimsSummary : Time → list UserOpenedClaimsSummary.t * option string;
  OpenedArgumentsSummary : Time → list UserOpenedArgumentsSummary.t * option string;
  UserRepliesStats_ : Time → list UserRepliesStats.t * option string;
  ClaimViewsStats_ : Time → list ClaimViewsStats.t * option string;
  ClaimRepliesStats_ : Time → list ClaimRepliesStats.t * option string;
  FlaggedStoriesIDs : list Z * option string;
  CommentsByClaimID : Z → list Comment.t
}.

Section Handlers.

(** The clock and the standard library's formatting and parsing. *)
Variable jobTime : string.              (* [time.Now().UTC().Format("200601021504")] *)
Variable time_Parse : string → string + Time.   (* [time.Parse("2006-01-02", _)] *)
Variable Format : Time → string.        (* [t.Format(time.RFC3339Nano)] *)
Variable TrimSpace : string → string.   (* [strings.TrimSpace] *)

(** [TransactionType.AllowedForDeduction] and [TransactionType.String],
    declared in the chain's packages. *)
Variable AllowedForDeduction : exported.TransactionType → bool.
Variable TransactionType_String : exported.TransactionType → string.

Variable ta : TruAPI.

Definition getClaimArguments (claimID : Z)
  : list staking.Argument.t * option string :=
  match QueryClaimArguments ta claimID with
  | inl err => ([], Some err)
  | inr arguments => (arguments, None)
  end.

(** The opening of the three dated reports: the form, the date, the
    claims before it. *)
Definition parseDate (r : Request) : Handler Output Time :=
  match ParseForm r with
  | Some err => write (RenderError err StatusInternalServerError);; exit
  | None =>
      if decide (FormValue_date r = "")
      then write (RenderError "provide a valid date" StatusBadRequest);; exit
      else match time_Parse (FormValue_date r) with
           | inl err => write (RenderError err StatusInternalServerError);; exit
           | inr beforeDate => ret beforeDate
           end
  end.

Definition queryClaims (beforeDate : Time) : Handler Output (list claim.Claim) :=
  match QueryClaimsBeforeTime ta beforeDate with
  | inl err => write (RenderError err StatusInternalServerError);; exit
  | inr claims => ret claims
  end.

(** [if err != nil { render.Error(...) }], without a [return] *)
Definition reportError (err : option string) : Handler Output unit :=
  match err with
  | Some msg => write (RenderError msg StatusInternalServerError)
  | None => ret tt
  end.

(** [if err != nil { render.Error(...); return }] *)
Definition failOnError (err : option string) : Handler Output unit :=
  match err with
  | Some msg => write (RenderError msg StatusInternalServerError);; exit
  | None => ret tt
  end.

(** **** [HandleUserBase] returns the user base. *)

Definition userBaseHeader : list string :=
  ["address"; "username"; "email"; "creation_date"; "updated_date"; "last_login";
   "user_group"].

Definition userBaseRow (user : db.User) : option (list string) :=
  let lastLogin :=
    match db.LastAuthenticatedAt user with
    | Some t => Format t
    | None => ""
    end in
  userGroup ← db.UserGroup_String (db.UserGroup user);
  Some [db.Address user; db.Username user; db.Email user;
        Format (db.CreatedAt user); Format (db.UpdatedAt user);
        lastLogin; userGroup].

Definition HandleUserBase (r : Request) : Handler Output unit :=
  let token := Config_Metrics_Secret ta in
  if bool_decide (token = "") || bool_decide (token ≠ Header_MetricsSecret r)
  then write (RenderError "Invalid token" StatusUnauthorized);; exit
  else
    write (HeaderAdd "Content-Type" "text/csv");;
    write (CsvWrite userBaseHeader);;
    let '(users, err) := FindAll_users ta in
    failOnError err;;
    forEach users tt (λ _ user,
      if decide (db.Address user = "") then ret tt
      else
        let* row := must (userBaseRow user) in
        write (CsvWrite row)).

(** **** [HandleUserClaims] *)

Definition userClaimsHeader : list string :=
  ["job_date_time"; "date"; "claim_id"; "claim"; "community"; "address";
   "creation_date"; "participants"].

(** The two sets of participants of a claim: before the target date and
    before the day before it. *)
Definition addParticipant (targetDate previousDay : Time) (creator : string)
    (created : Time) (ps : gset string * gset string) : gset string * gset string :=
  if negb (Before created targetDate) then ps
  else
    let participantsTarget := {[creator]} ∪ ps.1 in
    if Before created previousDay
    then (participantsTarget, {[creator]} ∪ ps.2)
    else (participantsTarget, ps.2).

Definition userClaimsRow (targetDate : Time) (c : claim.Claim) : list string :=
  let previousDay := (targetDate - 24 * 3600 * 1000000000)%Z in
  let ps :=
    foldl (λ ps s, addParticipant targetDate previousDay
                     (staking.Stake.Creator s) (staking.Stake.CreatedTime s) ps)
          (∅, ∅) (claimStakesResolver ta c) in
  let ps :=
    foldl (λ ps cm, addParticipant targetDate previousDay
                      (Comment.Creator cm) (Comment.CreatedAt cm) ps)
          ps (CommentsByClaimID ta (claim.ID c)) in
  [jobTime; Format targetDate; pretty (claim.ID c); claim.Body c;
   claim.CommunityID c; claim.Creator c; Format (claim.CreatedTime c);
   pretty (Z.of_nat (size ps.1) - Z.of_nat (size ps.2))%Z].

Definition HandleUserClaims (r : Request) : Handler Output unit :=
  write (HeaderAdd "Content-Type" "text/csv");;
  write (CsvWrite userClaimsHeader);;
  let* targetDate := parseDate r in
  let* claims := queryClaims targetDate in
  forEach claims tt (λ _ c,
    if negb (Before (claim.CreatedTime c) targetDate) then ret tt
    else write (CsvWrite (userClaimsRow targetDate c))).

(** **** [HandleClaimMetrics] returns metrics for claims *)

Definition metricsVersion : string := "20190911-01".

Definition claimMetricsHeader : list string :=
  ["job_date_time"; "date"; "created_date"; "flagged"; "id"; "community_id";
   "claim_name";
   "arguments_created"; "agrees_given";
   "staked";
   "staked_backed"; "staked_argument_backed"; "staked_agree_backed";
   "staked_challenged"; "staked_argument_challenged"; "staked_agree_challenged";
   "user_views"; "unique_user_views"; "anon_views"; "unique_anon_views";
   "user_arguments_views"; "unique_user_arguments_views"; "anon_arguments_views";
   "unique_anon_arguments_views";
   "replies";
   "last_activiy_argument";
   "last_activity_agree"].

(** The variables of the loop over the stakes of a claim. *)
Record ClaimTotals := mkClaimTotals {
  agreesGiven : Z;
  totalBacked : Z;
  totalBackedAgree : Z;
  totalBackedArgument : Z;
  totalChallenged : Z;
  totalChallengedAgree : Z;
  totalChallengedArgument : Z;
  lastActivityAgree : Time
}.

Definition noTotals : ClaimTotals := mkClaimTotals 0 0 0 0 0 0 0 0%Z.

(** The loop over the arguments of a claim: the index of every argument,
    the time of the last one and the count of those before the date. *)
Definition scanArguments (beforeDate : Time) (arguments : list staking.Argument.t)
  : gmap Z nat * Time * Z :=
  foldl (λ '(mapArguments, lastActivityArgument, totalArguments) '(idx, argument),
           let mapArguments := <[staking.Argument.ID argument := idx]> mapArguments in
           if negb (Before (staking.Argument.CreatedTime argument) beforeDate)
           then (mapArguments, lastActivityArgument, totalArguments)
           else
             (mapArguments,
              if Before lastActivityArgument (staking.Argument.CreatedTime argument)
              then staking.Argument.CreatedTime argument else lastActivityArgument,
              wrap64 (totalArguments + 1)))
        (∅, 0%Z, 0%Z) (imap (λ idx argument, (idx, argument)) arguments).

Definition claimStake (beforeDate : Time) (arguments : list staking.Argument.t)
    (mapArguments : gmap Z nat) (t : ClaimTotals) (stake : staking.Stake.t)
  : Handler Output ClaimTotals :=
  if negb (Before (staking.Stake.CreatedTime stake) beforeDate) then ret t
  else
    let '(i, ok) :=
      match mapArguments !! staking.Stake.ArgumentID stake with
      | Some i => (i, true)
      | None => (0%nat, false)
      end in
    when (negb ok)
      (write (RenderError
                ("unable to find argument with id " +:+ pretty (staking.Stake.ArgumentID stake))
                StatusInternalServerError));;
    let* a := must (arguments !! i) in
    let amount := sdk.Amount (staking.Stake.Amount stake) in
    let upvote := bool_decide (staking.Stake.Type_ stake = staking.StakeUpvote) in
    let t :=
      if upvote && Before (lastActivityAgree t) (staking.Stake.CreatedTime stake)
      then mkClaimTotals (agreesGiven t) (totalBacked t) (totalBackedAgree t)
             (totalBackedArgument t) (totalChallenged t) (totalChallengedAgree t)
             (totalChallengedArgument t) (staking.Stake.CreatedTime stake)
      else t in
    if bool_decide (staking.Argument.StakeType_ a = staking.StakeBacking) && upvote
    then
      let* backed := must (sdk.IntAdd (totalBacked t) amount) in
      let* backedAgree := must (sdk.IntAdd (totalBackedAgree t) amount) in
      ret (mkClaimTotals (wrap64 (agreesGiven t + 1)) backed backedAgree
             (totalBackedArgument t) (totalChallenged t) (totalChallengedAgree t)
             (totalChallengedArgument t) (lastActivityAgree t))
    else if bool_decide (staking.Argument.StakeType_ a = staking.StakeChallenge) && upvote
    then
      let* challenged := must (sdk.IntAdd (totalChallenged t) amount) in
      let* challengedAgree := must (sdk.IntAdd (totalChallengedAgree t) amount) in
      ret (mkClaimTotals (wrap64 (agreesGiven t + 1)) (totalBacked t) (totalBackedAgree t)
             (totalBackedArgument t) challenged challengedAgree
             (totalChallengedArgument t) (lastActivityAgree t))
    else
      let* t :=
        if bool_decide (staking.Argument.StakeType_ a = staking.StakeBacking)
        then
          let* backed := must (sdk.IntAdd (totalBacked t) amount) in
          let* backedArgument := must (sdk.IntAdd (totalBackedArgument t) amount) in
          ret (mkClaimTotals (agreesGiven t) backed (totalBackedAgree t)
                 backedArgument (totalChallenged t) (totalChallengedAgree t)
                 (totalChallengedArgument t) (lastActivityAgree t))
        else ret t in
      if bool_decide (staking.Argument.StakeType_ a = staking.StakeChallenge)
      then
        let* challenged := must (sdk.IntAdd (totalChallenged t) amount) in
        let* challengedArgument := must (sdk.IntAdd (totalChallengedArgument t) amount) in
        ret (mkClaimTotals (agreesGiven t) (totalBacked t) (totalBackedAgree t)
               (totalBackedArgument t) challenged (totalChallengedAgree t)
               challengedArgument (lastActivityAgree t))
      else ret t.

(** The lookup tables built from the data store's statistics: the index
    of the last entry of each claim. *)
Definition indexBy {A} (key : A → Z) (l : list A) : gmap Z nat :=
  foldl (λ m '(idx, c), <[uint64 (key c) := idx]> m) ∅ (imap (λ idx c, (idx, c)) l).

Definition getStats {A} (zero : A) (l : list A) (mappings : gmap Z nat) (claimID : Z)
  : option A :=
  match mappings !! claimID with
  | None => Some zero
  | Some index => l !! index
  end.

Definition dateString (t : Time) : string := if IsZero t then "" else Format t.

Definition claimMetricsRow (beforeDate : Time) (c : claim.Claim)
    (flaggedClaimsMappings : gmap Z Z) (viewsStats : ClaimViewsStats.t)
    (repliesStats : ClaimRepliesStats.t) (totalArguments : Z)
    (lastActivityArgument : Time) (t : ClaimTotals) : option (list string) :=
  let body := ReplaceAll (claim.Body c) (String (Ascii.ascii_of_nat 10) "") " " in
  staked ← sdk.IntAdd (totalBacked t) (totalChallenged t);
  Some
    [jobTime;
     Format beforeDate;
     Format (claim.CreatedTime c);
     pretty (default 0%Z (flaggedClaimsMappings !! claim.ID c));
     pretty (claim.ID c);
     claim.CommunityID c;
     TrimSpace body;
     pretty totalArguments;
     pretty (agreesGiven t);
     pretty staked;
     pretty (totalBacked t);
     pretty (totalBackedArgument t);
     pretty (totalBackedAgree t);
     pretty (totalChallenged t);
     pretty (totalChallengedArgument t);
     pretty (totalChallengedAgree t);
     pretty (ClaimViewsStats.UserViews viewsStats);
     pretty (ClaimViewsStats.UniqueUserViews viewsStats);
     pretty (ClaimViewsStats.AnonViews viewsStats);
     pretty (ClaimViewsStats.UniqueAnonViews viewsStats);
     pretty (ClaimViewsStats.UserArgumentsViews viewsStats);
     pretty (ClaimViewsStats.UniqueUserArgumentsViews viewsStats);
     pretty (ClaimViewsStats.AnonArgumentsViews viewsStats);
     pretty (ClaimViewsStats.UniqueAnonArgumentsViews viewsStats);
     pretty (ClaimRepliesStats.Replies repliesStats);
     dateString lastActivityArgument;
     dateString (lastActivityAgree t)].

Definition claimMetrics (beforeDate : Time)
    (claimViewsStats : list ClaimViewsStats.t)
    (claimRepliesStats : list ClaimRepliesStats.t)
    (flaggedClaimsMappings : gmap Z Z) (c : claim.Claim) : Handler Output unit :=
  if negb (Before (claim.CreatedTime c) beforeDate) then ret tt
  else
    let '(arguments, err) := getClaimArguments (claim.ID c) in
    let '(mapArguments, lastActivityArgument, totalArguments) :=
      scanArguments beforeDate arguments in
    reportError err;;
    let* t := forEach (claimStakesResolver ta c) noTotals
                (claimStake beforeDate arguments mapArguments) in
    let* viewsStats :=
      must (getStats ClaimViewsStats.zero claimViewsStats
              (indexBy ClaimViewsStats.ClaimID claimViewsStats) (claim.ID c)) in
    let* repliesStats :=
      must (getStats ClaimRepliesStats.zero claimRepliesStats
              (indexBy ClaimRepliesStats.ClaimID claimRepliesStats) (claim.ID c)) in
    let* row :=
      must (claimMetricsRow beforeDate c flaggedClaimsMappings viewsStats repliesStats
              totalArguments lastActivityArgument t) in
    if decide (length claimMetricsHeader ≠ length row)
    then write (RenderError "header and row content mismatch" StatusInternalServerError);;
         exit
    else write (CsvWrite row).

Definition HandleClaimMetrics (r : Request) : Handler Output unit :=
  write (HeaderAdd "x-metrics-version" metricsVersion);;
  let* beforeDate := parseDate r in
  let* claims := queryClaims beforeDate in
  let '(claimViewsStats, err) := ClaimViewsStats_ ta beforeDate in
  failOnError err;;
  let '(claimRepliesStats, err) := ClaimRepliesStats_ ta beforeDate in
  failOnError err;;
  write (HeaderAdd "Content-Type" "text/csv");;
  write (CsvWrite claimMetricsHeader);;
  let '(flaggedClaimsIDs, err) := FlaggedStoriesIDs ta in
  reportError err;;
  let flaggedClaimsMappings : gmap Z Z :=
    foldl (λ m c, <[uint64 c := 1%Z]> m) ∅ flaggedClaimsIDs in
  forEach claims tt (λ _ c,
    claimMetrics beforeDate claimViewsStats claimRepliesStats flaggedClaimsMappings c).

(** **** [HandleUsersMetrics] *)

Record UserCommunityMetrics := mkUserCommunityMetrics {
  Claims : Z;
  Arguments : Z;
  AgreesGiven : Z;
  AgreesReceived : Z;
  Staked : sdk.Coin;
  StakedArgument : sdk.Coin;
  StakedAgree : sdk.Coin;
  InterestArgumentCreated : sdk.Coin;
  InterestAgreeReceived : sdk.Coin;
  InterestAgreeGiven : sdk.Coin;
  CuratorReward : sdk.Coin;
  InterestSlashed : sdk.Coin;
  StakeSlashed : sdk.Coin;
  ClaimsOpened : Z;
  UniqueClaimsOpened : Z;
  ArgumentsOpened : Z;
  UniqueArgumentsOpened : Z;
  Replies : Z;
  EarnedCoin : sdk.Coin;
  PendingStake : sdk.Coin
}.

(** An assignment to one field through the pointer. *)
Definition set_Claims (v : Z) (m : UserCommunityMetrics) : UserCommunityMetrics :=
  mkUserCommunityMetrics v (Arguments m) (AgreesGiven m) (AgreesReceived m) (Staked m)
    (StakedArgument m) (StakedAgree m) (InterestArgumentCreated m)
    (InterestAgreeReceived m) (InterestAgreeGiven m) (CuratorReward m)
    (InterestSlashed m) (StakeSlashed m) (ClaimsOpened m) (UniqueClaimsOpened m)
    (ArgumentsOpened m) (UniqueArgumentsOpened m) (Replies m) (EarnedCoin m)
    (PendingStake m).
Definition set_Arguments (v : Z) (m : UserCommunityMetrics) : UserCommunityMetrics :=
  mkUserCommunityMetrics (Claims m) v (AgreesGiven m) (AgreesReceived m) (Staked m)
    (StakedArgument m) (StakedAgree m) (InterestArgumentCreated m)
    (InterestAgreeReceived m) (InterestAgreeGiven m) (CuratorReward m)
    (InterestSlashed m) (StakeSlashed m) (ClaimsOpened m) (UniqueClaimsOpened m)
    (ArgumentsOpened m) (UniqueArgumentsOpened m) (Replies m) (EarnedCoin m)
    (PendingStake m).
Definition set_AgreesGiven (v : Z) (m : UserCommunityMetrics) : UserCommunityMetrics :=
  mkUserCommunityMetrics (Claims m) (Arguments m) v (AgreesReceived m) (Staked m)
    (StakedArgument m) (StakedAgree m) (InterestArgumentCreated m)
    (InterestAgreeReceived m) (InterestAgreeGiven m) (CuratorReward m)
    (InterestSlashed m) (StakeSlashed m) (ClaimsOpened m) (UniqueClaimsOpened m)
    (ArgumentsOpened m) (UniqueArgumentsOpened m) (Replies m) (EarnedCoin m)
    (PendingStake m).
Definition set_AgreesReceived (v : Z) (m : UserCommunityMetrics) : UserCommunityMetrics :=
  mkUserCommunityMetrics (Claims m) (Arguments m) (AgreesGiven m) v (Staked m)
    (StakedArgument m) (StakedAgree m) (InterestArgumentCreated m)
    (InterestAgreeReceived m) (InterestAgreeGiven m) (CuratorReward m)
    (InterestSlashed m) (StakeSlashed m) (ClaimsOpened m) (UniqueClaimsOpened m)
    (ArgumentsOpened m) (UniqueArgumentsOpened m) (Replies m) (EarnedCoin m)
    (PendingStake m).
Definition set_Staked (v : sdk.Coin) (m : UserCommunityMetrics) : UserCommunityMetrics :=
  mkUserCommunityMetrics (Claims m) (Arguments m) (AgreesGiven m) (AgreesReceived m) v
    (StakedArgument m) (StakedAgree m) (InterestArgumentCreated m)
    (InterestAgreeReceived m) (InterestAgreeGiven m) (CuratorReward m)
    (InterestSlashed m) (StakeSlashed m) (ClaimsOpened m) (UniqueClaimsOpened m)
    (ArgumentsOpened m) (UniqueArgumentsOpened m) (Replies m) (EarnedCoin m)
    (PendingStake m).
Definition set_StakedArgument (v : sdk.Coin) (m : UserCommunityMetrics) : UserCommunityMetrics :=
  mkUserCommunityMetrics (Claims m) (Arguments m) (AgreesGiven m) (AgreesReceived m)
    (Staked m) v (StakedAgree m) (InterestArgumentCreated m) (InterestAgreeReceived m)
    (InterestAgreeGiven m) (CuratorReward m) (InterestSlashed m) (StakeSlashed m)
    (ClaimsOpened m) (UniqueClaimsOpened m) (ArgumentsOpened m)
    (UniqueArgumentsOpened m) (Replies m) (EarnedCoin m) (PendingStake m).
Definition set_StakedAgree (v : sdk.Coin) (m : UserCommunityMetrics) : UserCommunityMetrics :=
  mkUserCommunityMetrics (Claims m) (Arguments m) (AgreesGiven m) (AgreesReceived m)
    (Staked m) (StakedArgument m) v (InterestArgumentCreated m)
    (InterestAgreeReceived m) (InterestAgreeGiven m) (CuratorReward m)
    (InterestSlashed m) (StakeSlashed m) (ClaimsOpened m) (UniqueClaimsOpened m)
    (ArgumentsOpened m) (UniqueArgumentsOpened m) (Replies m) (EarnedCoin m)
    (PendingStake m).
Definition set_InterestArgumentCreated (v : sdk.Coin) (m : UserCommunityMetrics) : UserCommunityMetrics :=
  mkUserCommunityMetrics (Claims m) (Arguments m) (AgreesGiven m) (AgreesReceived m)
    (Staked m) (StakedArgument m) (StakedAgree m) v (InterestAgreeReceived m)
    (InterestAgreeGiven m) (CuratorReward m) (InterestSlashed m) (StakeSlashed m)
    (ClaimsOpened m) (UniqueClaimsOpened m) (ArgumentsOpened m)
    (UniqueArgumentsOpened m) (Replies m) (EarnedCoin m) (PendingStake m).
Definition set_InterestAgreeReceived (v : sdk.Coin) (m : UserCommunityMetrics) : UserCommunityMetrics :=
  mkUserCommunityMetrics (Claims m) (Arguments m) (AgreesGiven m) (AgreesReceived m)
    (Staked m) (StakedArgument m) (StakedAgree m) (InterestArgumentCreated m) v
    (InterestAgreeGiven m) (CuratorReward m) (InterestSlashed m) (StakeSlashed m)
    (ClaimsOpened m) (UniqueClaimsOpened m) (ArgumentsOpened m)
    (UniqueArgumentsOpened m) (Replies m) (EarnedCoin m) (PendingStake m).
Definition set_InterestAgreeGiven (v : sdk.Coin) (m : UserCommunityMetrics) : UserCommunityMetrics :=
  mkUserCommunityMetrics (Claims m) (Arguments m) (AgreesGiven m) (AgreesReceived m)
    (Staked m) (StakedArgument m) (StakedAgree m) (InterestArgumentCreated m)
    (InterestAgreeReceived m) v (CuratorReward m) (InterestSlashed m) (StakeSlashed m)
    (ClaimsOpened m) (UniqueClaimsOpened m) (ArgumentsOpened m)
    (UniqueArgumentsOpened m) (Replies m) (EarnedCoin m) (PendingStake m).
Definition set_CuratorReward (v : sdk.Coin) (m : UserCommunityMetrics) : UserCommunityMetrics :=
  mkUserCommunityMetrics (Claims m) (Arguments m) (AgreesGiven m) (AgreesReceived m)
    (Staked m) (StakedArgument m) (StakedAgree m) (InterestArgumentCreated m)
    (InterestAgreeReceived m) (InterestAgreeGiven m) v (InterestSlashed m)
    (StakeSlashed m) (ClaimsOpened m) (UniqueClaimsOpened m) (ArgumentsOpened m)
    (UniqueArgumentsOpened m) (Replies m) (EarnedCoin m) (PendingStake m).
Definition set_InterestSlashed (v : sdk.Coin) (m : UserCommunityMetrics) : UserCommunityMetrics :=
  mkUserCommunityMetrics (Claims m) (Arguments m) (AgreesGiven m) (AgreesReceived m)
    (Staked m) (StakedArgument m) (StakedAgree m) (InterestArgumentCreated m)
    (InterestAgreeReceived m) (InterestAgreeGiven m) (CuratorReward m) v
    (StakeSlashed m) (ClaimsOpened m) (UniqueClaimsOpened m) (ArgumentsOpened m)
    (UniqueArgumentsOpened m) (Replies m) (EarnedCoin m) (PendingStake m).
Definition set_StakeSlashed (v : sdk.Coin) (m : UserCommunityMetrics) : UserCommunityMetrics :=
  mkUserCommunityMetrics (Claims m) (Arguments m) (AgreesGiven m) (AgreesReceived m)
    (Staked m) (StakedArgument m) (StakedAgree m) (InterestArgumentCreated m)
    (InterestAgreeReceived m) (InterestAgreeGiven m) (CuratorReward m)
    (InterestSlashed m) v (ClaimsOpened m) (UniqueClaimsOpened m) (ArgumentsOpened m)
    (UniqueArgumentsOpened m) (Replies m) (EarnedCoin m) (PendingStake m).
Definition set_ClaimsOpened (v : Z) (m : UserCommunityMetrics) : UserCommunityMetrics :=
  mkUserCommunityMetrics (Claims m) (Arguments m) (AgreesGiven m) (AgreesReceived m)
    (Staked m) (StakedArgument m) (StakedAgree m) (InterestArgumentCreated m)
    (InterestAgreeReceived m) (InterestAgreeGiven m) (CuratorReward m)
    (InterestSlashed m) (StakeSlashed m) v (UniqueClaimsOpened m) (ArgumentsOpened m)
    (UniqueArgumentsOpened m) (Replies m) (EarnedCoin m) (PendingStake m).
Definition set_UniqueClaimsOpened (v : Z) (m : UserCommunityMetrics) : UserCommunityMetrics :=
  mkUserCommunityMetrics (Claims m) (Arguments m) (AgreesGiven m) (AgreesReceived m)
    (Staked m) (StakedArgument m) (StakedAgree m) (InterestArgumentCreated m)
    (InterestAgreeReceived m) (InterestAgreeGiven m) (CuratorReward m)
    (InterestSlashed m) (StakeSlashed m) (ClaimsOpened m) v (ArgumentsOpened m)
    (UniqueArgumentsOpened m) (Replies m) (EarnedCoin m) (PendingStake m).
Definition set_ArgumentsOpened (v : Z) (m : UserCommunityMetrics) : UserCommunityMetrics :=
  mkUserCommunityMetrics (Claims m) (Arguments m) (AgreesGiven m) (AgreesReceived m)
    (Staked m) (StakedArgument m) (StakedAgree m) (InterestArgumentCreated m)
    (InterestAgreeReceived m) (InterestAgreeGiven m) (CuratorReward m)
    (InterestSlashed m) (StakeSlashed m) (ClaimsOpened m) (UniqueClaimsOpened m) v
    (UniqueArgumentsOpened m) (Replies m) (EarnedCoin m) (PendingStake m).
Definition set_UniqueArgumentsOpened (v : Z) (m : UserCommunityMetrics) : UserCommunityMetrics :=
  mkUserCommunityMetrics (Claims m) (Arguments m) (AgreesGiven m) (AgreesReceived m)
    (Staked m) (StakedArgument m) (StakedAgree m) (InterestArgumentCreated m)
    (InterestAgreeReceived m) (InterestAgreeGiven m) (CuratorReward m)
    (InterestSlashed m) (StakeSlashed m) (ClaimsOpened m) (UniqueClaimsOpened m)
    (ArgumentsOpened m) v (Replies m) (EarnedCoin m) (PendingStake m).
Definition set_Replies (v : Z) (m : UserCommunityMetrics) : UserCommunityMetrics :=
  mkUserCommunityMetrics (Claims m) (Arguments m) (AgreesGiven m) (AgreesReceived m)
    (Staked m) (StakedArgument m) (StakedAgree m) (InterestArgumentCreated m)
    (InterestAgreeReceived m) (InterestAgreeGiven m) (CuratorReward m)
    (InterestSlashed m) (StakeSlashed m) (ClaimsOpened m) (UniqueClaimsOpened m)
    (ArgumentsOpened m) (UniqueArgumentsOpened m) v (EarnedCoin m) (PendingStake m).
Definition set_EarnedCoin (v : sdk.Coin) (m : UserCommunityMetrics) : UserCommunityMetrics :=
  mkUserCommunityMetrics (Claims m) (Arguments m) (AgreesGiven m) (AgreesReceived m)
    (Staked m) (StakedArgument m) (StakedAgree m) (InterestArgumentCreated m)
    (InterestAgreeReceived m) (InterestAgreeGiven m) (CuratorReward m)
    (InterestSlashed m) (StakeSlashed m) (ClaimsOpened m) (UniqueClaimsOpened m)
    (ArgumentsOpened m) (UniqueArgumentsOpened m) (Replies m) v (PendingStake m).
Definition set_PendingStake (v : sdk.Coin) (m : UserCommunityMetrics) : UserCommunityMetrics :=
  mkUserCommunityMetrics (Claims m) (Arguments m) (AgreesGiven m) (AgreesReceived m)
    (Staked m) (StakedArgument m) (StakedAgree m) (InterestArgumentCreated m)
    (InterestAgreeReceived m) (InterestAgreeGiven m) (CuratorReward m)
    (InterestSlashed m) (StakeSlashed m) (ClaimsOpened m) (UniqueClaimsOpened m)
    (ArgumentsOpened m) (UniqueArgumentsOpened m) (Replies m) (EarnedCoin m) v.

Record UserMetrics := mkUserMetrics {
  Balance : sdk.Coin;
  CommunityMetrics : gmap string UserCommunityMetrics
}.

(** [sdk.NewInt64Coin(app.StakeDenom, 0)] *)
Definition zeroStake : sdk.Coin := sdk.mkCoin truchain.StakeDenom 0.

Definition newUserCommunityMetrics : UserCommunityMetrics :=
  mkUserCommunityMetrics 0 0 0 0 zeroStake zeroStake zeroStake zeroStake zeroStake
    zeroStake zeroStake zeroStake zeroStake 0 0 0 0 0 zeroStake zeroStake.

(** [Metrics] holds one map, from the address of a user to its metrics.
    The pointers kept in the maps are the entries themselves: no two keys
    share one. *)
Definition getUserMetrics (m : gmap string UserMetrics) (address : string)
  : gmap string UserMetrics * UserMetrics :=
  match m !! address with
  | Some userMetrics => (m, userMetrics)
  | None =>
      let userMetrics := mkUserMetrics zeroStake ∅ in
      (<[address := userMetrics]> m, userMetrics)
  end.

Definition getUserCommunityMetric (m : gmap string UserMetrics)
    (address communityID : string)
  : gmap string UserMetrics * UserCommunityMetrics :=
  let '(m, userMetrics) := getUserMetrics m address in
  match CommunityMetrics userMetrics !! communityID with
  | Some ucm => (m, ucm)
  | None =>
      let ucm := newUserCommunityMetrics in
      (<[address := mkUserMetrics (Balance userMetrics)
                      (<[communityID := ucm]> (CommunityMetrics userMetrics))]> m,
       ucm)
  end.

(** [p := m.getUserCommunityMetric(address, communityID)] followed by
    assignments to fields of [*p]. *)
Definition update (m : gmap string UserMetrics) (address communityID : string)
    (f : UserCommunityMetrics → option UserCommunityMetrics)
  : option (gmap string UserMetrics) :=
  let '(m, ucm) := getUserCommunityMetric m address communityID in
  ucm' ← f ucm;
  Some (alter (λ userMetrics,
                 mkUserMetrics (Balance userMetrics)
                   (<[communityID := ucm']> (CommunityMetrics userMetrics)))
              address m).

Definition assign (m : gmap string UserMetrics) (address communityID : string)
    (f : UserCommunityMetrics → UserCommunityMetrics) : gmap string UserMetrics :=
  let '(m, ucm) := getUserCommunityMetric m address communityID in
  alter (λ userMetrics,
           mkUserMetrics (Balance userMetrics)
             (<[communityID := f ucm]> (CommunityMetrics userMetrics)))
        address m.

Definition betaReleaseDate : Time := (737250 * 86400 * 1000000000)%Z.   (* 2019-07-11 *)

Definition notExpiredAt (date created end_ : Time) : bool :=
  if Before created betaReleaseDate then false
  else if Before date created then false
  else if After date end_ then false
  else if negb (Before created end_) then false
  else true.

(** The first pass: claims, their arguments and their stakes. *)

Definition usersArgument (beforeDate : Time) (c : claim.Claim)
    (s : gmap string UserMetrics * gmap Z string) (argument : staking.Argument.t)
  : gmap string UserMetrics * gmap Z string :=
  if negb (Before (staking.Argument.CreatedTime argument) beforeDate) then s
  else
    (assign s.1 (staking.Argument.Creator argument) (claim.CommunityID c)
       (λ acm, set_Arguments (wrap64 (Arguments acm + 1)) acm),
     <[staking.Argument.ID argument := staking.Argument.Creator argument]> s.2).

Definition usersStake (beforeDate : Time) (c : claim.Claim)
    (argumentIDCreator : gmap Z string) (m : gmap string UserMetrics)
    (stake : staking.Stake.t) : option (gmap string UserMetrics) :=
  if negb (Before (staking.Stake.CreatedTime stake) beforeDate) then Some m
  else
    let creator := staking.Stake.Creator stake in
    let communityID := claim.CommunityID c in
    let amount := staking.Stake.Amount stake in
    let upvote := bool_decide (staking.Stake.Type_ stake = staking.StakeUpvote) in
    let m := (getUserCommunityMetric m creator communityID).1 in
    m ← (if negb (staking.Stake.Expired stake)
            || notExpiredAt beforeDate (staking.Stake.CreatedTime stake)
                 (staking.Stake.EndTime stake)
         then update m creator communityID
                (λ scm, v ← sdk.Add (PendingStake scm) amount; Some (set_PendingStake v scm))
         else Some m);
    m ← (if upvote
         then
           m ← update m creator communityID
                  (λ scm, v ← sdk.Add (StakedAgree scm) amount; Some (set_StakedAgree v scm));
           Some (assign
                   (assign m (default "" (argumentIDCreator !! staking.Stake.ArgumentID stake))
                      (staking.Stake.CommunityID stake)
                      (λ u, set_AgreesReceived (wrap64 (AgreesReceived u + 1)) u))
                   creator communityID
                   (λ scm, set_AgreesGiven (wrap64 (AgreesGiven scm + 1)) scm))
         else Some m);
    m ← (if negb upvote
         then update m creator communityID
                (λ scm, v ← sdk.Add (StakedArgument scm) amount;
                        Some (set_StakedArgument v scm))
         else Some m);
    update m creator communityID
      (λ scm, v ← sdk.Add (Staked scm) amount; Some (set_Staked v scm)).

Definition usersClaim (beforeDate : Time) (m : gmap string UserMetrics) (c : claim.Claim)
  : Handler Output (gmap string UserMetrics) :=
  if negb (Before (claim.CreatedTime c) beforeDate) then ret m
  else
    let m := assign m (claim.Creator c) (claim.CommunityID c)
               (λ ucm, set_Claims (wrap64 (Claims ucm + 1)) ucm) in
    let '(arguments, err) := getClaimArguments (claim.ID c) in
    reportError err;;
    let '(m, argumentIDCreator) := foldl (usersArgument beforeDate c) (m, ∅) arguments in
    forEach (claimStakesResolver ta c) m
      (λ m stake, must (usersStake beforeDate c argumentIDCreator m stake)).

Definition trackedTransactions : list exported.TransactionType :=
  [exported.TransactionBacking;
   exported.TransactionChallenge;
   exported.TransactionCuratorReward;
   exported.TransactionInterestArgumentCreation;
   exported.TransactionInterestUpvoteReceived;
   exported.TransactionInterestUpvoteGiven;
   exported.TransactionInterestArgumentCreationSlashed;
   exported.TransactionInterestUpvoteReceivedSlashed;
   exported.TransactionInterestUpvoteGivenSlashed;
   exported.TransactionStakeCreatorSlashed;
   exported.TransactionStakeCuratorSlashed].

Definition usersMetricsHeader : list string :=
  ["job_date_time"; "date"; "address"; "username"; "balance";
   "community"; "community_name"; "stake_earned";
   "claims_created"; "claims_opened"; "unique_claims_opened";
   "arguments_created"; "agrees_received"; "agrees_given";
   "staked"; "staked_arguments"; "staked_agrees";
   "interest_argument_creation"; "interest_agree_received"; "interest_agree_given";
   "reward_not_helpful";
   "interest_slashed"; "stake_slashed"; "pending_stake";
   "replies";
   "arguments_opened"; "unique_arguments_opened"].

(** The [switch] on the type of a tracked transaction. *)
Definition earned (communityID : string) (delta : Z) (ucm : UserCommunityMetrics)
  : option sdk.Coin :=
  amount ← sdk.IntAdd (sdk.Amount (EarnedCoin ucm)) delta;
  sdk.NewCoin communityID amount.

Definition slashedFrom (communityID : string) (delta : Z) (ucm : UserCommunityMetrics)
  : option sdk.Coin :=
  amount ← sdk.IntSub (sdk.Amount (EarnedCoin ucm)) delta;
  sdk.NewCoin communityID amount.

Definition trackTransaction (ty : exported.TransactionType) (communityID : string)
    (amount : sdk.Coin) (ucm : UserCommunityMetrics) : option UserCommunityMetrics :=
  match ty with
  | exported.TransactionInterestArgumentCreation =>
      v ← sdk.Add (InterestArgumentCreated ucm) amount;
      let ucm := set_InterestArgumentCreated v ucm in
      e ← earned communityID (sdk.Amount amount) ucm; Some (set_EarnedCoin e ucm)
  | exported.TransactionInterestUpvoteReceived =>
      v ← sdk.Add (InterestAgreeReceived ucm) amount;
      let ucm := set_InterestAgreeReceived v ucm in
      e ← earned communityID (sdk.Amount amount) ucm; Some (set_EarnedCoin e ucm)
  | exported.TransactionInterestUpvoteGiven =>
      v ← sdk.Add (InterestAgreeGiven ucm) amount;
      let ucm := set_InterestAgreeGiven v ucm in
      e ← earned communityID (sdk.Amount amount) ucm; Some (set_EarnedCoin e ucm)
  | exported.TransactionCuratorReward =>
      v ← sdk.Add (CuratorReward ucm) amount; Some (set_CuratorReward v ucm)
  | exported.TransactionInterestArgumentCreationSlashed
  | exported.TransactionInterestUpvoteReceivedSlashed
  | exported.TransactionInterestUpvoteGivenSlashed =>
      v ← sdk.Add (InterestSlashed ucm) amount;
      let ucm := set_InterestSlashed v ucm in
      e ← slashedFrom communityID (sdk.Amount amount) ucm; Some (set_EarnedCoin e ucm)
  | exported.TransactionStakeCreatorSlashed
  | exported.TransactionStakeCuratorSlashed =>
      v ← sdk.Add (StakeSlashed ucm) amount; Some (set_StakeSlashed v ucm)
  | _ => Some ucm
  end.

Definition usersTransaction (beforeDate : Time) (user : db.User)
    (s : sdk.Coin * gmap string UserMetrics) (transaction : exported.Transaction)
  : Handler Output (sdk.Coin * gmap string UserMetrics) :=
  let '(balance, m) := s in
  if negb (Before (exported.CreatedTime transaction) beforeDate) then ret s
  else
    let ty := exported.Type_ transaction in
    let amount :=
      if AllowedForDeduction ty
      then sdk.mkCoin (sdk.Denom (exported.Amount transaction))
             (sdk.IntNeg (sdk.Amount (exported.Amount transaction)))
      else exported.Amount transaction in
    let* balance := must (sdk.Add balance amount) in
    if negb (exported.OneOf ty trackedTransactions) then ret (balance, m)
    else if decide (exported.CommunityID transaction = "")
    then
      write (RenderError
               ("transaction " +:+ TransactionType_String ty +:+ " [" +:+
                pretty (exported.ID transaction) +:+ "] must contain community id")
               StatusInternalServerError);;
      exit
    else
      let m := (getUserCommunityMetric m (db.Address user)
                  (exported.CommunityID transaction)).1 in
      let* m := must (update m (db.Address user) (exported.CommunityID transaction)
                        (trackTransaction ty (exported.CommunityID transaction) amount)) in
      ret (balance, m).

Definition usersMetricsRow (rowStart : list string) (cm : community.Community)
    (m : UserCommunityMetrics) : list string :=
  rowStart ++
  [community.ID cm; community.Name cm;
   pretty (sdk.Amount (EarnedCoin m));
   pretty (Claims m); pretty (ClaimsOpened m); pretty (UniqueClaimsOpened m);
   pretty (Arguments m); pretty (AgreesReceived m); pretty (AgreesGiven m);
   pretty (sdk.Amount (Staked m)); pretty (sdk.Amount (StakedArgument m));
   pretty (sdk.Amount (StakedAgree m));
   pretty (sdk.Amount (InterestArgumentCreated m));
   pretty (sdk.Amount (InterestAgreeReceived m));
   pretty (sdk.Amount (InterestAgreeGiven m));
   pretty (sdk.Amount (CuratorReward m));
   pretty (sdk.Amount (InterestSlashed m)); pretty (sdk.Amount (StakeSlashed m));
   pretty (sdk.Amount (PendingStake m));
   pretty (Replies m);
   pretty (ArgumentsOpened m); pretty (UniqueArgumentsOpened m)].

Definition usersUser (beforeDate : Time) (communities : list community.Community)
    (m : gmap string UserMetrics) (user : db.User)
  : Handler Output (gmap string UserMetrics) :=
  if bool_decide (db.Address user = "") || negb (Before (db.CreatedAt user) beforeDate)
  then ret m
  else
    let* (balance, m) :=
      forEach (appAccountTransactionsResolver ta (db.Address user)) (zeroStake, m)
        (usersTransaction beforeDate user) in
    let rowStart :=
      [jobTime; Format beforeDate; db.Address user; db.Username user;
       pretty (sdk.Amount balance)] in
    forEach communities m (λ m cm,
      let '(m, ucm) := getUserCommunityMetric m (db.Address user) (community.ID cm) in
      write (CsvWrite (usersMetricsRow rowStart cm ucm));;
      ret m).

Definition HandleUsersMetrics (r : Request) : Handler Output unit :=
  write (HeaderAdd "x-metrics-version" metricsVersion);;
  let* beforeDate := parseDate r in
  let* claims := queryClaims beforeDate in
  let '(users, err) := FindAll_users ta in
  reportError err;;
  reportError err;;
  let* chainMetrics := forEach claims ∅ (usersClaim beforeDate) in
  reportError (QueryCommunities ta);;
  let* communities :=
    match DecodeCommunities ta with
    | inl err => write (RenderError err StatusInternalServerError);; ret []
    | inr communities => ret communities
    end in
  if decide (length communities = 0)%nat
  then write (RenderError "no communities found" StatusInternalServerError);; exit
  else
    write (HeaderAdd "Content-Type" "text/csv");;
    write (CsvWrite usersMetricsHeader);;
    let '(openedClaims, err) := OpenedClaimsSummary ta beforeDate in
    reportError err;;
    let chainMetrics :=
      foldl (λ m userOpenedClaims,
               assign m (UserOpenedClaimsSummary.Address userOpenedClaims)
                 (UserOpenedClaimsSummary.CommunityID userOpenedClaims)
                 (λ userMetrics,
                    set_UniqueClaimsOpened
                      (UserOpenedClaimsSummary.UniqueOpenedClaims userOpenedClaims)
                      (set_ClaimsOpened
                         (UserOpenedClaimsSummary.OpenedClaims userOpenedClaims)
                         userMetrics)))
            chainMetrics openedClaims in
    let '(openedArguments, err) := OpenedArgumentsSummary ta beforeDate in
    failOnError err;;
    let chainMetrics :=
      foldl (λ m userOpenedArguments,
               assign m (UserOpenedArgumentsSummary.Address userOpenedArguments)
                 (UserOpenedArgumentsSummary.CommunityID userOpenedArguments)
                 (λ userMetrics,
                    set_UniqueArgumentsOpened
                      (UserOpenedArgumentsSummary.UniqueOpenedArguments userOpenedArguments)
                      (set_ArgumentsOpened
                         (UserOpenedArgumentsSummary.OpenedArguments userOpenedArguments)
                         userMetrics)))
            chainMetrics openedArguments in
    let '(replies, err) := UserRepliesStats_ ta beforeDate in
    failOnError err;;
    let chainMetrics :=
      foldl (λ m userReplies,
               assign m (UserRepliesStats.Address userReplies)
                 (UserRepliesStats.CommunityID userReplies)
                 (set_Replies (UserRepliesStats.Replies userReplies)))
            chainMetrics replies in
    forEach users chainMetrics (usersUser beforeDate communities);;
    ret tt.

End Handlers.

End reports.

(** ** [HandleMetrics] dumps metrics per user basis ([handle_metrics.go]) *)

Module metrics.

Import golang http.

(** *** Chain and data-store types *)

Module story.
Inductive Status := Pending | Expired.
#[global] Instance Status_eq_dec : EqDecision Status.
Proof. solve_decision. Defined.

Record Story := mk {
  ID : Z;
  Creator : string;                (* [Creator.String()] *)
  CategoryID : Z;
  Status_ : Status;                (* field [Status] *)
  CreatedTime : Time               (* [Timestamp.CreatedTime] *)
}.
End story.

Module category.
Record Category := mk { ID : Z; Title : string; Denom : string }.
End category.

(** A backing or a challenge. *)
Module Stake.
Record t := mk {
  Creator : string;
  StoryID : Z;
  Amount : sdk.Coin;
  ArgumentID : Z;
  CreatedTime : Time
}.
End Stake.

Module Argument.
Record t := mk { ID : Z; Creator : string }.
End Argument.

Module trubank.
Inductive TransactionType :=
| Interest
| BackingLike
| ChallengeLike
| RewardPool
| BackingReturned
| ChallengeReturned
| Other (code : Z).
#[global] Instance TransactionType_eq_dec : EqDecision TransactionType.
Proof. solve_decision. Defined.

Record Transaction := mk {
  TransactionType_ : TransactionType;    (* field [TransactionType] *)
  GroupID : Z;
  Amount : sdk.Coin;
  CreatedTime : Time
}.
End trubank.

Module users.
Record User := mk { Coins : list sdk.Coin }.

(** [Coins.AmountOf(denom)]: zero when the denomination is absent. *)
Definition AmountOf (coins : list sdk.Coin) (denom : string) : Z :=
  match List.find (λ c, bool_decide (sdk.Denom c = denom)) coins with
  | Some c => sdk.Amount c
  | None => 0%Z
  end.
End users.

(** Modelled from the spec: two rows of the "relational data-access layer",
    whose declarations are not among the sources; the fields are those the
    handler reads. *)
Module TwitterProfile.
Record t := mk { Address : string; Username : string }.
End TwitterProfile.

Module UserOpenedClaims.
Record t := mk { Address : string; CategoryID : Z; OpenedClaims : Z }.
End UserOpenedClaims.

(** [sdk.NewCoin(app.StakeDenom, sdk.NewInt(0))] *)
Definition zeroStake : sdk.Coin := sdk.mkCoin truchain.StakeDenom 0.

(** Metrics tracked. *)
Record Metrics := mkMetrics {
  TotalClaims : Z;
  TotalArguments : Z;
  TotalEndorsementsReceived : Z;
  TotalEndorsementsGiven : Z;
  TotalBackings : Z;
  TotalChallenges : Z;
  TotalOpenedClaims : Z;
  TotalAmountStaked : sdk.Coin;
  TotalAmountBacked : sdk.Coin;
  TotalAmountChallenged : sdk.Coin;
  StakeEarned : sdk.Coin;
  StakeLost : sdk.Coin;
  TotalAmountAtStake : sdk.Coin;
  InterestEarned : sdk.Coin
}.

(** An assignment to one field of [*m]. *)
Definition set_TotalClaims (v : Z) (m : Metrics) : Metrics :=
  mkMetrics v (TotalArguments m) (TotalEndorsementsReceived m) (TotalEndorsementsGiven m)
    (TotalBackings m) (TotalChallenges m) (TotalOpenedClaims m) (TotalAmountStaked m)
    (TotalAmountBacked m) (TotalAmountChallenged m) (StakeEarned m) (StakeLost m)
    (TotalAmountAtStake m) (InterestEarned m).
Definition set_TotalArguments (v : Z) (m : Metrics) : Metrics :=
  mkMetrics (TotalClaims m) v (TotalEndorsementsReceived m) (TotalEndorsementsGiven m)
    (TotalBackings m) (TotalChallenges m) (TotalOpenedClaims m) (TotalAmountStaked m)
    (TotalAmountBacked m) (TotalAmountChallenged m) (StakeEarned m) (StakeLost m)
    (TotalAmountAtStake m) (InterestEarned m).
Definition set_TotalEndorsementsReceived (v : Z) (m : Metrics) : Metrics :=
  mkMetrics (TotalClaims m) (TotalArguments m) v (TotalEndorsementsGiven m)
    (TotalBackings m) (TotalChallenges m) (TotalOpenedClaims m) (TotalAmountStaked m)
    (TotalAmountBacked m) (TotalAmountChallenged m) (StakeEarned m) (StakeLost m)
    (TotalAmountAtStake m) (InterestEarned m).
Definition set_TotalEndorsementsGiven (v : Z) (m : Metrics) : Metrics :=
  mkMetrics (TotalClaims m) (TotalArguments m) (TotalEndorsementsReceived m) v
    (TotalBackings m) (TotalChallenges m) (TotalOpenedClaims m) (TotalAmountStaked m)
    (TotalAmountBacked m) (TotalAmountChallenged m) (StakeEarned m) (StakeLost m)
    (TotalAmountAtStake m) (InterestEarned m).
Definition set_TotalBackings (v : Z) (m : Metrics) : Metrics :=
  mkMetrics (TotalClaims m) (TotalArguments m) (TotalEndorsementsReceived m)
    (TotalEndorsementsGiven m) v (TotalChallenges m) (TotalOpenedClaims m)
    (TotalAmountStaked m) (TotalAmountBacked m) (TotalAmountChallenged m) (StakeEarned m)
    (StakeLost m) (TotalAmountAtStake m) (InterestEarned m).
Definition set_TotalChallenges (v : Z) (m : Metrics) : Metrics :=
  mkMetrics (TotalClaims m) (TotalArguments m) (TotalEndorsementsReceived m)
    (TotalEndorsementsGiven m) (TotalBackings m) v (TotalOpenedClaims m)
    (TotalAmountStaked m) (TotalAmountBacked m) (TotalAmountChallenged m) (StakeEarned m)
    (StakeLost m) (TotalAmountAtStake m) (InterestEarned m).
Definition set_TotalOpenedClaims (v : Z) (m : Metrics) : Metrics :=
  mkMetrics (TotalClaims m) (TotalArguments m) (TotalEndorsementsReceived m)
    (TotalEndorsementsGiven m) (TotalBackings m) (TotalChallenges m) v
    (TotalAmountStaked m) (TotalAmountBacked m) (TotalAmountChallenged m) (StakeEarned m)
    (StakeLost m) (TotalAmountAtStake m) (InterestEarned m).
Definition set_TotalAmountStaked (v : sdk.Coin) (m : Metrics) : Metrics :=
  mkMetrics (TotalClaims m) (TotalArguments m) (TotalEndorsementsReceived m)
    (TotalEndorsementsGiven m) (TotalBackings m) (TotalChallenges m) (TotalOpenedClaims m)
    v (TotalAmountBacked m) (TotalAmountChallenged m) (StakeEarned m) (StakeLost m)
    (TotalAmountAtStake m) (InterestEarned m).
Definition set_TotalAmountBacked (v : sdk.Coin) (m : Metrics) : Metrics :=
  mkMetrics (TotalClaims m) (TotalArguments m) (TotalEndorsementsReceived m)
    (TotalEndorsementsGiven m) (TotalBackings m) (TotalChallenges m) (TotalOpenedClaims m)
    (TotalAmountStaked m) v (TotalAmountChallenged m) (StakeEarned m) (StakeLost m)
    (TotalAmountAtStake m) (InterestEarned m).
Definition set_TotalAmountChallenged (v : sdk.Coin) (m : Metrics) : Metrics :=
  mkMetrics (TotalClaims m) (TotalArguments m) (TotalEndorsementsReceived m)
    (TotalEndorsementsGiven m) (TotalBackings m) (TotalChallenges m) (TotalOpenedClaims m)
    (TotalAmountStaked m) (TotalAmountBacked m) v (StakeEarned m) (StakeLost m)
    (TotalAmountAtStake m) (InterestEarned m).
Definition set_StakeEarned (v : sdk.Coin) (m : Metrics) : Metrics :=
  mkMetrics (TotalClaims m) (TotalArguments m) (TotalEndorsementsReceived m)
    (TotalEndorsementsGiven m) (TotalBackings m) (TotalChallenges m) (TotalOpenedClaims m)
    (TotalAmountStaked m) (TotalAmountBacked m) (TotalAmountChallenged m) v (StakeLost m)
    (TotalAmountAtStake m) (InterestEarned m).
Definition set_StakeLost (v : sdk.Coin) (m : Metrics) : Metrics :=
  mkMetrics (TotalClaims m) (TotalArguments m) (TotalEndorsementsReceived m)
    (TotalEndorsementsGiven m) (TotalBackings m) (TotalChallenges m) (TotalOpenedClaims m)
    (TotalAmountStaked m) (TotalAmountBacked m) (TotalAmountChallenged m) (StakeEarned m)
    v (TotalAmountAtStake m) (InterestEarned m).
Definition set_TotalAmountAtStake (v : sdk.Coin) (m : Metrics) : Metrics :=
  mkMetrics (TotalClaims m) (TotalArguments m) (TotalEndorsementsReceived m)
    (TotalEndorsementsGiven m) (TotalBackings m) (TotalChallenges m) (TotalOpenedClaims m)
    (TotalAmountStaked m) (TotalAmountBacked m) (TotalAmountChallenged m) (StakeEarned m)
    (StakeLost m) v (InterestEarned m).
Definition set_InterestEarned (v : sdk.Coin) (m : Metrics) : Metrics :=
  mkMetrics (TotalClaims m) (TotalArguments m) (TotalEndorsementsReceived m)
    (TotalEndorsementsGiven m) (TotalBackings m) (TotalChallenges m) (TotalOpenedClaims m)
    (TotalAmountStaked m) (TotalAmountBacked m) (TotalAmountChallenged m) (StakeEarned m)
    (StakeLost m) (TotalAmountAtStake m) v.

Definition newMetrics : Metrics :=
  mkMetrics 0 0 0 0 0 0 0 zeroStake zeroStake zeroStake zeroStake zeroStake zeroStake
    zeroStake.

(** CategoryMetrics summary of metrics by category.  A coin left at its
    zero value ([sdk.Coin{}], whose amount is a nil pointer) is [None]. *)
Record CategoryMetrics := mkCategoryMetrics {
  CategoryID : Z;
  CategoryName : string;
  CredEarned : option sdk.Coin;
  Metrics_ : Metrics                 (* field [Metrics] *)
}.

(** UserMetrics a summary of different metrics per user *)
Record UserMetrics := mkUserMetrics {
  UserName : string;
  Balance : option sdk.Coin;
  RunningBalance : option sdk.Coin;
  CategoryMetrics_ : gmap Z CategoryMetrics      (* field [CategoryMetrics] *)
}.

(** MetricsSummary represents metrics for the platform. *)
Record MetricsSummary := mkMetricsSummary {
  Users : gmap string UserMetrics;
  Categories : gmap Z category.Category
}.

(** The maps hold pointers; no pointer is stored under two keys, so that an
    update through a pointer is an update of the entry. *)

Definition getMetricsByCategory (um : UserMetrics) (categoryID : Z)
  : UserMetrics * CategoryMetrics :=
  match CategoryMetrics_ um !! categoryID with
  | Some cm => (um, cm)
  | None =>
      let categoryMetrics := mkCategoryMetrics categoryID "" None newMetrics in
      (mkUserMetrics (UserName um) (Balance um) (RunningBalance um)
         (<[categoryID := categoryMetrics]> (CategoryMetrics_ um)),
       categoryMetrics)
  end.

Definition setCategoryMetrics (um : UserMetrics) (categoryID : Z) (cm : CategoryMetrics)
  : UserMetrics :=
  mkUserMetrics (UserName um) (Balance um) (RunningBalance um)
    (<[categoryID := cm]> (CategoryMetrics_ um)).

(** [m := um.getMetricsByCategory(categoryID).Metrics] followed by an
    assignment to a field of [*m]. *)
Definition onMetrics (categoryID : Z) (f : Metrics → option Metrics) (um : UserMetrics)
  : option UserMetrics :=
  let '(um, cm) := getMetricsByCategory um categoryID in
  m ← f (Metrics_ cm);
  Some (setCategoryMetrics um categoryID
          (mkCategoryMetrics (CategoryID cm) (CategoryName cm) (CredEarned cm) m)).

(** GetUserMetrics gets user metrics or initializes one if not in the map. *)
Definition GetUserMetrics (m : MetricsSummary) (address : string)
  : MetricsSummary * UserMetrics :=
  let userMetrics := default (mkUserMetrics "" None None ∅) (Users m !! address) in
  (mkMetricsSummary (<[address := userMetrics]> (Users m)) (Categories m), userMetrics).

Definition setUserMetrics (m : MetricsSummary) (address : string) (userMetrics : UserMetrics)
  : MetricsSummary :=
  mkMetricsSummary (<[address := userMetrics]> (Users m)) (Categories m).

(** [m.GetUserMetrics(address).method(...)] *)
Definition onUser (address : string) (f : UserMetrics → option UserMetrics)
    (m : MetricsSummary) : option MetricsSummary :=
  let '(m, userMetrics) := GetUserMetrics m address in
  userMetrics ← f userMetrics;
  Some (setUserMetrics m address userMetrics).

Definition increaseArgumentsCount (categoryID : Z) :=
  onMetrics categoryID (λ m, Some (set_TotalArguments (wrap64 (TotalArguments m + 1)) m)).

Definition increaseClaimsCount (categoryID : Z) :=
  onMetrics categoryID (λ m, Some (set_TotalClaims (wrap64 (TotalClaims m + 1)) m)).

Definition increaseEndorsementsGivenCount (categoryID : Z) :=
  onMetrics categoryID
    (λ m, Some (set_TotalEndorsementsGiven (wrap64 (TotalEndorsementsGiven m + 1)) m)).

Definition increaseEndorsementsReceivedCount (categoryID : Z) :=
  onMetrics categoryID
    (λ m, Some (set_TotalEndorsementsReceived (wrap64 (TotalEndorsementsReceived m + 1)) m)).

Definition increaseTotalBackings (categoryID : Z) :=
  onMetrics categoryID (λ m, Some (set_TotalBackings (wrap64 (TotalBackings m + 1)) m)).

Definition increaseTotalChallenges (categoryID : Z) :=
  onMetrics categoryID (λ m, Some (set_TotalChallenges (wrap64 (TotalChallenges m + 1)) m)).

Definition setTotalOpenedClaims (categoryID openedClaims : Z) :=
  onMetrics categoryID (λ m, Some (set_TotalOpenedClaims openedClaims m)).

Definition addAmoutAtStake (categoryID : Z) (amount : sdk.Coin) :=
  onMetrics categoryID
    (λ m, v ← sdk.Add (TotalAmountAtStake m) amount; Some (set_TotalAmountAtStake v m)).

Definition addStakedAmount (categoryID : Z) (amount : sdk.Coin) :=
  onMetrics categoryID
    (λ m, v ← sdk.Add (TotalAmountStaked m) amount; Some (set_TotalAmountStaked v m)).

Definition addBackedAmount (categoryID : Z) (amount : sdk.Coin) :=
  onMetrics categoryID
    (λ m, v ← sdk.Add (TotalAmountBacked m) amount; Some (set_TotalAmountBacked v m)).

Definition addChallengedAmount (categoryID : Z) (amount : sdk.Coin) :=
  onMetrics categoryID
    (λ m, v ← sdk.Add (TotalAmountChallenged m) amount; Some (set_TotalAmountChallenged v m)).

Definition addStakeLost (categoryID : Z) (amount : sdk.Coin) :=
  onMetrics categoryID (λ m, v ← sdk.Add (StakeLost m) amount; Some (set_StakeLost v m)).

Definition addInterestEarned (categoryID : Z) (amount : sdk.Coin) :=
  onMetrics categoryID
    (λ m, v ← sdk.Add (InterestEarned m) amount; Some (set_InterestEarned v m)).

Definition addStakeEarned (categoryID : Z) (amount : sdk.Coin) :=
  onMetrics categoryID (λ m, v ← sdk.Add (StakeEarned m) amount; Some (set_StakeEarned v m)).

Definition addCredEarned (categoryID : Z) (amount : sdk.Coin) (um : UserMetrics)
  : option UserMetrics :=
  let '(um, m) := getMetricsByCategory um categoryID in
  credEarned ← CredEarned m;
  v ← sdk.Add credEarned amount;
  Some (setCategoryMetrics um categoryID
          (mkCategoryMetrics (CategoryID m) (CategoryName m) (Some v) (Metrics_ m))).

Definition addRunningBalance (amount : sdk.Coin) (um : UserMetrics) : option UserMetrics :=
  if decide (sdk.Denom amount = truchain.StakeDenom)
  then
    runningBalance ← RunningBalance um;
    v ← sdk.Add runningBalance amount;
    Some (mkUserMetrics (UserName um) (Balance um) (Some v) (CategoryMetrics_ um))
  else Some um.

(** *** The request, the response and the services behind [ta] *)

Record Request := mkRequest {
  ParseForm : option string;          (* the error of [r.ParseForm()] *)
  FormValue_date : string             (* [r.FormValue("date")] *)
}.

(** Modelled from the spec: the [render] package is not among the sources;
    [render.Error] writes a plain-text message with a status code and
    [render.JSON] the summary "as a JSON tree". *)
Inductive Output :=
| RenderError (msg : string) (code : Z)            (* [render.Error] *)
| RenderJSON (body : MetricsSummary) (code : Z).   (* [render.JSON] *)

Definition StatusOK : Z := 200.
Definition StatusBadRequest : Z := 400.
Definition StatusInternalServerError : Z := 500.

Record TruAPI := mkTruAPI {
  (* [ta.RunQuery("stories/all", ...)], decoded: the error of the query or
     of the decoding, or the stories *)
  RunQuery_stories : string + list story.Story;
  allCategoriesResolver : list category.Category;
  backingsResolver : Z → list Stake.t;
  challengesResolver : Z → list Stake.t;
  argumentResolver : Z → Argument.t;
  usersResolver : string → list users.User;
  transactionsResolver : string → list trubank.Transaction;
  (* the data store, [ta.DBClient] *)
  InitialStakeBalanceByAddress : string → option Z;     (* [None]: an error *)
  FindAll_users : list TwitterProfile.t * option string;
  TwitterProfileByAddress : string → option TwitterProfile.t * option db.error;
  OpenedClaimsSummary : Time → list UserOpenedClaims.t * option string
}.

(** The per-story result of a user's reward transactions. *)
Record storyRewardResult := mkStoryRewardResult {
  srCategoryID : Z;                      (* field [CategoryID] *)
  Reward : option sdk.Coin;
  StakeReturned : option sdk.Coin
}.

(** The variables of the loop over the stories. *)
Record Pass := mkPass {
  metricsSummary : MetricsSummary;
  mappedStories : gmap Z nat;
  mapUserStakeByStoryID : gmap string sdk.Coin
}.

Definition mapUserStakeByStoryIDKey (user : string) (storyID : Z) : string :=
  user +:+ ":" +:+ pretty storyID.

Section Handler.

Variable time_Parse : string → string + Time.   (* [time.Parse("2006-01-02", _)] *)

(** The order in which [range] visits the entries of the two maps the
    handler ranges over: some enumeration of them. *)
Variable rangeCategories : gmap Z category.Category → list (Z * category.Category).
Hypothesis rangeCategories_perm : ∀ m, rangeCategories m ≡ₚ map_to_list m.
Variable rangeResults : gmap Z storyRewardResult → list (Z * storyRewardResult).
Hypothesis rangeResults_perm : ∀ m, rangeResults m ≡ₚ map_to_list m.

Variable ta : TruAPI.

(** One backing ([backing = true]) or challenge of the story [s]: the
    amount backed or challenged so far, the summary and the side map. *)
Definition stake (beforeDate : Time) (s : story.Story) (backing : bool)
    (acc : sdk.Coin * MetricsSummary * gmap string sdk.Coin) (b : Stake.t)
  : option (sdk.Coin * MetricsSummary * gmap string sdk.Coin) :=
  let '(stakedAmount, summary, stakeByStory) := acc in
  if negb (Before (Stake.CreatedTime b) beforeDate) then Some acc
  else
    stakedAmount ← sdk.Add stakedAmount (Stake.Amount b);
    let creator := Stake.Creator b in
    let stakeByStory :=
      <[mapUserStakeByStoryIDKey creator (Stake.StoryID b) := Stake.Amount b]> stakeByStory in
    let categoryID := story.CategoryID s in
    summary ← onUser creator (λ um,
      um ← addStakedAmount categoryID (Stake.Amount b) um;
      um ← (if backing then addBackedAmount categoryID (Stake.Amount b) um
            else addChallengedAmount categoryID (Stake.Amount b) um);
      um ← (if backing then increaseTotalBackings categoryID um
            else increaseTotalChallenges categoryID um);
      um ← (if decide (story.Status_ s = story.Pending)
            then addAmoutAtStake categoryID (Stake.Amount b) um
            else Some um);
      let argument := argumentResolver ta (Stake.ArgumentID b) in
      if decide (Argument.ID argument = 0%Z) then Some um
      else
        um ← (if decide (Argument.Creator argument = creator)
              then increaseArgumentsCount categoryID um else Some um);
        if decide (Argument.Creator argument ≠ creator)
        then increaseEndorsementsGivenCount categoryID um else Some um) summary;
    Some (stakedAmount, summary, stakeByStory).

(** [for _, b := range stakes { GetUserMetrics(b.Creator()).addStakeLost(...) }] *)
Definition stakesLost (categoryID : Z) (stakes : list Stake.t) (summary : MetricsSummary)
  : option MetricsSummary :=
  foldlM (λ summary b,
            onUser (Stake.Creator b) (addStakeLost categoryID (Stake.Amount b)) summary)
         summary stakes.

(** The body of the loop over the stories. *)
Definition storyPass (beforeDate : Time) (p : Pass) (entry : nat * story.Story)
  : option Pass :=
  let '(idx, s) := entry in
  if negb (Before (story.CreatedTime s) beforeDate) then Some p
  else
    let mapped := <[story.ID s := idx]> (mappedStories p) in
    summary ← onUser (story.Creator s) (increaseClaimsCount (story.CategoryID s))
                (metricsSummary p);
    let backings := backingsResolver ta (story.ID s) in
    '(backingAmount, summary, stakeByStory) ←
      foldlM (stake beforeDate s true)
             (zeroStake, summary, mapUserStakeByStoryID p) backings;
    let challenges := challengesResolver ta (story.ID s) in
    '(challengeAmount, summary, stakeByStory) ←
      foldlM (stake beforeDate s false) (zeroStake, summary, stakeByStory) challenges;
    if decide (story.Status_ s = story.Pending)
    then Some (mkPass summary mapped stakeByStory)
    else
      summary ← (if sdk.IsLT backingAmount challengeAmount
                 then stakesLost (story.CategoryID s) backings summary
                 else Some summary);
      summary ← (if sdk.IsLT challengeAmount backingAmount
                 then stakesLost (story.CategoryID s) challenges summary
                 else Some summary);
      Some (mkPass summary mapped stakeByStory).

Definition storiesPass (beforeDate : Time) (stories : list story.Story)
    (summary : MetricsSummary) : option Pass :=
  foldlM (storyPass beforeDate) (mkPass summary ∅ ∅)
         (imap (λ idx s, (idx, s)) stories).

(** *** The loop over the users of the data store *)

Definition getUser (address : string) : users.User :=
  match usersResolver ta address with
  | u :: _ => u
  | [] => users.mk []
  end.

Definition getInitialStakeBalance (address : string) : Z :=
  match InitialStakeBalanceByAddress ta address with
  | None => 0%Z
  | Some initialBalance => wrap64 initialBalance
  end.

(** [sdk.NewCoin(tx.Amount.Denom, sdk.NewInt(tx.Amount.Amount.Int64()))] *)
Definition copyCoin (amount : sdk.Coin) : option sdk.Coin :=
  a ← sdk.Int64 (sdk.Amount amount);
  sdk.NewCoin (sdk.Denom amount) a.

(** The body of the loop over the transactions of a user. *)
Definition transaction (beforeDate : Time) (stories : list story.Story)
    (mapped : gmap Z nat) (acc : UserMetrics * gmap Z storyRewardResult)
    (tx : trubank.Transaction) : option (UserMetrics * gmap Z storyRewardResult) :=
  let '(um, userStoryResults) := acc in
  if negb (Before (trubank.CreatedTime tx) beforeDate) then Some acc
  else
    um ← addRunningBalance (trubank.Amount tx) um;
    match trubank.TransactionType_ tx with
    | trubank.Interest =>
        match mapped !! trubank.GroupID tx with
        | None => Some (um, userStoryResults)
        | Some i =>
            s ← stories !! i;
            um ← addInterestEarned (story.CategoryID s) (trubank.Amount tx) um;
            Some (um, userStoryResults)
        end
    | trubank.BackingLike
    | trubank.ChallengeLike =>
        match mapped !! trubank.GroupID tx with
        | None => Some (um, userStoryResults)
        | Some i =>
            s ← stories !! i;
            um ← addCredEarned (story.CategoryID s) (trubank.Amount tx) um;
            um ← increaseEndorsementsReceivedCount (story.CategoryID s) um;
            Some (um, userStoryResults)
        end
    | trubank.RewardPool
    | trubank.BackingReturned
    | trubank.ChallengeReturned =>
        match mapped !! trubank.GroupID tx with
        | None => Some (um, userStoryResults)
        | Some i =>
            s ← stories !! i;
            if decide (story.Status_ s ≠ story.Expired) then Some (um, userStoryResults)
            else
              let storyReward :=
                default (mkStoryRewardResult (story.CategoryID s) None None)
                        (userStoryResults !! trubank.GroupID tx) in
              storyReward ←
                (if decide (trubank.TransactionType_ tx = trubank.RewardPool)
                 then reward ← copyCoin (trubank.Amount tx);
                      Some (mkStoryRewardResult (srCategoryID storyReward) (Some reward)
                              (StakeReturned storyReward))
                 else Some storyReward);
              storyReward ←
                (if bool_decide (trubank.TransactionType_ tx = trubank.BackingReturned)
                    || bool_decide (trubank.TransactionType_ tx = trubank.ChallengeReturned)
                 then returned ← copyCoin (trubank.Amount tx);
                      Some (mkStoryRewardResult (srCategoryID storyReward)
                              (Reward storyReward) (Some returned))
                 else Some storyReward);
              Some (um, <[trubank.GroupID tx := storyReward]> userStoryResults)
        end
    | trubank.Other _ => Some (um, userStoryResults)
    end.

(** The amount the loop over [userStoryResults] passes to
    [addStakeEarned] for one entry: [Some None] when the entry is skipped,
    [None] when the subtraction panics. *)
Definition stakeEarnedAmount (stakeByStory : gmap string sdk.Coin)
    (userAddress : string) (storyID : Z) (storyResult : storyRewardResult)
  : option (option sdk.Coin) :=
  match Reward storyResult with
  | None => Some None
  | Some reward =>
      match StakeReturned storyResult with
      | Some _ => Some (Some reward)
      | None =>
          match stakeByStory !! mapUserStakeByStoryIDKey userAddress storyID with
          | None => Some None
          | Some stakedAmount =>
              reward ← sdk.Sub reward stakedAmount;
              if sdk.IsZero reward then Some None
              else if sdk.IsNegative reward then Some None
              else Some (Some reward)
          end
      end
  end.

Definition storyResultPass (stakeByStory : gmap string sdk.Coin) (userAddress : string)
    (um : UserMetrics) (entry : Z * storyRewardResult) : option UserMetrics :=
  let '(storyID, storyResult) := entry in
  amount ← stakeEarnedAmount stakeByStory userAddress storyID storyResult;
  match amount with
  | Some reward => addStakeEarned (srCategoryID storyResult) reward um
  | None => Some um
  end.

Definition categoryPass (um : UserMetrics) (entry : Z * category.Category)
  : option UserMetrics :=
  let '(cID, c) := entry in
  let '(um, cm) := getMetricsByCategory um cID in
  credEarned ← sdk.NewCoin (category.Denom c) 0;
  Some (setCategoryMetrics um cID
          (mkCategoryMetrics (CategoryID cm) (category.Title c) (Some credEarned)
             (Metrics_ cm))).

(** The transactions of a user before the date: the user's metrics and
    the per-story results. *)
Definition transactionsPass (beforeDate : Time) (stories : list story.Story)
    (p : Pass) (userAddress : string) (um : UserMetrics)
  : option (UserMetrics * gmap Z storyRewardResult) :=
  foldlM (transaction beforeDate stories (mappedStories p)) (um, ∅)
         (transactionsResolver ta userAddress).

Definition userPass (beforeDate : Time) (stories : list story.Story) (p : Pass)
    (summary : MetricsSummary) (userProfile : TwitterProfile.t) : option MetricsSummary :=
  let userAddress := TwitterProfile.Address userProfile in
  let '(summary, um) := GetUserMetrics summary userAddress in
  let user := getUser userAddress in
  balance ← sdk.NewCoin truchain.StakeDenom
              (users.AmountOf (users.Coins user) truchain.StakeDenom);
  runningBalance ← sdk.NewInt64Coin truchain.StakeDenom (getInitialStakeBalance userAddress);
  let um := mkUserMetrics (UserName um) (Some balance) (Some runningBalance)
              (CategoryMetrics_ um) in
  um ← foldlM categoryPass um (rangeCategories (Categories summary));
  let um :=
    match TwitterProfileByAddress ta userAddress with
    | (Some profile, None) =>
        mkUserMetrics (TwitterProfile.Username profile) (Balance um) (RunningBalance um)
          (CategoryMetrics_ um)
    | _ => um
    end in
  '(um, userStoryResults) ← transactionsPass beforeDate stories p userAddress um;
  um ← foldlM (storyResultPass (mapUserStakeByStoryID p) userAddress) um
         (rangeResults userStoryResults);
  Some (setUserMetrics summary userAddress um).

Definition openedClaimsPass (summary : MetricsSummary) (uoc : UserOpenedClaims.t)
  : option MetricsSummary :=
  onUser (UserOpenedClaims.Address uoc)
    (setTotalOpenedClaims (UserOpenedClaims.CategoryID uoc)
       (UserOpenedClaims.OpenedClaims uoc))
    summary.

Definition reportError (err : option string) : Handler Output unit :=
  match err with
  | Some msg => write (RenderError msg StatusInternalServerError)
  | None => ret tt
  end.

(** The handler after the form has been parsed. *)
Definition aggregate (beforeDate : Time) : Handler Output unit :=
  match RunQuery_stories ta with
  | inl err => write (RenderError err StatusInternalServerError);; exit
  | inr stories =>
      let categories := allCategoriesResolver ta in
      if decide (length categories = 0)%nat
      then write (RenderError "no categories found" StatusInternalServerError);; exit
      else
        let mappedCategories : gmap Z category.Category :=
          foldl (λ m cat, <[category.ID cat := cat]> m) ∅ categories in
        let* p := must (storiesPass beforeDate stories
                          (mkMetricsSummary ∅ mappedCategories)) in
        let '(users, err) := FindAll_users ta in
        reportError err;;
        let* summary :=
          must (foldlM (userPass beforeDate stories p) (metricsSummary p) users) in
        let '(openedClaims, err) := OpenedClaimsSummary ta beforeDate in
        reportError err;;
        let* summary := must (foldlM openedClaimsPass summary openedClaims) in
        write (RenderJSON summary StatusOK)
  end.

Definition HandleMetrics (r : Request) : Handler Output unit :=
  match ParseForm r with
  | Some err => write (RenderError err StatusInternalServerError);; exit
  | None =>
      if decide (FormValue_date r = "")
      then write (RenderError "provide a valid date" StatusBadRequest);; exit
      else match time_Parse (FormValue_date r) with
           | inl err => write (RenderError err StatusInternalServerError);; exit
           | inr beforeDate => aggregate beforeDate
           end
  end.

End Handler.

End metrics.

(** ** [package db], mention.go: from addresses to profile links *)

Module mention.

(** The errors [replaceAddressesWithProfileURLs] returns: those of the data
    store and those of [url.Parse]. *)
Inductive error := DataStore (err : db.error) | URLError (msg : string).

Section ProfileURLs.

Variable parseMentions : string → list string.

Variable TwitterProfileByAddress
  : string → option db.TwitterProfile.t * option db.error.

(** [path.Join] of two elements, [url.Parse] and the [String] method of the
    URL it returns: the standard library. *)
Variable path_Join : string → string → string.
Variable URL : Type.
Variable url_Parse : string → string + URL.
Variable URL_String : URL → string.

(** [c.config.Host] *)
Variable Host_Name : string.
Variable Host_HTTPSEnabled : bool.

Variable mapRange : gmap string string → list (string * string).

(** The loop of [mapAddressesToProfileURLs]: the map filled so far, and the
    error that ends the loop, if any. *)
Fixpoint lookupAddresses (addresses : list string) (profileURLPrefix : string)
    (profileURLsByAddress : gmap string string) : gmap string string * option error :=
  match addresses with
  | [] => (profileURLsByAddress, None)
  | address :: rest =>
      match TwitterProfileByAddress address with
      | (_, Some err) => (profileURLsByAddress, Some (DataStore err))
      | (None, None) =>
          lookupAddresses rest profileURLPrefix
            (<[address := address]> profileURLsByAddress)
      | (Some twitterProfile, None) =>
          let profileURLString :=
            path_Join profileURLPrefix (db.TwitterProfile.Address twitterProfile) in
          match url_Parse profileURLString with
          | inl err => (profileURLsByAddress, Some (URLError err))
          | inr profileURL =>
              let httpPrefix := if Host_HTTPSEnabled then "https://" else "http://" in
              let markdownProfileURL :=
                "[@" +:+ db.TwitterProfile.Username twitterProfile +:+ "]("
                +:+ httpPrefix +:+ URL_String profileURL +:+ ")" in
              lookupAddresses rest profileURLPrefix
                (<[address := markdownProfileURL]> profileURLsByAddress)
          end
      end
  end.

Definition mapAddressesToProfileURLs (body profileURLPrefix : string)
  : gmap string string * option error :=
  lookupAddresses (parseMentions body) profileURLPrefix ∅.

(** replace @cosmosaddr with profile link
    [@username](https://app.trustory.io/profile/cosmosaddr) *)
Definition replaceAddressesWithProfileURLs (body : string) : string * option error :=
  let profileURLPrefix := path_Join Host_Name "profile" in
  match mapAddressesToProfileURLs body profileURLPrefix with
  | (_, Some err) => ("", Some err)
  | (profileURLsByAddress, None) =>
      (foldl (λ body '(address, profileURL),
                golang.ReplaceAll body ("@" +:+ address) profileURL)
             body (mapRange profileURLsByAddress),
       None)
  end.

Definition TranslateToUsersMentions (body : string) : string * option error :=
  replaceAddressesWithProfileURLs body.

End ProfileURLs.

End mention.

(** ** [package truapi], truapi.go: field resolvers *)

Module resolvers.

(** The "body" of a [ClaimArgument]: [Body] is [q.Body], [Raw] the
    argument of the field. *)
Definition claimArgumentBody
    (TranslateToUsersMentions : string → string * option mention.error)
    (Body : string) (Raw : bool) : string :=
  if Raw then Body
  else
    match TranslateToUsersMentions Body with
    | (_, Some _) => Body
    | (body, None) => body
    end.

(** The "senderProfile" of a [NotificationEvent]: [hasSenderProfile] is
    [q.SenderProfile != nil].  The result is the account, nil when there is
    none; the resolver panics when it dereferences a nil user. *)
Definition senderProfile {AppAccount : Type} (c : db.Client)
    (appAccountResolver : string → option AppAccount)
    (hasSenderProfile : bool) (SenderProfileID : Z) : option (option AppAccount) :=
  if hasSenderProfile
  then
    match db.UserByID c SenderProfileID with
    | (_, Some _) => Some None
    | (None, None) => None
    | (Some sender, None) => Some (appAccountResolver (db.Address sender))
    end
  else Some None.

End resolvers.

(** ** [package db]: a user name that is not taken ([getUniqueUsername]) *)

Module usernames.

(** [strconv.Atoi], for a 64-bit [int]: an optional sign and decimal digits,
    within the range of [int]; [None] is its error, a [*NumError]. *)

Definition digit (c : Ascii.ascii) : option Z :=
  let n := Z.of_nat (Ascii.nat_of_ascii c) in
  if bool_decide (48 ≤ n ≤ 57)%Z then Some (n - 48)%Z else None.

Fixpoint digits (acc : Z) (s : string) : option Z :=
  match s with
  | EmptyString => Some acc
  | String c s' => d ← digit c; digits (10 * acc + d) s'
  end.

Definition Atoi (s : string) : option Z :=
  let '(neg, body) :=
    match s with
    | String c rest =>
        if decide (c = Ascii.ascii_of_nat 45) then (true, rest)
        else if decide (c = Ascii.ascii_of_nat 43) then (false, rest)
        else (false, s)
    | EmptyString => (false, s)
    end in
  match body with
  | EmptyString => None
  | String _ _ =>
      match digits 0 body with
      | None => None
      | Some n =>
          let i := if neg : bool then (- n)%Z else n in
          if bool_decide (- 2 ^ 63 ≤ i < 2 ^ 63)%Z then Some i else None
      end
  end.

(** [strconv.Itoa] *)
Definition Itoa (i : Z) : string := pretty i.

(** The errors [getUniqueUsername] returns: those of the data store and those
    of [strconv.Atoi]. *)
Inductive error := DataStore (err : db.error) | NumError.

Section UniqueUsername.

(** [c.UserByUsername] *)
Variable UserByUsername : string → option db.User * option db.error.

(** [getUniqueUsername], with [fuel] bounding the depth of its recursion. *)
Fixpoint getUniqueUsername (fuel : nat) (username suffix : string)
  : option (string * option error) :=
  match fuel with
  | O => None
  | S fuel =>
      let candidate := username +:+ suffix in
      match UserByUsername (username +:+ suffix) with
      | (_, Some err) => Some ("", Some (DataStore err))
      | (Some _, None) =>
          match (if decide (suffix = "") then Some 0%Z else Atoi suffix) with
          | None => Some ("", Some NumError)
          | Some intSuffix =>
              getUniqueUsername fuel username (Itoa (golang.wrap64 (intSuffix + 1)))
          end
      | (None, None) => Some (candidate, None)
      end
  end.

End UniqueUsername.

End usernames.

(** * Sample data

    Small concrete instances of the services, used to run the definitions. *)

Module sample.

Local Open Scope Z_scope.

Definition alice : db.User := db.mkUser 1 "alice" "alice@example.org" "tru1alice" 100 100 None 0.
Definition bob : db.User := db.mkUser 2 "bob" "bob@example.org" "tru1bob" 200 200 (Some 300%Z) 1.

Definition client : db.Client := db.mkClient [alice; bob] None.
Definition brokenClient : db.Client := db.mkClient [alice; bob] (Some "connection refused").

(** A data store whose lookup of user 7 fails. *)
Definition flakyUserByID (id : Z) : option db.User * option db.error :=
  if bool_decide (id = 7%Z) then (None, Some (db.ErrDriver "timeout"))
  else db.UserByID client id.

Definition noParseCoin (s : string) : option sdk.Coin := None.

Definition invite (rewardee causer : Z) : app.RewardNotificationRequest :=
  app.mkRewardNotificationRequest rewardee causer app.RewardTypeInvite "3"
    app.RewardCauserActionOther.

Definition inviteNotification (to reason : string) : push.Notification :=
  push.mkNotification to 0 db.NotificationRewardInviteUnlocked
    ("rewarded with 3 invites because " +:+ reason)
    db.mkNotificationMeta "Reward unlocked" true.

(** A stand-in for the mention library: the words that start with [@]. *)
Definition parseMentions (body : string) : list string :=
  omap (λ w, match w with
             | String c rest =>
                 if decide (c = Ascii.ascii_of_nat 64) then Some rest else None
             | EmptyString => None
             end) (String.words body).

Definition TwitterProfileByUsername (username : string)
  : option db.TwitterProfile.t * option db.error :=
  if decide (username = "bob") then (Some (db.TwitterProfile.mk "bob" "tru1bob"), None)
  else (None, None).

(** *** A small chain and data store for the reports *)

Definition time_Parse (date : string) : string + golang.Time :=
  if decide (date = "2019-09-11") then inr 1000 else inl "parsing time: cannot parse".

Definition Format (t : golang.Time) : string := pretty t.

Definition TrimSpace (s : string) : string := s.

Definition AllowedForDeduction (t : reports.exported.TransactionType) : bool :=
  bool_decide (t ∈ [reports.exported.TransactionBacking; reports.exported.TransactionChallenge]).

Definition TransactionType_String (t : reports.exported.TransactionType) : string := "tx".

Definition stakeCoin (amount : Z) : sdk.Coin := sdk.mkCoin truchain.StakeDenom amount.

Definition theClaim : reports.claim.Claim :=
  reports.claim.mk 1 "crypto" "Bitcoin is sound money" "tru1alice" 500.

Definition theArgument : reports.staking.Argument.t :=
  reports.staking.Argument.mk 1 "tru1alice" reports.staking.StakeBacking 510.

(** A stake on argument 1, and one whose argument, 2, is not among the
    arguments of the claim. *)
Definition goodStake : reports.staking.Stake.t :=
  reports.staking.Stake.mk 1 "crypto" reports.staking.StakeBacking (stakeCoin 30)
    "tru1alice" 510 900 false.

Definition orphanStake : reports.staking.Stake.t :=
  reports.staking.Stake.mk 2 "crypto" reports.staking.StakeUpvote (stakeCoin 5)
    "tru1bob" 520 900 false.

Definition api (stakes : list reports.staking.Stake.t) : reports.TruAPI :=
  {| reports.Config_Metrics_Secret := "s3cret";
     reports.QueryClaimsBeforeTime := λ _, inr [theClaim];
     reports.QueryClaimArguments := λ _, inr [theArgument];
     reports.claimStakesResolver := λ _, stakes;
     reports.QueryCommunities := None;
     reports.DecodeCommunities := inr [reports.community.mk "crypto" "Cryptocurrency"];
     reports.appAccountTransactionsResolver := λ _, [];
     reports.FindAll_users := ([alice; bob], None);
     reports.OpenedClaimsSummary := λ _, ([], None);
     reports.OpenedArgumentsSummary := λ _, ([], None);
     reports.UserRepliesStats_ := λ _, ([], None);
     reports.ClaimViewsStats_ := λ _, ([], None);
     reports.ClaimRepliesStats_ := λ _, ([], None);
     reports.FlaggedStoriesIDs := ([], None);
     reports.CommentsByClaimID := λ _, [] |}.

Definition request (secret : string) : reports.Request :=
  reports.mkRequest None "2019-09-11" secret.

(** *** A small chain and data store for [HandleMetrics]

    Story 1 (category 10, expired): alice backs 30, bob backs 20 and
    challenges 10.  Story 2 (category 10, pending): alice backs 5 before the
    date and 7 after it.  Story 3 (category 20) and its backing come after
    the date. *)

Definition stories : list metrics.story.Story :=
  [metrics.story.mk 1 "tru1alice" 10 metrics.story.Expired 100;
   metrics.story.mk 2 "tru1bob" 10 metrics.story.Pending 200;
   metrics.story.mk 3 "tru1bob" 20 metrics.story.Pending 2000].

Definition backings (storyID : Z) : list metrics.Stake.t :=
  if decide (storyID = 1)
  then [metrics.Stake.mk "tru1alice" 1 (stakeCoin 30) 1 110;
        metrics.Stake.mk "tru1bob" 1 (stakeCoin 20) 1 120]
  else if decide (storyID = 2)
  then [metrics.Stake.mk "tru1alice" 2 (stakeCoin 5) 2 210;
        metrics.Stake.mk "tru1alice" 2 (stakeCoin 7) 2 1500]
  else if decide (storyID = 3)
  then [metrics.Stake.mk "tru1bob" 3 (stakeCoin 50) 0 2100]
  else [].

Definition challenges (storyID : Z) : list metrics.Stake.t :=
  if decide (storyID = 1)
  then [metrics.Stake.mk "tru1bob" 1 (stakeCoin 10) 3 130]
  else [].

(** Alice is rewarded 45 for story 1 in one transaction, bob 40 in two. *)
Definition transactions (address : string) : list metrics.trubank.Transaction :=
  if decide (address = "tru1alice")
  then [metrics.trubank.mk metrics.trubank.RewardPool 1 (stakeCoin 45) 900;
        metrics.trubank.mk metrics.trubank.Interest 2 (stakeCoin 1) 950]
  else [metrics.trubank.mk metrics.trubank.BackingReturned 1 (stakeCoin 20) 900;
        metrics.trubank.mk metrics.trubank.RewardPool 1 (stakeCoin 40) 901].

Definition chain : metrics.TruAPI :=
  {| metrics.RunQuery_stories := inr stories;
     metrics.allCategoriesResolver :=
       [metrics.category.mk 10 "Crypto" "crypto"; metrics.category.mk 20 "Sports" "sports"];
     metrics.backingsResolver := backings;
     metrics.challengesResolver := challenges;
     metrics.argumentResolver := λ id, metrics.Argument.mk id "tru1alice";
     metrics.usersResolver := λ _, [metrics.users.mk [stakeCoin 1000]];
     metrics.transactionsResolver := transactions;
     metrics.InitialStakeBalanceByAddress := λ _, Some 300;
     metrics.FindAll_users :=
       ([metrics.TwitterProfile.mk "tru1alice" "alice";
         metrics.TwitterProfile.mk "tru1bob" "bob"], None);
     metrics.TwitterProfileByAddress := λ _, (None, None);
     metrics.OpenedClaimsSummary := λ _, ([], None) |}.

Definition metricsRequest : metrics.Request := metrics.mkRequest None "2019-09-11".

(** The variables of [HandleMetrics] after its loop over the stories, and the
    metrics of a user when the loop over its transactions starts. *)
Definition pass : metrics.Pass :=
  default (metrics.mkPass (metrics.mkMetricsSummary ∅ ∅) ∅ ∅)
          (metrics.storiesPass chain 1000 stories (metrics.mkMetricsSummary ∅ ∅)).

Definition freshUser : metrics.UserMetrics :=
  metrics.mkUserMetrics "" (Some (stakeCoin 1000)) (Some (stakeCoin 300)) ∅.

Definition aliceResult : metrics.storyRewardResult :=
  metrics.mkStoryRewardResult 10 (Some (stakeCoin 45)) None.

(** *** A stake older than its story

    Story 3 (category 20) is created after the date, bob's backing of 50 on
    it before the date. *)

Definition lateStory : metrics.story.Story :=
  metrics.story.mk 3 "tru1bob" 20 metrics.story.Pending 2000.

Definition earlyStakeChain : metrics.TruAPI :=
  {| metrics.RunQuery_stories := inr [lateStory];
     metrics.allCategoriesResolver :=
       [metrics.category.mk 10 "Crypto" "crypto"; metrics.category.mk 20 "Sports" "sports"];
     metrics.backingsResolver :=
       λ storyID, if decide (storyID = 3)
                  then [metrics.Stake.mk "tru1bob" 3 (stakeCoin 50) 0 500]
                  else [];
     metrics.challengesResolver := λ _, [];
     metrics.argumentResolver := λ id, metrics.Argument.mk id "tru1alice";
     metrics.usersResolver := λ _, [metrics.users.mk [stakeCoin 1000]];
     metrics.transactionsResolver := λ _, [];
     metrics.InitialStakeBalanceByAddress := λ _, Some 300;
     metrics.FindAll_users := ([metrics.TwitterProfile.mk "tru1bob" "bob"], None);
     metrics.TwitterProfileByAddress := λ _, (None, None);
     metrics.OpenedClaimsSummary := λ _, ([], None) |}.

(** *** A reward and the stake it is paid for

    Story 1 (category 10, expired): alice backs [staked] on it before the
    date and is rewarded 45 for it in one transaction. *)

Definition rewardedChain (staked : Z) : metrics.TruAPI :=
  {| metrics.RunQuery_stories :=
       inr [metrics.story.mk 1 "tru1alice" 10 metrics.story.Expired 100];
     metrics.allCategoriesResolver := [metrics.category.mk 10 "Crypto" "crypto"];
     metrics.backingsResolver :=
       λ storyID, if decide (storyID = 1)
                  then [metrics.Stake.mk "tru1alice" 1 (stakeCoin staked) 1 110]
                  else [];
     metrics.challengesResolver := λ _, [];
     metrics.argumentResolver := λ id, metrics.Argument.mk id "tru1alice";
     metrics.usersResolver := λ _, [metrics.users.mk [stakeCoin 1000]];
     metrics.transactionsResolver :=
       λ address, if decide (address = "tru1alice")
                  then [metrics.trubank.mk metrics.trubank.RewardPool 1 (stakeCoin 45) 900]
                  else [];
     metrics.InitialStakeBalanceByAddress := λ _, Some 300;
     metrics.FindAll_users := ([metrics.TwitterProfile.mk "tru1alice" "alice"], None);
     metrics.TwitterProfileByAddress := λ _, (None, None);
     metrics.OpenedClaimsSummary := λ _, ([], None) |}.


(** *** Further requests and services *)


(** A chain that knows no community. *)
Definition apiWithoutCommunities : reports.TruAPI :=
  {| reports.Config_Metrics_Secret := "s3cret";
     reports.QueryClaimsBeforeTime := λ _, inr [theClaim];
     reports.QueryClaimArguments := λ _, inr [theArgument];
     reports.claimStakesResolver := λ _, [goodStake];
     reports.QueryCommunities := None;
     reports.DecodeCommunities := inr [];
     reports.appAccountTransactionsResolver := λ _, [];
     reports.FindAll_users := ([alice; bob], None);
     reports.OpenedClaimsSummary := λ _, ([], None);
     reports.OpenedArgumentsSummary := λ _, ([], None);
     reports.UserRepliesStats_ := λ _, ([], None);
     reports.ClaimViewsStats_ := λ _, ([], None);
     reports.ClaimRepliesStats_ := λ _, ([], None);
     reports.FlaggedStoriesIDs := ([], None);
     reports.CommentsByClaimID := λ _, [] |}.

(** A reward in TRU for a sign-up. *)
Definition truReward (rewardee causer : Z) : app.RewardNotificationRequest :=
  app.mkRewardNotificationRequest rewardee causer app.RewardTypeTru "5000000000trusteak"
    app.RewardCauserActionSignedUp.

Definition truNotification (to msg : string) : push.Notification :=
  push.mkNotification to 0 db.NotificationRewardTruUnlocked msg
    db.mkNotificationMeta "Reward unlocked" true.

(** A parser of coins that knows the amount of [truReward]. *)
Definition ParseCoin (s : string) : option sdk.Coin :=
  if decide (s = "5000000000trusteak") then Some (stakeCoin 5000000000) else None.

(** *** Profiles and user names *)

(** [path.Join] on two clean elements. *)
Definition path_Join (a b : string) : string := a +:+ "/" +:+ b.

(** A data store that cannot be reached. *)
Definition brokenTwitterProfileByAddress (address : string)
  : option db.TwitterProfile.t * option db.error :=
  (None, Some (db.ErrDriver "connection refused")).

(** A data store in which "bob" and "bob1" are taken. *)
Definition UserByUsername (username : string) : option db.User * option db.error :=
  if decide (username = "bob") then (Some bob, None)
  else if decide (username = "bob1") then (Some bob, None)
  else (None, None).

End sample.

(** * Vocabulary of the statements *)

Module spec.

(** The CSV records a handler wrote, in order. *)
Definition csvRecords (out : list reports.Output) : list (list string) :=
  omap (λ o, match o with
             | reports.CsvWrite record => Some record
             | _ => None
             end) out.

(** The first record written is [header] and every record after it has as
    many fields as [header]. *)
Definition rowsMatchHeader (header : list string) (out : list reports.Output) : Prop :=
  match csvRecords out with
  | [] => True
  | first :: rows => first = header ∧ Forall (λ row, length row = length header) rows
  end.

(** *** [HandleMetrics] *)

(** The amount of [TotalAmountStaked] a summary holds for a user and a
    category: zero when the summary has no entry for them. *)
Definition stakedOfUser (um : metrics.UserMetrics) (categoryID : Z) : Z :=
  match metrics.CategoryMetrics_ um !! categoryID with
  | Some cm => sdk.Amount (metrics.TotalAmountStaked (metrics.Metrics_ cm))
  | None => 0%Z
  end.

Definition TotalAmountStaked (summary : metrics.MetricsSummary) (user : string)
    (categoryID : Z) : Z :=
  match metrics.Users summary !! user with
  | Some um => stakedOfUser um categoryID
  | None => 0%Z
  end.

Definition sumZ (l : list Z) : Z := foldr Z.add 0%Z l.

(** The backings and the challenges of a story. *)
Definition stakesOf (ta : metrics.TruAPI) (s : metrics.story.Story) : list metrics.Stake.t :=
  metrics.backingsResolver ta (metrics.story.ID s)
  ++ metrics.challengesResolver ta (metrics.story.ID s).

(** The sum of the amounts of the stakes of [user] on [s] created strictly
    before [beforeDate]. *)
Definition stakedOnStory (ta : metrics.TruAPI) (beforeDate : golang.Time) (user : string)
    (s : metrics.story.Story) : Z :=
  sumZ (map (λ b, sdk.Amount (metrics.Stake.Amount b))
          (filter (λ b, metrics.Stake.Creator b = user
                        ∧ (metrics.Stake.CreatedTime b < beforeDate)%Z)
                  (stakesOf ta s))).

(** The same over all the stories of a category. *)
Definition stakedBefore (ta : metrics.TruAPI) (beforeDate : golang.Time)
    (stories : list metrics.story.Story) (user : string) (categoryID : Z) : Z :=
  sumZ (map (stakedOnStory ta beforeDate user)
          (filter (λ s, metrics.story.CategoryID s = categoryID) stories)).

(** The sum the pass observes: over the stories of the category that were
    themselves created strictly before [beforeDate]. *)
Definition stakedOnStoriesBefore (ta : metrics.TruAPI) (beforeDate : golang.Time)
    (stories : list metrics.story.Story) (user : string) (categoryID : Z) : Z :=
  sumZ (map (stakedOnStory ta beforeDate user)
          (filter (λ s, metrics.story.CategoryID s = categoryID
                        ∧ (metrics.story.CreatedTime s < beforeDate)%Z) stories)).

(** No stake is older than the story it is placed on. *)
Definition stakesFollowStories (ta : metrics.TruAPI) (stories : list metrics.story.Story)
  : Prop :=
  ∀ s b, s ∈ stories → b ∈ stakesOf ta s →
         (metrics.story.CreatedTime s ≤ metrics.Stake.CreatedTime b)%Z.

(** The amount of [StakeEarned] a summary holds for a user and a category:
    zero when the summary has no entry for them. *)
Definition StakeEarned (summary : metrics.MetricsSummary) (user : string)
    (categoryID : Z) : Z :=
  match metrics.Users summary !! user with
  | Some um =>
      match metrics.CategoryMetrics_ um !! categoryID with
      | Some cm => sdk.Amount (metrics.StakeEarned (metrics.Metrics_ cm))
      | None => 0%Z
      end
  | None => 0%Z
  end.

(** The summary a run of [HandleMetrics] rendered, with its status code. *)
Definition rendered (out : list metrics.Output) : option (metrics.MetricsSummary * Z) :=
  head (omap (λ o, match o with
                   | metrics.RenderJSON body code => Some (body, code)
                   | _ => None
                   end) out).

End spec.

(** * Vocabulary of the proofs *)

(** Properties of the records a handler writes that hold of no record at all
    and are kept by writing more. *)
Class Additive (Q : list (list string) → Prop) : Prop := {
  additive_nil : Q [];
  additive_app a b : Q a → Q b → Q (a ++ b)
}.

(** The CSV records written by [m] satisfy [Q]. *)
Definition records (Q : list (list string) → Prop) {A}
    (m : http.Handler reports.Output A) : Prop :=
  Q (spec.csvRecords m.1).

(** The operations on the metrics of a user that leave every staked amount
    as it is. *)
Definition keepsStaked (f : metrics.UserMetrics → option metrics.UserMetrics) : Prop :=
  ∀ um um', f um = Some um' → ∀ c, spec.stakedOfUser um' c = spec.stakedOfUser um c.

(** The stakes of [u] before the date among [l], summed. *)
Definition stakedAmong (beforeDate : golang.Time) (u : string) (l : list metrics.Stake.t)
  : Z :=
  spec.sumZ (map (λ b, sdk.Amount (metrics.Stake.Amount b))
               (filter (λ b, metrics.Stake.Creator b = u
                             ∧ (metrics.Stake.CreatedTime b < beforeDate)%Z) l)).

(** Every reward recorded in the per-story results is a coin made by
    [sdk.NewCoin]: its amount is not negative. *)
Definition rewardsNotNegative (results : gmap Z metrics.storyRewardResult) : Prop :=
  ∀ storyID storyResult reward,
    results !! storyID = Some storyResult →
    metrics.Reward storyResult = Some reward → (0 ≤ sdk.Amount reward)%Z.

(** * Vocabulary of the further properties *)

Module vocab.

Import reports.

(** The metrics the map holds for an address and a community. *)
Definition metricAt (m : gmap string UserMetrics) (address communityID : string)
  : option UserCommunityMetrics :=
  userMetrics ← m !! address; CommunityMetrics userMetrics !! communityID.

(** The accounts that staked on a claim or commented on it strictly before a
    date. *)
Definition activeBefore (ta : TruAPI) (c : claim.Claim) (date : golang.Time) : gset string :=
  list_to_set (staking.Stake.Creator <$>
                 filter (λ s, (staking.Stake.CreatedTime s < date)%Z)
                        (claimStakesResolver ta c))
  ∪ list_to_set (Comment.Creator <$>
                   filter (λ cm, (Comment.CreatedAt cm < date)%Z)
                          (CommentsByClaimID ta (claim.ID c))).

(** [24 * time.Hour] *)
Definition day : Z := (24 * 3600 * 1000000000)%Z.

(** The last element of [l] with the key [k]: the one whose index a loop
    [for idx, c := range l { m[key(c)] = idx }] leaves under [k]. *)
Definition lastWith {A} (key : A → Z) (k : Z) (l : list A) : option A :=
  last (filter (λ c, key c = k) l).

(** The totals of a claim add up: what was staked on a side is what was
    staked on the arguments of that side and on the agrees with them. *)
Definition totalsAddUp (t : ClaimTotals) : Prop :=
  (totalBacked t = totalBackedArgument t + totalBackedAgree t
   ∧ totalChallenged t = totalChallengedArgument t + totalChallengedAgree t)%Z.

(** A record of [HandleClaimMetrics]: the header, or the row of a claim
    whose totals add up. *)
Definition claimRow (jobTime : string) (Format : golang.Time → string)
    (TrimSpace : string → string) (row : list string) : Prop :=
  row = claimMetricsHeader
  ∨ ∃ beforeDate c flagged viewsStats repliesStats totalArguments lastActivityArgument t,
      claimMetricsRow jobTime Format TrimSpace beforeDate c flagged viewsStats repliesStats
        totalArguments lastActivityArgument t = Some row
      ∧ totalsAddUp t.

End vocab.

(** What a handler goes on with, when it goes on. *)
Definition yields {O A} (P : A → Prop) (m : http.Handler O A) : Prop :=
  match m.2 with
  | http.Continue a => P a
  | _ => True
  end.

(** A handler that does not run to its end: it returns early or panics. *)
Definition stops {O A} (m : http.Handler O A) : Prop :=
  match m.2 with
  | http.Continue _ => False
  | _ => True
  end.

(** The map a loop [for idx, c := range l { m[key(c)] = idx }] builds. *)
Definition indexOf {A} (key : A → Z) (l : list A) : gmap Z nat :=
  foldl (λ m '(idx, c), <[key c := idx]> m) ∅ (imap (λ idx c, (idx, c)) l).

(** A string without its first [n] bytes. *)
Fixpoint dropString (n : nat) (s : string) : string :=
  match n, s with
  | O, _ => s
  | S k, EmptyString => EmptyString
  | S k, String _ s' => dropString k s'
  end.

(** *** The response and the CSV writer *)

(** The calls a handler makes on the response itself, in order: the headers
    it adds and the errors it renders.  A record handed to the CSV writer is
    not among them: the writer keeps it in its buffer until [csvw.Flush],
    which the handlers call after a row. *)
Definition directWrites (out : list reports.Output) : list reports.Output :=
  omap (λ o, match o with
             | reports.CsvWrite _ => None
             | _ => Some o
             end) out.

(** *** [HandleMetrics] *)

Module summaries.

Import metrics.

(** What was staked beyond what was backed and challenged. *)
Definition surplus (m : Metrics) : Z :=
  (sdk.Amount (TotalAmountStaked m) - sdk.Amount (TotalAmountBacked m)
   - sdk.Amount (TotalAmountChallenged m))%Z.

Definition surplusOfUser (um : UserMetrics) (categoryID : Z) : Z :=
  match CategoryMetrics_ um !! categoryID with
  | Some cm => surplus (Metrics_ cm)
  | None => 0%Z
  end.

Definition surplusAt (summary : MetricsSummary) (user : string) (categoryID : Z) : Z :=
  match Users summary !! user with
  | Some um => surplusOfUser um categoryID
  | None => 0%Z
  end.

(** The stakes the loop over the stories visits before the date, in the order
    in which it visits them: story by story, the backings of a story before
    its challenges. *)
Definition visitedStakes (ta : TruAPI) (beforeDate : golang.Time)
    (stories : list story.Story) : list Stake.t :=
  s ← filter (λ s, (story.CreatedTime s < beforeDate)%Z) stories;
  filter (λ b, (Stake.CreatedTime b < beforeDate)%Z)
         (backingsResolver ta (story.ID s) ++ challengesResolver ta (story.ID s)).

(** [mapUserStakeByStoryID[mapUserStakeByStoryIDKey(creator, b.StoryID())] = b.Amount()] *)
Definition recordStake (m : gmap string sdk.Coin) (b : Stake.t) : gmap string sdk.Coin :=
  <[mapUserStakeByStoryIDKey (Stake.Creator b) (Stake.StoryID b) := Stake.Amount b]> m.

End summaries.

(** The operations on the metrics of a user that change the surplus of the
    category [c] by [delta] and that of no other category. *)
Definition shifts (c : Z) (delta : Z)
    (f : metrics.UserMetrics → option metrics.UserMetrics) : Prop :=
  ∀ um um', f um = Some um' →
    ∀ c', summaries.surplusOfUser um' c'
          = (summaries.surplusOfUser um c' + (if decide (c' = c) then delta else 0))%Z.

Definition keepsSurplus (f : metrics.UserMetrics → option metrics.UserMetrics) : Prop :=
  ∀ um um', f um = Some um' →
    ∀ c, summaries.surplusOfUser um' c = summaries.surplusOfUser um c.

(** A string that holds a colon. *)
Fixpoint hasColon (s : string) : bool :=
  match s with
  | EmptyString => false
  | String c s' => bool_decide (c = Ascii.ascii_of_nat 58) || hasColon s'
  end.

(** *** [HandleUsersMetrics] *)

Module ledger.
Import reports.

(** What a user staked in a community beyond what the user staked on
    arguments and on agrees. *)
Definition unexplained (ucm : UserCommunityMetrics) : Z :=
  (sdk.Amount (Staked ucm) - sdk.Amount (StakedArgument ucm)
   - sdk.Amount (StakedAgree ucm))%Z.

Definition unexplainedAt (m : gmap string UserMetrics) (address communityID : string) : Z :=
  from_option unexplained 0%Z (vocab.metricAt m address communityID).

(** The amount a transaction adds to the balance. *)
Definition signedAmount (AllowedForDeduction : exported.TransactionType → bool)
    (transaction : exported.Transaction) : Z :=
  if AllowedForDeduction (exported.Type_ transaction)
  then (- sdk.Amount (exported.Amount transaction))%Z
  else sdk.Amount (exported.Amount transaction).

(** The sum of the signed amounts of the transactions created before a date. *)
Definition balanceBefore (AllowedForDeduction : exported.TransactionType → bool)
    (date : golang.Time) (transactions : list exported.Transaction) : Z :=
  spec.sumZ (signedAmount AllowedForDeduction
               <$> filter (λ t, (exported.CreatedTime t < date)%Z) transactions).

(** The metrics of every user in every community add up. *)
Definition stakesAddUp (m : gmap string UserMetrics) : Prop :=
  ∀ address communityID, unexplainedAt m address communityID = 0%Z.

(** A record of [HandleUsersMetrics]: the header, or the row of a user of the
    data store and of a community of the chain. *)
Definition ledgerRow (jobTime : string) (time_Parse : string → string + golang.Time)
    (Format : golang.Time → string)
    (AllowedForDeduction : exported.TransactionType → bool)
    (ta : TruAPI) (r : Request) (row : list string) : Prop :=
  row = usersMetricsHeader
  ∨ ∃ beforeDate user communities cm ucm,
      time_Parse (FormValue_date r) = inr beforeDate
      ∧ user ∈ (FindAll_users ta).1
      ∧ db.Address user ≠ ""
      ∧ (db.CreatedAt user < beforeDate)%Z
      ∧ DecodeCommunities ta = inr communities
      ∧ cm ∈ communities
      ∧ row = usersMetricsRow
                [jobTime; Format beforeDate; db.Address user; db.Username user;
                 pretty (balanceBefore AllowedForDeduction beforeDate
                           (appAccountTransactionsResolver ta (db.Address user)))]
                cm ucm
      ∧ unexplained ucm = 0%Z.

(** The row of a user and a community in which the amount staked is the
    sum of the amounts staked on arguments and on agrees. *)
Definition stakedRow (row : list string) : Prop :=
  row = usersMetricsHeader
  ∨ ∃ rowStart cm ucm,
      row = usersMetricsRow rowStart cm ucm
      ∧ sdk.Amount (Staked ucm)
        = (sdk.Amount (StakedArgument ucm) + sdk.Amount (StakedAgree ucm))%Z.

(** The row of a user the data store lists, who has an address and was
    created before the date, and of a community of the chain; the balance
    is the sum of the signed amounts of the transactions of the user before
    the date. *)
Definition balanceRow (jobTime : string) (time_Parse : string → string + golang.Time)
    (Format : golang.Time → string)
    (AllowedForDeduction : exported.TransactionType → bool)
    (ta : TruAPI) (r : Request) (row : list string) : Prop :=
  row = usersMetricsHeader
  ∨ ∃ beforeDate user communities cm ucm,
      time_Parse (FormValue_date r) = inr beforeDate
      ∧ user ∈ (FindAll_users ta).1
      ∧ db.Address user ≠ ""
      ∧ (db.CreatedAt user < beforeDate)%Z
      ∧ DecodeCommunities ta = inr communities
      ∧ cm ∈ communities
      ∧ row = usersMetricsRow
                [jobTime; Format beforeDate; db.Address user; db.Username user;
                 pretty (balanceBefore AllowedForDeduction beforeDate
                           (appAccountTransactionsResolver ta (db.Address user)))]
                cm ucm.

End ledger.

(** *** Mentions and user names *)

Module links.

(** The lookup of the profile of an address, or the parsing of its URL, fails
    with the error [err]. *)
Definition failsWith (TwitterProfileByAddress : string → option db.TwitterProfile.t * option db.error)
    (path_Join : string → string → string) {URL} (url_Parse : string → string + URL)
    (Host_Name : string) (address : string) (err : mention.error) : Prop :=
  (∃ e, (TwitterProfileByAddress address).2 = Some e ∧ err = mention.DataStore e)
  ∨ (∃ twitterProfile msg,
       TwitterProfileByAddress address = (Some twitterProfile, None)
       ∧ url_Parse (path_Join (path_Join Host_Name "profile")
                      (db.TwitterProfile.Address twitterProfile)) = inl msg
       ∧ err = mention.URLError msg).

End links.

Module candidates.

(** The names [getUniqueUsername] tries, in order: the name itself, then the
    name followed by 1, by 2, ... *)
Definition candidate (username : string) (k : nat) : string :=
  match k with
  | O => username
  | S _ => username +:+ pretty (Z.of_nat k)
  end.

(** A user has the [k]-th name. *)
Definition taken (UserByUsername : string → option db.User * option db.error)
    (username : string) (k : nat) : Prop :=
  ∃ user, UserByUsername (candidate username k) = (Some user, None).

End candidates.

(** * Theorems *)

(** ** Reward notifications *)

Section RewardNotifications.

Variable UserByID : Z → option db.User * option db.error.
Variable ParseCoin : string → option sdk.Coin.
Variable CoinDisplayName : string.

Abbreviation turn := (push.processRewardNotification UserByID ParseCoin CoinDisplayName).
Abbreviation worker := (push.processRewardsNotifications UserByID ParseCoin CoinDisplayName).

Lemma turn_sent_inv n x :
  turn n = push.Sent x →
  ∃ user causer,
    (UserByID (app.RewardeeID n)).2 = None ∧
    push.lookupCauser UserByID n = Some causer ∧
    push.buildNotification ParseCoin CoinDisplayName n user causer = Some x.
Proof.
  unfold push.processRewardNotification.
  destruct (UserByID (app.RewardeeID n)) as [user [err|]]; [done|].
  destruct (push.lookupCauser UserByID n) as [causer|]; [|done].
  destruct (push.buildNotification _ _ n user causer) as [y|] eqn:Hb; [|done].
  intros [= <-]. by exists user, causer.
Qed.

Lemma worker_dropped n rest :
  turn n = push.Dropped → worker (n :: rest) = worker rest.
Proof. intros H. simpl. by rewrite H. Qed.

End RewardNotifications.

(** C5. A reward request of type invite that the worker turns into a
    notification yields the message "rewarded with <amount> invites because
    <who> became an active user on TruStory.", where <who> is the username of
    the causer the lookup resolved, and the word "you" when the causer is
    nil. *)
Theorem invite_message_names_causer
    (UserByID : Z → option db.User * option db.error)
    (ParseCoin : string → option sdk.Coin) (CoinDisplayName : string)
    (n : app.RewardNotificationRequest) (x : push.Notification) :
  app.RewardKind n = app.RewardTypeInvite →
  push.processRewardNotification UserByID ParseCoin CoinDisplayName n = push.Sent x →
  ∃ causer,
    push.lookupCauser UserByID n = Some causer ∧
    push.Msg x =
      "rewarded with " +:+ (app.RewardAmount n +:+ " invites") +:+ " because " +:+
      (match causer with
       | Some c => db.Username c
       | None => "you"
       end +:+ " became an active user on TruStory.").
Proof.
  intros Hinvite (user & causer & _ & Hcauser & Hbuild)%turn_sent_inv.
  exists causer. split; [done|].
  unfold push.buildNotification, push.getRewardStringFromRequest,
    push.getRewardReasonFromRequest in Hbuild.
  rewrite Hinvite in Hbuild.
  destruct user as [u|]; simpl in Hbuild; [|done].
  by injection Hbuild as <-.
Qed.

Lemma invite_message_names_causer_witness :
  push.processRewardNotification (db.UserByID sample.client) sample.noParseCoin "TRU"
    (sample.invite 1 2)
  = push.Sent (sample.inviteNotification "tru1alice" "bob became an active user on TruStory.")
  ∧ push.processRewardNotification (db.UserByID sample.client) sample.noParseCoin "TRU"
      (sample.invite 1 0)
    = push.Sent (sample.inviteNotification "tru1alice" "you became an active user on TruStory.")
  ∧ ∃ causer,
      push.lookupCauser (db.UserByID sample.client) (sample.invite 1 2) = Some causer ∧
      push.Msg (sample.inviteNotification "tru1alice" "bob became an active user on TruStory.") =
        "rewarded with " +:+ (app.RewardAmount (sample.invite 1 2) +:+ " invites") +:+
        " because " +:+
        (match causer with
         | Some c => db.Username c
         | None => "you"
         end +:+ " became an active user on TruStory.").
Proof.
  split; [reflexivity|]. split; [reflexivity|].
  apply (invite_message_names_causer (db.UserByID sample.client) sample.noParseCoin "TRU"
           (sample.invite 1 2)); reflexivity.
Defined.

(** C6. A request whose rewardee lookup, or whose causer lookup, returns an
    error is dropped: its turn sends nothing, and the worker goes on with the
    requests behind it exactly as if the request had not been in the queue. *)
Theorem lookup_error_drops_request
    (UserByID : Z → option db.User * option db.error)
    (ParseCoin : string → option sdk.Coin) (CoinDisplayName : string)
    (before rest : list app.RewardNotificationRequest)
    (n : app.RewardNotificationRequest) :
  (UserByID (app.RewardeeID n)).2 ≠ None
  ∨ (app.CauserID n ≠ 0%Z ∧ (UserByID (app.CauserID n)).2 ≠ None) →
  push.processRewardNotification UserByID ParseCoin CoinDisplayName n = push.Dropped
  ∧ push.processRewardsNotifications UserByID ParseCoin CoinDisplayName (before ++ n :: rest)
    = push.processRewardsNotifications UserByID ParseCoin CoinDisplayName (before ++ rest).
Proof.
  intros Herr.
  assert (push.processRewardNotification UserByID ParseCoin CoinDisplayName n = push.Dropped)
    as Hdrop.
  { unfold push.processRewardNotification, push.lookupCauser.
    destruct (UserByID (app.RewardeeID n)) as [user [err|]]; [done|].
    destruct Herr as [Herr|[Hid Herr]]; [done|].
    rewrite bool_decide_eq_true_2 by done.
    by destruct (UserByID (app.CauserID n)) as [causer [err|]]. }
  split; [done|].
  induction before as [|m before IH]; simpl.
  - by rewrite Hdrop.
  - by rewrite IH.
Qed.

Lemma lookup_error_drops_request_witness :
  push.processRewardNotification sample.flakyUserByID sample.noParseCoin "TRU"
    (sample.invite 1 7) = push.Dropped
  ∧ push.processRewardsNotifications sample.flakyUserByID sample.noParseCoin "TRU"
      ([sample.invite 1 2] ++ sample.invite 1 7 :: [sample.invite 2 0])
    = push.processRewardsNotifications sample.flakyUserByID sample.noParseCoin "TRU"
        ([sample.invite 1 2] ++ [sample.invite 2 0]).
Proof.
  apply (lookup_error_drops_request sample.flakyUserByID sample.noParseCoin "TRU"
           [sample.invite 1 2] [sample.invite 2 0] (sample.invite 1 7)).
  right. split; [vm_compute; discriminate | vm_compute; discriminate].
Defined.

(** C7. The notifications the worker sends are those of a subsequence of the
    requests it received, one each and in the order of the requests; when the
    loop ends with its channel closed, they are the notifications of all the
    requests that were not dropped. *)
Theorem reward_notifications_keep_order
    (UserByID : Z → option db.User * option db.error)
    (ParseCoin : string → option sdk.Coin) (CoinDisplayName : string)
    (rNotifications : list app.RewardNotificationRequest) :
  let turn := push.processRewardNotification UserByID ParseCoin CoinDisplayName in
  let run := push.processRewardsNotifications UserByID ParseCoin CoinDisplayName rNotifications in
  (∃ kept, kept `sublist_of` rNotifications
           ∧ Forall2 (λ n x, turn n = push.Sent x) kept run.1)
  ∧ (run.2 = push.ChannelClosed →
     run.1 = omap (λ n, match turn n with
                        | push.Sent x => Some x
                        | _ => None
                        end) rNotifications).
Proof.
  simpl. induction rNotifications as [|n rest [(kept & Hsub & Hall) Hclosed]]; simpl.
  - split; [|done]. exists []. by split; [|constructor].
  - destruct (push.processRewardNotification UserByID ParseCoin CoinDisplayName n)
      as [|x|] eqn:Hturn.
    + split; [|done]. exists kept. split; [by apply sublist_cons|done].
    + destruct (push.processRewardsNotifications UserByID ParseCoin CoinDisplayName rest)
        as [sent ending]; simpl in *.
      split.
      * exists (n :: kept). split; [by apply sublist_skip|]. by constructor.
      * intros ->. by rewrite Hclosed.
    + split; [|done]. exists []. split; [apply sublist_nil_l|constructor].
Qed.

Lemma reward_notifications_keep_order_witness :
  (push.processRewardsNotifications sample.flakyUserByID sample.noParseCoin "TRU"
     [sample.invite 1 2; sample.invite 1 7; sample.invite 2 0]).2 = push.ChannelClosed
  ∧ (push.processRewardsNotifications sample.flakyUserByID sample.noParseCoin "TRU"
       [sample.invite 1 2; sample.invite 1 7; sample.invite 2 0]).1
    = [sample.inviteNotification "tru1alice" "bob became an active user on TruStory.";
       sample.inviteNotification "tru1bob" "you became an active user on TruStory."].
Proof.
  split; [reflexivity|].
  rewrite (proj2 (reward_notifications_keep_order sample.flakyUserByID sample.noParseCoin
                    "TRU" [sample.invite 1 2; sample.invite 1 7; sample.invite 2 0]));
    reflexivity.
Defined.

(** ** [UserByID] *)

Lemma find_none_Forall {A} (f : A → bool) (l : list A) :
  List.find f l = None ↔ Forall (λ x, f x = false) l.
Proof.
  induction l as [|a l IH]; simpl.
  - split; [constructor|done].
  - destruct (f a) eqn:Ha.
    + split; [done|]. intros H. inversion H; congruence.
    + rewrite IH. split; [by constructor|]. by inversion 1.
Qed.

(** C9. [UserByID] returns a nil user with a nil error exactly when the query
    runs and no row of the users table has the id; an error it returns is the
    failure of the query, never the absence of rows.  The reward notification
    worker, which checks the error only, then holds a nil user: its turn for a
    request whose rewardee has no row passes the error check and panics on
    [user.Address]. *)
Theorem UserByID_nil_user_nil_error (c : db.Client) (id : Z) :
  (db.UserByID c id = (None, None)
   ↔ db.failure c = None ∧ Forall (λ u, db.ID u ≠ id) (db.users c))
  ∧ (∀ err, (db.UserByID c id).2 = Some err →
       err ≠ db.ErrNoRows ∧ ∃ msg, db.failure c = Some msg ∧ err = db.ErrDriver msg)
  ∧ (∀ ParseCoin CoinDisplayName n,
       app.RewardeeID n = id →
       db.UserByID c id = (None, None) →
       push.processRewardNotification (db.UserByID c) ParseCoin CoinDisplayName n
       = push.Crashed).
Proof.
  assert (db.UserByID c id = (None, None)
          ↔ db.failure c = None ∧ Forall (λ u, db.ID u ≠ id) (db.users c)) as Hiff.
  { unfold db.UserByID, db.First.
    destruct (db.failure c) as [msg|]; [simpl; split; [done|by intros [? _]]|].
    destruct (List.find _ (db.users c)) as [u|] eqn:Hfind.
    - split; [done|]. intros [_ Hall].
      assert (List.find (λ u, bool_decide (db.ID u = id)) (db.users c) = None) as Hnone.
      { apply find_none_Forall. eapply Forall_impl; [exact Hall|].
        intros u' Hu'. by apply bool_decide_eq_false_2. }
      congruence.
    - split; [|done]. intros _. split; [done|].
      apply find_none_Forall in Hfind. eapply Forall_impl; [exact Hfind|].
      intros u' Hu'. by apply bool_decide_eq_false_1 in Hu'. }
  split; [exact Hiff|]. split.
  - intros err. unfold db.UserByID, db.First.
    destruct (db.failure c) as [msg|]; simpl.
    + intros [= <-]. split; [done|]. by exists msg.
    + by destruct (List.find _ (db.users c)).
  - intros ParseCoin CoinDisplayName n <- Hnil.
    unfold push.processRewardNotification. rewrite Hnil.
    assert (db.failure c = None) as Hok by (by apply Hiff in Hnil as [? _]).
    unfold push.lookupCauser. case_bool_decide.
    + unfold db.UserByID, db.First. rewrite Hok.
      by destruct (List.find _ (db.users c)).
    + done.
Qed.

Lemma UserByID_nil_user_nil_error_witness :
  db.UserByID sample.client 5 = (None, None)
  ∧ db.UserByID sample.client 2 = (Some sample.bob, None)
  ∧ db.UserByID sample.brokenClient 5 = (None, Some (db.ErrDriver "connection refused"))
  ∧ push.processRewardNotification (db.UserByID sample.client) sample.noParseCoin "TRU"
      (sample.invite 5 0) = push.Crashed.
Proof.
  split; [reflexivity|]. split; [reflexivity|]. split; [reflexivity|].
  apply (proj2 (proj2 (UserByID_nil_user_nil_error sample.client 5))); reflexivity.
Defined.

(** ** Mentions *)

(** C8. On a text in which [parseMentions] finds no mention,
    [TranslateToCosmosMentions] returns the text unchanged and a nil error,
    whatever the data store holds and in whatever order the map is ranged
    over. *)
Theorem TranslateToCosmosMentions_without_mentions
    (parseMentions : string → list string)
    (TwitterProfileByUsername : string → option db.TwitterProfile.t * option db.error)
    (mapRange : gmap string string → list (string * string))
    (mapRange_perm : ∀ m, mapRange m ≡ₚ map_to_list m)
    (body : string) :
  parseMentions body = [] →
  db.TranslateToCosmosMentions parseMentions TwitterProfileByUsername mapRange body
  = (body, None).
Proof.
  intros Hnone.
  unfold db.TranslateToCosmosMentions, db.replaceUsernamesWithAddress.
  rewrite Hnone. simpl.
  pose proof (mapRange_perm ∅) as Hperm.
  rewrite map_to_list_empty in Hperm.
  apply Permutation_nil_r in Hperm. by rewrite Hperm.
Qed.

Lemma TranslateToCosmosMentions_without_mentions_witness :
  db.TranslateToCosmosMentions sample.parseMentions sample.TwitterProfileByUsername
    map_to_list "hello @bob" = ("hello @tru1bob", None)
  ∧ sample.parseMentions "hello world" = []
  ∧ db.TranslateToCosmosMentions sample.parseMentions sample.TwitterProfileByUsername
      map_to_list "hello world" = ("hello world", None).
Proof.
  split; [vm_compute; reflexivity|]. split; [vm_compute; reflexivity|].
  apply (TranslateToCosmosMentions_without_mentions sample.parseMentions
           sample.TwitterProfileByUsername map_to_list (λ m, reflexivity _) "hello world").
  vm_compute; reflexivity.
Defined.

(** ** The CSV reports *)

#[local] Instance quiet_additive : Additive (λ records, records = []).
Proof. split; [done|]. by intros a b -> ->. Qed.

#[local] Instance width_additive (n : nat) : Additive (Forall (λ row, length row = n)).
Proof. split; [constructor|]. intros a b ??. by apply Forall_app. Qed.

Section Records.

Context (Q : list (list string) → Prop) `{!Additive Q}.

Lemma csvRecords_app a b :
  spec.csvRecords (a ++ b) = spec.csvRecords a ++ spec.csvRecords b.
Proof. apply omap_app. Qed.

Lemma records_ret {A} (a : A) : records Q (http.ret a).
Proof. apply additive_nil. Qed.

Lemma records_exit {A} : records Q (@http.exit _ A).
Proof. apply additive_nil. Qed.

Lemma records_panic {A} : records Q (@http.panic _ A).
Proof. apply additive_nil. Qed.

Lemma records_must {A} (x : option A) : records Q (http.must x).
Proof. destruct x; apply additive_nil. Qed.

Lemma records_error msg code : records Q (http.write (reports.RenderError msg code)).
Proof. apply additive_nil. Qed.

Lemma records_header key value : records Q (http.write (reports.HeaderAdd key value)).
Proof. apply additive_nil. Qed.

Lemma records_bind {A B} (m : http.Handler reports.Output A)
    (k : A → http.Handler reports.Output B) :
  records Q m → (∀ a, records Q (k a)) → records Q (http.bind m k).
Proof.
  unfold records. destruct m as [out [a| |]]; simpl; intros Hm Hk; [|done..].
  specialize (Hk a). destruct (k a) as [out' c]; simpl in *.
  rewrite csvRecords_app. by apply additive_app.
Qed.

Lemma records_forEach {A S} (l : list A) (s : S)
    (body : S → A → http.Handler reports.Output S) :
  (∀ s a, records Q (body s a)) → records Q (http.forEach l s body).
Proof.
  intros Hbody. revert s. induction l as [|a l IH]; intros s; simpl.
  - apply records_ret.
  - apply records_bind; [apply Hbody|]. intros s'. apply IH.
Qed.

Lemma records_when b (m : http.Handler reports.Output unit) :
  records Q m → records Q (http.when b m).
Proof. destruct b; [done|]. intros _. apply records_ret. Qed.

Lemma records_bind_must {A B} (x : option A) (k : A → http.Handler reports.Output B) :
  (∀ a, x = Some a → records Q (k a)) → records Q (http.bind (http.must x) k).
Proof.
  destruct x as [a|]; simpl; [|intros _; apply additive_nil].
  intros Hk. specialize (Hk a eq_refl). unfold records in *.
  by destruct (k a).
Qed.

End Records.

Lemma records_csv_width (n : nat) (row : list string) :
  length row = n →
  records (Forall (λ row, length row = n)) (http.write (reports.CsvWrite row)).
Proof. intros Hn. unfold records. simpl. by repeat constructor. Qed.

Lemma rowsMatchHeader_quiet {A B} header (m : http.Handler reports.Output A)
    (k : A → http.Handler reports.Output B) :
  records (λ rs, rs = []) m →
  (∀ a, spec.rowsMatchHeader header (k a).1) →
  spec.rowsMatchHeader header (http.bind m k).1.
Proof.
  unfold records, spec.rowsMatchHeader.
  destruct m as [out [a| |]]; simpl; intros Hm Hk; [|by rewrite Hm..].
  specialize (Hk a). destruct (k a) as [out' c]; simpl in *.
  by rewrite csvRecords_app, Hm.
Qed.

Lemma rowsMatchHeader_header {B} header (m : http.Handler reports.Output B) :
  records (Forall (λ row, length row = length header)) m →
  spec.rowsMatchHeader header (http.bind (http.write (reports.CsvWrite header)) (λ _, m)).1.
Proof.
  unfold records, spec.rowsMatchHeader. destruct m as [out c]; simpl. by split.
Qed.

Lemma rowsMatchHeader_none {A} header (m : http.Handler reports.Output A) :
  records (λ rs, rs = []) m → spec.rowsMatchHeader header m.1.
Proof. unfold records, spec.rowsMatchHeader. by intros ->. Qed.

(** Structural steps on a goal [records Q m], driven by the shape of [m]. *)
Ltac records_step :=
  lazymatch goal with
  | |- records _ (let _ := _ in _) => cbv zeta
  | |- records _ (http.bind (http.must _) _) => apply records_bind_must; try intros ? ?
  | |- records _ (http.bind _ _) => apply records_bind; try intros ?
  | |- records _ (http.ret _) => apply records_ret
  | |- records _ http.exit => apply records_exit
  | |- records _ http.panic => apply records_panic
  | |- records _ (http.must _) => apply records_must
  | |- records _ (http.write (reports.RenderError _ _)) => apply records_error
  | |- records _ (http.write (reports.HeaderAdd _ _)) => apply records_header
  | |- records _ (http.forEach _ _ _) => apply records_forEach; try intros ? ?
  | |- records _ (http.when _ _) => apply records_when
  | |- records _ (match ?x with _ => _ end) => destruct x eqn:?
  | |- records _ (let '(_, _) := ?x in _) => destruct x eqn:?
  end.

(** The handlers' own building blocks, once their lemmas are proved. *)
Ltac records_known := fail.

Ltac records_auto := repeat (first [records_known | records_step]; try typeclasses eauto).

Section ReportSteps.

Context (Q : list (list string) → Prop) `{!Additive Q}.

Lemma records_parseDate time_Parse r : records Q (reports.parseDate time_Parse r).
Proof. unfold reports.parseDate. records_auto. Qed.

Lemma records_queryClaims ta beforeDate : records Q (reports.queryClaims ta beforeDate).
Proof. unfold reports.queryClaims. records_auto. Qed.

Lemma records_reportError err : records Q (reports.reportError err).
Proof. unfold reports.reportError. records_auto. Qed.

Lemma records_failOnError err : records Q (reports.failOnError err).
Proof. unfold reports.failOnError. records_auto. Qed.

End ReportSteps.

Ltac records_known ::=
  first [ apply records_parseDate | apply records_queryClaims
        | apply records_reportError | apply records_failOnError ].

Section ReportRows.

Variables (jobTime : string) (time_Parse : string → string + golang.Time).
Variables (Format : golang.Time → string) (TrimSpace : string → string).
Variable AllowedForDeduction : reports.exported.TransactionType → bool.
Variable TransactionType_String : reports.exported.TransactionType → string.
Variable ta : reports.TruAPI.

Lemma userBaseRow_length user row :
  reports.userBaseRow Format user = Some row → length row = length reports.userBaseHeader.
Proof.
  unfold reports.userBaseRow.
  destruct (db.UserGroup_String (db.UserGroup user)); simpl; [|done].
  by intros [= <-].
Qed.

Lemma HandleUserBase_rows r :
  spec.rowsMatchHeader reports.userBaseHeader (reports.HandleUserBase Format ta r).1.
Proof.
  unfold reports.HandleUserBase.
  destruct (_ || _).
  { apply rowsMatchHeader_none. records_auto. }
  apply rowsMatchHeader_quiet; [records_auto|intros _].
  apply rowsMatchHeader_header.
  records_auto.
  apply records_csv_width. by eapply userBaseRow_length.
Qed.

Lemma HandleUserClaims_rows r :
  spec.rowsMatchHeader reports.userClaimsHeader
    (reports.HandleUserClaims jobTime time_Parse Format ta r).1.
Proof.
  unfold reports.HandleUserClaims.
  apply rowsMatchHeader_quiet; [records_auto|intros _].
  apply rowsMatchHeader_header.
  records_auto.
  by apply records_csv_width.
Qed.

Lemma records_claimStake Q `{!Additive Q} beforeDate arguments mapArguments t stake :
  records Q (reports.claimStake beforeDate arguments mapArguments t stake).
Proof. unfold reports.claimStake. records_auto. Qed.

Lemma HandleClaimMetrics_rows r :
  spec.rowsMatchHeader reports.claimMetricsHeader
    (reports.HandleClaimMetrics jobTime time_Parse Format TrimSpace ta r).1.
Proof.
  unfold reports.HandleClaimMetrics.
  do 3 (apply rowsMatchHeader_quiet; [records_auto|intros ?]).
  destruct (reports.ClaimViewsStats_ ta _) as [claimViewsStats err].
  apply rowsMatchHeader_quiet; [records_auto|intros _].
  destruct (reports.ClaimRepliesStats_ ta _) as [claimRepliesStats err'].
  do 2 (apply rowsMatchHeader_quiet; [records_auto|intros _]).
  apply rowsMatchHeader_header.
  unfold reports.claimMetrics.
  records_auto; try apply records_claimStake; try typeclasses eauto.
  apply records_csv_width.
  match goal with n : ¬ _ ≠ _ |- _ => symmetry; exact (dec_stable n) end.
Qed.

(** The guard on the length of a row of [HandleClaimMetrics] never fires. *)
Lemma claimMetricsRow_length beforeDate c flagged viewsStats repliesStats total last t row :
  reports.claimMetricsRow jobTime Format TrimSpace beforeDate c flagged viewsStats
    repliesStats total last t = Some row →
  length row = length reports.claimMetricsHeader.
Proof.
  unfold reports.claimMetricsRow.
  destruct (sdk.IntAdd _ _); simpl; [|done]. by intros [= <-].
Qed.

Lemma records_usersClaim Q `{!Additive Q} beforeDate m c :
  records Q (reports.usersClaim ta beforeDate m c).
Proof. unfold reports.usersClaim. records_auto. Qed.

Lemma records_usersTransaction Q `{!Additive Q} beforeDate user s transaction :
  records Q (reports.usersTransaction AllowedForDeduction TransactionType_String
               beforeDate user s transaction).
Proof. unfold reports.usersTransaction. records_auto. Qed.

Lemma HandleUsersMetrics_rows r :
  spec.rowsMatchHeader reports.usersMetricsHeader
    (reports.HandleUsersMetrics jobTime time_Parse Format AllowedForDeduction
       TransactionType_String ta r).1.
Proof.
  unfold reports.HandleUsersMetrics.
  do 3 (apply rowsMatchHeader_quiet; [records_auto|intros ?]).
  destruct (reports.FindAll_users ta) as [users err].
  do 2 (apply rowsMatchHeader_quiet; [records_auto|intros _]).
  apply rowsMatchHeader_quiet;
    [apply records_forEach; [typeclasses eauto|]; intros; apply records_usersClaim;
     typeclasses eauto|intros chainMetrics].
  apply rowsMatchHeader_quiet; [records_auto|intros _].
  apply rowsMatchHeader_quiet; [records_auto|intros communities].
  destruct (decide (length communities = 0%nat)).
  { apply rowsMatchHeader_none. records_auto. }
  apply rowsMatchHeader_quiet; [records_auto|intros _].
  apply rowsMatchHeader_header.
  unfold reports.usersUser.
  records_auto; try apply records_usersTransaction; try typeclasses eauto.
  by apply records_csv_width.
Qed.


End ReportRows.

(** C3. In each of the four CSV reports the first record written is the
    header of the report and every record written after it has as many
    fields as that header, on every request and whatever the services
    return. *)
Theorem csv_rows_match_header
    (jobTime : string) (time_Parse : string → string + golang.Time)
    (Format : golang.Time → string) (TrimSpace : string → string)
    (AllowedForDeduction : reports.exported.TransactionType → bool)
    (TransactionType_String : reports.exported.TransactionType → string)
    (ta : reports.TruAPI) (r : reports.Request) :
  spec.rowsMatchHeader reports.usersMetricsHeader
    (reports.HandleUsersMetrics jobTime time_Parse Format AllowedForDeduction
       TransactionType_String ta r).1
  ∧ spec.rowsMatchHeader reports.claimMetricsHeader
      (reports.HandleClaimMetrics jobTime time_Parse Format TrimSpace ta r).1
  ∧ spec.rowsMatchHeader reports.userClaimsHeader
      (reports.HandleUserClaims jobTime time_Parse Format ta r).1
  ∧ spec.rowsMatchHeader reports.userBaseHeader (reports.HandleUserBase Format ta r).1.
Proof.
  split_and!.
  - apply HandleUsersMetrics_rows.
  - apply HandleClaimMetrics_rows.
  - apply HandleUserClaims_rows.
  - apply HandleUserBase_rows.
Qed.

(** The four reports do write rows: on the sample chain each writes its
    header and at least one row. *)
Example csv_reports_run :
  length (spec.csvRecords
            (reports.HandleUsersMetrics "201909110000" sample.time_Parse sample.Format
               sample.AllowedForDeduction sample.TransactionType_String
               (sample.api [sample.goodStake]) (sample.request "s3cret")).1) = 3%nat
  ∧ length (spec.csvRecords
              (reports.HandleClaimMetrics "201909110000" sample.time_Parse sample.Format
                 sample.TrimSpace (sample.api [sample.goodStake])
                 (sample.request "s3cret")).1) = 2%nat
  ∧ length (spec.csvRecords
              (reports.HandleUserClaims "201909110000" sample.time_Parse sample.Format
                 (sample.api [sample.goodStake]) (sample.request "s3cret")).1) = 2%nat
  ∧ length (spec.csvRecords
              (reports.HandleUserBase sample.Format (sample.api [sample.goodStake])
                 (sample.request "s3cret")).1) = 3%nat.
Proof. split_and!; vm_compute; reflexivity. Qed.

(** C10. [HandleUserBase] answers 401 with "Invalid token", writes nothing
    else and returns, whenever the configured secret is empty or differs from
    the [Metrics-Secret] header; it writes a CSV record only when the
    configured secret is not empty and equals the header, and then the header
    row of the report is written. *)
Theorem HandleUserBase_checks_token
    (Format : golang.Time → string) (ta : reports.TruAPI) (r : reports.Request) :
  let token := reports.Config_Metrics_Secret ta in
  (token = "" ∨ token ≠ reports.Header_MetricsSecret r →
   reports.HandleUserBase Format ta r
   = ([reports.RenderError "Invalid token" reports.StatusUnauthorized], http.Returned))
  ∧ (∀ record, reports.CsvWrite record ∈ (reports.HandleUserBase Format ta r).1 →
       token ≠ "" ∧ token = reports.Header_MetricsSecret r)
  ∧ (token ≠ "" → token = reports.Header_MetricsSecret r →
     ∃ rows, spec.csvRecords (reports.HandleUserBase Format ta r).1
             = reports.userBaseHeader :: rows).
Proof.
  simpl. unfold reports.HandleUserBase.
  destruct (decide (reports.Config_Metrics_Secret ta = "")) as [Hempty|Hfull].
  { rewrite bool_decide_eq_true_2 by done. simpl. split; [done|]. split.
    - intros record [[=]|[]%elem_of_nil]%elem_of_cons.
    - done. }
  rewrite (bool_decide_eq_false_2 _ Hfull). simpl.
  destruct (decide (reports.Config_Metrics_Secret ta = reports.Header_MetricsSecret r))
    as [Heq|Hne].
  - rewrite bool_decide_eq_false_2 by (by intros ?).
    split; [by intros [?|?]|]. split; [done|]. intros _ _.
    destruct (reports.FindAll_users ta) as [users err].
    match goal with
    | |- context [http.bind (reports.failOnError err) ?k] =>
        destruct (http.bind (reports.failOnError err) k) as [out c]
    end.
    simpl. by eexists.
  - rewrite bool_decide_eq_true_2 by done. simpl. split; [done|]. split.
    + intros record [[=]|[]%elem_of_nil]%elem_of_cons.
    + done.
Qed.

Lemma HandleUserBase_checks_token_witness :
  reports.HandleUserBase sample.Format (sample.api []) (sample.request "guess")
  = ([reports.RenderError "Invalid token" reports.StatusUnauthorized], http.Returned)
  ∧ ∃ rows, spec.csvRecords
              (reports.HandleUserBase sample.Format (sample.api []) (sample.request "s3cret")).1
            = reports.userBaseHeader :: rows.
Proof.
  split.
  - apply (proj1 (HandleUserBase_checks_token sample.Format (sample.api [])
                    (sample.request "guess"))).
    right. vm_compute. discriminate.
  - apply (proj2 (proj2 (HandleUserBase_checks_token sample.Format (sample.api [])
                           (sample.request "s3cret")))).
    + vm_compute. discriminate.
    + vm_compute. reflexivity.
Defined.

(** C4. [HandleClaimMetrics] on a claim with the argument 1 and two stakes,
    the second on an argument 2 that is not among the arguments of the claim:
    the handler reports "unable to find argument with id 2" and goes on; it
    counts the stake under the first argument of the claim, writes the row of
    the claim and ends normally. *)
Theorem HandleClaimMetrics_missing_argument_goes_on :
  reports.HandleClaimMetrics "201909110000" sample.time_Parse sample.Format sample.TrimSpace
    (sample.api [sample.goodStake; sample.orphanStake]) (sample.request "")
  = ([reports.HeaderAdd "x-metrics-version" "20190911-01";
      reports.HeaderAdd "Content-Type" "text/csv";
      reports.CsvWrite reports.claimMetricsHeader;
      reports.RenderError "unable to find argument with id 2" 500;
      reports.CsvWrite
        ["201909110000"; "1000"; "500"; "0"; "1"; "crypto"; "Bitcoin is sound money";
         "1"; "1"; "35"; "35"; "30"; "5"; "0"; "0"; "0";
         "0"; "0"; "0"; "0"; "0"; "0"; "0"; "0"; "0"; "510"; "520"]],
     http.Continue tt).
Proof. vm_compute. reflexivity. Qed.

(** In general a stake before the date whose argument is missing makes
    [HandleClaimMetrics] report the error and never return: the loop goes on
    with the first argument of the claim, or panics when the claim has no
    argument at all. *)
Lemma claimStake_missing_argument beforeDate arguments mapArguments t stake :
  golang.Before (reports.staking.Stake.CreatedTime stake) beforeDate = true →
  mapArguments !! reports.staking.Stake.ArgumentID stake = None →
  let run := reports.claimStake beforeDate arguments mapArguments t stake in
  run.1 = [reports.RenderError
             ("unable to find argument with id " +:+
              pretty (reports.staking.Stake.ArgumentID stake))
             reports.StatusInternalServerError]
  ∧ run.2 ≠ http.Returned
  ∧ (arguments = [] → run.2 = http.Panicked).
Proof.
  intros Hbefore Hmissing. unfold reports.claimStake.
  rewrite Hbefore, Hmissing. simpl.
  destruct arguments as [|a arguments]; simpl; [done|].
  repeat (match goal with
          | |- context [if ?b then _ else _] => destruct b
          | |- context [sdk.IntAdd ?x ?y] => destruct (sdk.IntAdd x y)
          end; simpl); done.
Qed.

(** ** [HandleMetrics]: the staked amounts *)

(** Which of the outputs written a given one is. *)
Ltac which_output Hin :=
  repeat (apply elem_of_cons in Hin as [Hin|Hin]);
  try (by apply elem_of_nil in Hin); simplify_eq.

Section Staked.

Import metrics.
Local Open Scope Z_scope.

Lemma foldlM_invariant {A S} (P : S → Prop) (body : S → A → option S) l s s' :
  P s →
  (∀ s a s', P s → body s a = Some s' → P s') →
  golang.foldlM body s l = Some s' → P s'.
Proof.
  intros Hs Hstep. revert s Hs. induction l as [|a l IH]; simpl; intros s Hs.
  - by intros [= <-].
  - destruct (body s a) as [s1|] eqn:Hbody; simpl; [|done].
    apply IH. by eapply Hstep.
Qed.

Lemma foldlM_cons {A S} (body : S → A → option S) s a l :
  golang.foldlM body s (a :: l) = body s a ≫= λ s', golang.foldlM body s' l.
Proof. done. Qed.

(** [getMetricsByCategory] adds at most an entry whose staked amount is zero. *)
Lemma getMetricsByCategory_staked um c c' :
  spec.stakedOfUser (getMetricsByCategory um c).1 c' = spec.stakedOfUser um c'.
Proof.
  unfold getMetricsByCategory, spec.stakedOfUser.
  destruct (CategoryMetrics_ um !! c) as [cm|] eqn:Hc; simpl; [done|].
  destruct (decide (c' = c)) as [->|Hne].
  - by rewrite lookup_insert_eq, Hc.
  - by rewrite lookup_insert_ne.
Qed.

Lemma getMetricsByCategory_self um c :
  spec.stakedOfUser um c
  = sdk.Amount (TotalAmountStaked (Metrics_ (getMetricsByCategory um c).2)).
Proof.
  unfold getMetricsByCategory, spec.stakedOfUser.
  by destruct (CategoryMetrics_ um !! c) as [cm|] eqn:Hc.
Qed.

Lemma setCategoryMetrics_staked um c cm c' :
  spec.stakedOfUser (setCategoryMetrics um c cm) c'
  = if decide (c' = c) then sdk.Amount (TotalAmountStaked (Metrics_ cm))
    else spec.stakedOfUser um c'.
Proof.
  unfold setCategoryMetrics, spec.stakedOfUser. simpl.
  destruct (decide (c' = c)) as [->|Hne].
  - by rewrite lookup_insert_eq.
  - by rewrite lookup_insert_ne.
Qed.

(** An update of the metrics of a category that changes the staked amount
    by [delta]. *)
Lemma onMetrics_staked c f delta um um' :
  (∀ m m', f m = Some m' →
           sdk.Amount (TotalAmountStaked m') = sdk.Amount (TotalAmountStaked m) + delta) →
  onMetrics c f um = Some um' →
  ∀ c', spec.stakedOfUser um' c'
        = spec.stakedOfUser um c' + (if decide (c' = c) then delta else 0).
Proof.
  intros Hf. unfold onMetrics.
  pose proof (getMetricsByCategory_staked um c) as Hget.
  pose proof (getMetricsByCategory_self um c) as Hself.
  destruct (getMetricsByCategory um c) as [um1 cm]; simpl in *.
  destruct (f (Metrics_ cm)) as [m'|] eqn:Hm; simpl; [|done].
  intros [= <-] c'. rewrite setCategoryMetrics_staked. simpl.
  destruct (decide (c' = c)) as [->|Hne].
  - rewrite (Hf _ _ Hm). by rewrite Hself.
  - rewrite Hget. lia.
Qed.

Lemma onMetrics_keeps c f :
  (∀ m m', f m = Some m' → TotalAmountStaked m' = TotalAmountStaked m) →
  keepsStaked (onMetrics c f).
Proof.
  intros Hf um um' Hon c'.
  rewrite (onMetrics_staked c f 0 um um'); [|intros m m' Hm; rewrite (Hf _ _ Hm); lia|done].
  destruct (decide (c' = c)); lia.
Qed.

(** Case splits on decisions leave goals that are arithmetic or
    contradictory. *)
Ltac clash := first [lia | exfalso; destruct_and?; simplify_eq; intuition (auto; lia)].

Ltac keeps_field :=
  apply onMetrics_keeps; intros m m' Hm; simpl in Hm;
  repeat match goal with
         | H : context [sdk.Add ?a ?b] |- _ => destruct (sdk.Add a b); simpl in H
         end;
  by simplify_eq.

Lemma increaseArgumentsCount_keeps c : keepsStaked (increaseArgumentsCount c).
Proof. keeps_field. Qed.
Lemma increaseClaimsCount_keeps c : keepsStaked (increaseClaimsCount c).
Proof. keeps_field. Qed.
Lemma increaseEndorsementsGivenCount_keeps c : keepsStaked (increaseEndorsementsGivenCount c).
Proof. keeps_field. Qed.
Lemma increaseEndorsementsReceivedCount_keeps c :
  keepsStaked (increaseEndorsementsReceivedCount c).
Proof. keeps_field. Qed.
Lemma increaseTotalBackings_keeps c : keepsStaked (increaseTotalBackings c).
Proof. keeps_field. Qed.
Lemma increaseTotalChallenges_keeps c : keepsStaked (increaseTotalChallenges c).
Proof. keeps_field. Qed.
Lemma setTotalOpenedClaims_keeps c n : keepsStaked (setTotalOpenedClaims c n).
Proof. keeps_field. Qed.
Lemma addAmoutAtStake_keeps c a : keepsStaked (addAmoutAtStake c a).
Proof. keeps_field. Qed.
Lemma addBackedAmount_keeps c a : keepsStaked (addBackedAmount c a).
Proof. keeps_field. Qed.
Lemma addChallengedAmount_keeps c a : keepsStaked (addChallengedAmount c a).
Proof. keeps_field. Qed.
Lemma addStakeLost_keeps c a : keepsStaked (addStakeLost c a).
Proof. keeps_field. Qed.
Lemma addInterestEarned_keeps c a : keepsStaked (addInterestEarned c a).
Proof. keeps_field. Qed.
Lemma addStakeEarned_keeps c a : keepsStaked (addStakeEarned c a).
Proof. keeps_field. Qed.

Lemma addCredEarned_keeps c a : keepsStaked (addCredEarned c a).
Proof.
  intros um um'. unfold addCredEarned.
  pose proof (getMetricsByCategory_staked um c) as Hget.
  pose proof (getMetricsByCategory_self um c) as Hself.
  destruct (getMetricsByCategory um c) as [um1 cm]; simpl in *.
  destruct (CredEarned cm) as [credEarned|]; simpl; [|done].
  destruct (sdk.Add credEarned a) as [v|]; simpl; [|done].
  intros [= <-] c'. rewrite setCategoryMetrics_staked. simpl.
  destruct (decide (c' = c)) as [->|Hne]; [by rewrite Hself|apply Hget].
Qed.

Lemma addRunningBalance_keeps a : keepsStaked (addRunningBalance a).
Proof.
  intros um um'. unfold addRunningBalance.
  destruct (decide _); [|by intros [= <-]].
  destruct (RunningBalance um) as [rb|]; simpl; [|done].
  destruct (sdk.Add rb a) as [v|]; simpl; [|done].
  by intros [= <-].
Qed.

Lemma sdk_Add_amount a b v : sdk.Add a b = Some v → sdk.Amount v = sdk.Amount a + sdk.Amount b.
Proof.
  unfold sdk.Add, sdk.IntAdd, sdk.checked.
  destruct (decide _); [|done]. destruct (sdk.inRange _); simpl; [|done].
  by intros [= <-].
Qed.

(** [addStakedAmount] adds the amount to the category it is called for. *)
Lemma addStakedAmount_staked c a um um' :
  addStakedAmount c a um = Some um' →
  ∀ c', spec.stakedOfUser um' c'
        = spec.stakedOfUser um c' + (if decide (c' = c) then sdk.Amount a else 0).
Proof.
  apply onMetrics_staked. intros m m' Hm.
  destruct (sdk.Add (TotalAmountStaked m) a) as [v|] eqn:Hadd; simpl in Hm; [|done].
  simplify_eq. simpl. by apply sdk_Add_amount.
Qed.

(** An operation on the metrics of one user, seen from the summary. *)
Lemma onUser_staked u f (delta : Z → Z) summary summary' :
  (∀ um um', f um = Some um' →
             ∀ c, spec.stakedOfUser um' c = spec.stakedOfUser um c + delta c) →
  onUser u f summary = Some summary' →
  ∀ u' c, spec.TotalAmountStaked summary' u' c
          = spec.TotalAmountStaked summary u' c + (if decide (u' = u) then delta c else 0).
Proof.
  intros Hf. unfold onUser, GetUserMetrics.
  destruct (f _) as [um'|] eqn:Hum; simpl; [|done].
  intros [= <-] u' c. unfold spec.TotalAmountStaked, setUserMetrics. simpl.
  destruct (decide (u' = u)) as [->|Hne].
  - rewrite lookup_insert_eq. rewrite (Hf _ _ Hum). f_equal.
    destruct (Users summary !! u) as [um|]; simpl; [done|].
    unfold spec.stakedOfUser. simpl. by rewrite lookup_empty.
  - rewrite !lookup_insert_ne by done. lia.
Qed.

Lemma onUser_keeps u f summary summary' :
  keepsStaked f →
  onUser u f summary = Some summary' →
  ∀ u' c, spec.TotalAmountStaked summary' u' c = spec.TotalAmountStaked summary u' c.
Proof.
  intros Hf Hon u' c.
  rewrite (onUser_staked u f (λ _, 0) summary summary'); [|intros um um' Hum c'|done].
  - destruct (decide (u' = u)); lia.
  - rewrite (Hf _ _ Hum). lia.
Qed.

Lemma keeps_Some : keepsStaked Some.
Proof. by intros um um' [= <-]. Qed.

Lemma keeps_bind f g :
  keepsStaked f → keepsStaked g → keepsStaked (λ um, f um ≫= g).
Proof.
  intros Hf Hg um um' H. destruct (f um) as [um1|] eqn:Hum1; simpl in H; [|done].
  intros c. by rewrite (Hg _ _ H), (Hf _ _ Hum1).
Qed.

Lemma keeps_if (b : bool) f g :
  keepsStaked f → keepsStaked g → keepsStaked (λ um, if b then f um else g um).
Proof. by destruct b. Qed.

Lemma keeps_decide P `{Decision P} f g :
  keepsStaked f → keepsStaked g → keepsStaked (λ um, if decide P then f um else g um).
Proof. by destruct (decide P). Qed.

Ltac keeps_auto :=
  repeat first
    [ apply keeps_Some | apply keeps_bind | apply keeps_if | apply keeps_decide
    | apply increaseArgumentsCount_keeps | apply increaseClaimsCount_keeps
    | apply increaseEndorsementsGivenCount_keeps
    | apply increaseEndorsementsReceivedCount_keeps
    | apply increaseTotalBackings_keeps | apply increaseTotalChallenges_keeps
    | apply setTotalOpenedClaims_keeps | apply addAmoutAtStake_keeps
    | apply addBackedAmount_keeps | apply addChallengedAmount_keeps
    | apply addStakeLost_keeps | apply addInterestEarned_keeps
    | apply addStakeEarned_keeps | apply addCredEarned_keeps
    | apply addRunningBalance_keeps ].

(** A goal about every run of a chain of operations, as [keepsStaked]. *)
Ltac as_keeps :=
  lazymatch goal with
  | |- ∀ um um', @?f um = Some um' → _ => change (keepsStaked f)
  end.

Variable ta : TruAPI.

Lemma stake_staked beforeDate s backing acc b acc' :
  stake ta beforeDate s backing acc b = Some acc' →
  ∀ u c, spec.TotalAmountStaked acc'.1.2 u c
         = spec.TotalAmountStaked acc.1.2 u c
           + (if decide (u = Stake.Creator b ∧ Stake.CreatedTime b < beforeDate
                         ∧ c = story.CategoryID s)
              then sdk.Amount (Stake.Amount b) else 0).
Proof.
  destruct acc as [[stakedAmount summary] stakeByStory]. unfold stake.
  unfold golang.Before. case_bool_decide as Hbefore; simpl.
  2:{ intros [= <-] u c. simpl. rewrite decide_False by tauto. lia. }
  destruct (sdk.Add stakedAmount _) as [stakedAmount'|]; simpl; [|done].
  destruct (onUser _ _ summary) as [summary'|] eqn:Hon; simpl; [|done].
  intros [= <-] u c. simpl.
  eapply (onUser_staked _ _
            (λ c, if decide (c = story.CategoryID s) then sdk.Amount (Stake.Amount b) else 0))
    in Hon; [rewrite Hon|].
  - repeat case_decide; clash.
  - intros um um' Hchain c'.
    destruct (addStakedAmount _ _ um) as [um0|] eqn:Hadd; simpl in Hchain; [|done].
    cbv beta. rewrite <- (addStakedAmount_staked _ _ _ _ Hadd c').
    revert c'. revert Hchain. clear Hadd. revert um0 um'.
    as_keeps.
    keeps_auto.
Qed.

Lemma sumZ_app l k : spec.sumZ (l ++ k) = spec.sumZ l + spec.sumZ k.
Proof. induction l as [|x l IH]; simpl; lia. Qed.

Lemma stakedAmong_cons beforeDate u b l :
  stakedAmong beforeDate u (b :: l)
  = (if decide (u = Stake.Creator b ∧ Stake.CreatedTime b < beforeDate)
     then sdk.Amount (Stake.Amount b) else 0)
    + stakedAmong beforeDate u l.
Proof.
  unfold stakedAmong. rewrite filter_cons.
  repeat case_decide; simpl; clash.
Qed.

Lemma stakedAmong_app beforeDate u l k :
  stakedAmong beforeDate u (l ++ k)
  = stakedAmong beforeDate u l + stakedAmong beforeDate u k.
Proof. unfold stakedAmong. by rewrite filter_app, map_app, sumZ_app. Qed.

Lemma stakes_staked beforeDate s backing l acc acc' :
  golang.foldlM (stake ta beforeDate s backing) acc l = Some acc' →
  ∀ u c, spec.TotalAmountStaked acc'.1.2 u c
         = spec.TotalAmountStaked acc.1.2 u c
           + (if decide (c = story.CategoryID s) then stakedAmong beforeDate u l else 0).
Proof.
  revert acc. induction l as [|b l IH]; simpl; intros acc.
  - intros [= <-] u c. unfold stakedAmong. simpl. case_decide; lia.
  - destruct (stake ta beforeDate s backing acc b) as [acc1|] eqn:Hstake; simpl; [|done].
    intros Hrest u c.
    rewrite (IH _ Hrest), (stake_staked _ _ _ _ _ _ Hstake), stakedAmong_cons.
    repeat case_decide; clash.
Qed.

Lemma stakesLost_keeps c l summary summary' :
  stakesLost c l summary = Some summary' →
  ∀ u c', spec.TotalAmountStaked summary' u c' = spec.TotalAmountStaked summary u c'.
Proof.
  unfold stakesLost.
  apply (foldlM_invariant
           (λ x, ∀ u c', spec.TotalAmountStaked x u c' = spec.TotalAmountStaked summary u c')).
  - done.
  - intros x b x' Hx Hon u c'. rewrite <- Hx.
    eapply onUser_keeps; [|exact Hon]. apply addStakeLost_keeps.
Qed.

Lemma storyPass_staked beforeDate p idx s p' :
  storyPass ta beforeDate p (idx, s) = Some p' →
  ∀ u c, spec.TotalAmountStaked (metricsSummary p') u c
         = spec.TotalAmountStaked (metricsSummary p) u c
           + (if decide (story.CreatedTime s < beforeDate ∧ c = story.CategoryID s)
              then spec.stakedOnStory ta beforeDate u s else 0).
Proof.
  unfold storyPass, golang.Before. case_bool_decide as Hbefore; simpl.
  2:{ intros [= <-] u c. rewrite decide_False by tauto. lia. }
  destruct (onUser _ _ (metricsSummary p)) as [summary0|] eqn:Hclaims; simpl; [|done].
  destruct (golang.foldlM (stake ta beforeDate s true) _ _)
    as [[[backingAmount summary1] stakeByStory1]|] eqn:Hbackings; simpl; [|done].
  destruct (golang.foldlM (stake ta beforeDate s false) _ _)
    as [[[challengeAmount summary2] stakeByStory2]|] eqn:Hchallenges; simpl; [|done].
  assert (∀ u c, spec.TotalAmountStaked summary2 u c
                 = spec.TotalAmountStaked (metricsSummary p) u c
                   + (if decide (story.CreatedTime s < beforeDate ∧ c = story.CategoryID s)
                      then spec.stakedOnStory ta beforeDate u s else 0)) as Hsum.
  { intros u c.
    pose proof (stakes_staked _ _ _ _ _ _ Hchallenges u c) as H2.
    pose proof (stakes_staked _ _ _ _ _ _ Hbackings u c) as H1.
    simpl in H1, H2. rewrite H2, H1.
    rewrite (onUser_keeps _ _ _ _ (increaseClaimsCount_keeps _) Hclaims).
    unfold spec.stakedOnStory, spec.stakesOf.
    fold (stakedAmong beforeDate u
            (backingsResolver ta (story.ID s) ++ challengesResolver ta (story.ID s))).
    rewrite stakedAmong_app.
    repeat case_decide; clash. }
  destruct (decide (story.Status_ s = story.Pending)); [by intros [= <-]|].
  destruct (if sdk.IsLT backingAmount challengeAmount then _ else _)
    as [summary3|] eqn:Hlost1; simpl; [|done].
  destruct (if sdk.IsLT challengeAmount backingAmount then _ else _)
    as [summary4|] eqn:Hlost2; simpl; [|done].
  intros [= <-] u c. simpl. rewrite <- Hsum.
  transitivity (spec.TotalAmountStaked summary3 u c).
  - destruct (sdk.IsLT challengeAmount backingAmount); [|by simplify_eq].
    by eapply stakesLost_keeps.
  - destruct (sdk.IsLT backingAmount challengeAmount); [|by simplify_eq].
    by eapply stakesLost_keeps.
Qed.

Lemma storiesPass_staked beforeDate l p p' :
  golang.foldlM (storyPass ta beforeDate) p l = Some p' →
  ∀ u c, spec.TotalAmountStaked (metricsSummary p') u c
         = spec.TotalAmountStaked (metricsSummary p) u c
           + spec.sumZ (map (λ s, if decide (story.CreatedTime s < beforeDate
                                             ∧ c = story.CategoryID s)
                                  then spec.stakedOnStory ta beforeDate u s else 0)
                          l.*2).
Proof.
  revert p. induction l as [|[idx s] l IH]; intros p.
  - intros [= <-] u c. simpl. lia.
  - rewrite foldlM_cons, fmap_cons.
    destruct (storyPass ta beforeDate p (idx, s)) as [p1|] eqn:Hstory; [|done].
    intros Hrest u c.
    rewrite (IH _ Hrest), (storyPass_staked _ _ _ _ _ Hstory). simpl. lia.
Qed.

(** A story that is not before the date has no stake before it, when no
    stake is older than its story. *)
Lemma stakedOnStory_late beforeDate stories s u :
  spec.stakesFollowStories ta stories → s ∈ stories →
  ¬ story.CreatedTime s < beforeDate →
  spec.stakedOnStory ta beforeDate u s = 0.
Proof.
  intros Hfollow Hs Hlate. unfold spec.stakedOnStory.
  assert (∀ b, b ∈ spec.stakesOf ta s → story.CreatedTime s ≤ Stake.CreatedTime b) as Hb
    by (intros b; by apply Hfollow).
  induction (spec.stakesOf ta s) as [|b l IH]; [done|].
  rewrite filter_cons. rewrite decide_False.
  - apply IH. intros b' Hb'. apply Hb. by right.
  - intros [_ Hlt]. specialize (Hb b ltac:(left)). lia.
Qed.

Lemma sum_stories_observed beforeDate stories u c :
  spec.sumZ (map (λ s, if decide (story.CreatedTime s < beforeDate ∧ c = story.CategoryID s)
                       then spec.stakedOnStory ta beforeDate u s else 0)
               stories)
  = spec.stakedOnStoriesBefore ta beforeDate stories u c.
Proof.
  unfold spec.stakedOnStoriesBefore.
  induction stories as [|s l IH]; [done|].
  rewrite filter_cons. simpl. rewrite IH.
  repeat case_decide; simpl; clash.
Qed.

(** When no stake is older than its story, the stories created at the date or
    after it carry no stake before the date. *)
Lemma stakedOnStoriesBefore_all beforeDate stories u c :
  spec.stakesFollowStories ta stories →
  spec.stakedOnStoriesBefore ta beforeDate stories u c
  = spec.stakedBefore ta beforeDate stories u c.
Proof.
  intros Hfollow. unfold spec.stakedOnStoriesBefore, spec.stakedBefore.
  assert (∀ s, s ∈ stories → s ∈ stories) as Hin by done.
  revert Hin. generalize stories at 1 3 4. intros l.
  induction l as [|s l IH]; intros Hin; [done|].
  rewrite !filter_cons.
  specialize (IH ltac:(intros s' Hs'; apply Hin; by right)).
  destruct (decide (story.CategoryID s = c)) as [Hc|Hne].
  - destruct (decide (story.CreatedTime s < beforeDate)) as [Hlt|Hlate].
    + rewrite decide_True by done. simpl. by rewrite IH.
    + rewrite decide_False by tauto. simpl. rewrite IH.
      rewrite (stakedOnStory_late beforeDate stories s u); [done|done|apply Hin; left|done].
  - rewrite decide_False by tauto. done.
Qed.

(** The loop over the users leaves the staked amounts as they are. *)

Lemma categoryPass_keeps um entry um' :
  categoryPass um entry = Some um' →
  ∀ c, spec.stakedOfUser um' c = spec.stakedOfUser um c.
Proof.
  destruct entry as [cID cat]. unfold categoryPass.
  pose proof (getMetricsByCategory_staked um cID) as Hget.
  pose proof (getMetricsByCategory_self um cID) as Hself.
  destruct (getMetricsByCategory um cID) as [um1 cm]; simpl in *.
  intros [= <-] c. rewrite setCategoryMetrics_staked. simpl.
  destruct (decide (c = cID)) as [->|Hne]; [by rewrite Hself|apply Hget].
Qed.

Ltac keeps_hyps :=
  repeat match goal with
         | H : addRunningBalance _ _ = Some _ |- _ => apply addRunningBalance_keeps in H
         | H : addInterestEarned _ _ _ = Some _ |- _ => apply addInterestEarned_keeps in H
         | H : addCredEarned _ _ _ = Some _ |- _ => apply addCredEarned_keeps in H
         | H : increaseEndorsementsReceivedCount _ _ = Some _ |- _ =>
             apply increaseEndorsementsReceivedCount_keeps in H
         | H : addStakeEarned _ _ _ = Some _ |- _ => apply addStakeEarned_keeps in H
         end.

Lemma transaction_keeps beforeDate stories mapped acc tx acc' :
  transaction beforeDate stories mapped acc tx = Some acc' →
  ∀ c, spec.stakedOfUser acc'.1 c = spec.stakedOfUser acc.1 c.
Proof.
  destruct acc as [um results]. unfold transaction.
  destruct (negb _); [by intros [= <-]|].
  destruct (addRunningBalance _ um) as [um1|] eqn:Hrun; simpl; [|done].
  intros H c.
  assert (spec.stakedOfUser acc'.1 c = spec.stakedOfUser um1 c) as ->;
    [|by apply addRunningBalance_keeps in Hrun].
  revert H.
  destruct (trubank.TransactionType_ tx) eqn:Hty; try (by intros [= <-]);
    (destruct (mapped !! trubank.GroupID tx) as [i|]; [|by intros [= <-]]);
    (destruct (stories !! i) as [s|]; simpl; [|done]).
  - destruct (addInterestEarned _ _ um1) as [um2|] eqn:H2; simpl; [|done].
    intros [= <-]. simpl. by apply addInterestEarned_keeps in H2.
  - destruct (addCredEarned _ _ um1) as [um2|] eqn:H2; simpl; [|done].
    destruct (increaseEndorsementsReceivedCount _ um2) as [um3|] eqn:H3; simpl; [|done].
    intros [= <-]. simpl. keeps_hyps. by rewrite H3, H2.
  - destruct (addCredEarned _ _ um1) as [um2|] eqn:H2; simpl; [|done].
    destruct (increaseEndorsementsReceivedCount _ um2) as [um3|] eqn:H3; simpl; [|done].
    intros [= <-]. simpl. keeps_hyps. by rewrite H3, H2.
  - destruct (decide _); [by intros [= <-]|].
    repeat (match goal with
            | |- context [copyCoin ?a] => destruct (copyCoin a); simpl
            | |- context [decide ?P] => destruct (decide P); simpl
            | |- context [bool_decide ?P] => destruct (bool_decide P); simpl
            end); by intros [= <-].
  - destruct (decide _); [by intros [= <-]|].
    repeat (match goal with
            | |- context [copyCoin ?a] => destruct (copyCoin a); simpl
            | |- context [decide ?P] => destruct (decide P); simpl
            | |- context [bool_decide ?P] => destruct (bool_decide P); simpl
            end); by intros [= <-].
  - destruct (decide _); [by intros [= <-]|].
    repeat (match goal with
            | |- context [copyCoin ?a] => destruct (copyCoin a); simpl
            | |- context [decide ?P] => destruct (decide P); simpl
            | |- context [bool_decide ?P] => destruct (bool_decide P); simpl
            end); by intros [= <-].
Qed.

Lemma storyResultPass_keeps stakeByStory userAddress um entry um' :
  storyResultPass stakeByStory userAddress um entry = Some um' →
  ∀ c, spec.stakedOfUser um' c = spec.stakedOfUser um c.
Proof.
  destruct entry as [storyID storyResult]. unfold storyResultPass.
  destruct (stakeEarnedAmount _ _ _ _) as [[reward|]|]; simpl; [|by intros [= <-]|done].
  apply addStakeEarned_keeps.
Qed.

Lemma userPass_keeps rangeCategories rangeResults beforeDate stories p summary profile
    summary' :
  userPass rangeCategories rangeResults ta beforeDate stories p summary profile
  = Some summary' →
  ∀ u c, spec.TotalAmountStaked summary' u c = spec.TotalAmountStaked summary u c.
Proof.
  unfold userPass, GetUserMetrics.
  set (um0 := default _ (Users summary !! TwitterProfile.Address profile)).
  destruct (sdk.NewCoin _ _) as [balance|]; simpl; [|done].
  destruct (sdk.NewInt64Coin _ _) as [runningBalance|]; simpl; [|done].
  destruct (golang.foldlM categoryPass _ _) as [um1|] eqn:Hcategories; simpl; [|done].
  set (um2 := match TwitterProfileByAddress ta _ with
              | (Some _, None) => _
              | _ => um1
              end).
  destruct (transactionsPass _ _ _ _ _ um2) as [[um3 results]|] eqn:Htxs; simpl; [|done].
  destruct (golang.foldlM (storyResultPass _ _) um3 _) as [um4|] eqn:Hresults; simpl;
    [|done].
  intros [= <-] u c. unfold spec.TotalAmountStaked, setUserMetrics. simpl.
  destruct (decide (u = TwitterProfile.Address profile)) as [->|Hne];
    [|by rewrite !lookup_insert_ne].
  rewrite lookup_insert_eq.
  assert (spec.stakedOfUser um4 c = spec.stakedOfUser um0 c) as ->.
  { transitivity (spec.stakedOfUser um3 c).
    { revert c.
      eapply (foldlM_invariant (λ x, ∀ c, spec.stakedOfUser x c = spec.stakedOfUser um3 c));
        [| |exact Hresults]; [done|].
      intros x e x' Hx Hstep c. rewrite <- Hx. by eapply storyResultPass_keeps. }
    transitivity (spec.stakedOfUser um2 c).
    { unfold transactionsPass in Htxs.
      change um3 with (um3, results).1. change um2 with (um2, (∅ : gmap Z storyRewardResult)).1.
      revert c.
      eapply (foldlM_invariant
                (λ x : UserMetrics * gmap Z storyRewardResult,
                   ∀ c, spec.stakedOfUser x.1 c = spec.stakedOfUser um2 c));
        [| |exact Htxs]; [done|].
      intros x e x' Hx Hstep c. rewrite <- Hx. by eapply transaction_keeps. }
    transitivity (spec.stakedOfUser um1 c).
    { unfold um2. by destruct (TwitterProfileByAddress ta _) as [[?|] [?|]]. }
    revert c.
    eapply (foldlM_invariant (λ x, ∀ c, spec.stakedOfUser x c = spec.stakedOfUser _ c));
      [| |exact Hcategories]; [done|].
    intros x e x' Hx Hstep c. rewrite <- Hx. by eapply categoryPass_keeps. }
  unfold um0. destruct (Users summary !! TwitterProfile.Address profile); simpl; [done|].
  unfold spec.stakedOfUser. simpl. by rewrite lookup_empty.
Qed.

Lemma openedClaimsPass_keeps summary uoc summary' :
  openedClaimsPass summary uoc = Some summary' →
  ∀ u c, spec.TotalAmountStaked summary' u c = spec.TotalAmountStaked summary u c.
Proof. apply onUser_keeps. apply setTotalOpenedClaims_keeps. Qed.

(** A summary that is rendered went through the three passes. *)
Lemma aggregate_rendered rangeCategories rangeResults beforeDate summary code :
  RenderJSON summary code ∈ (aggregate rangeCategories rangeResults ta beforeDate).1 →
  ∃ stories p summary1,
    RunQuery_stories ta = inr stories
    ∧ storiesPass ta beforeDate stories
        (mkMetricsSummary ∅ (foldl (λ m cat, <[category.ID cat := cat]> m) ∅
                               (allCategoriesResolver ta)))
      = Some p
    ∧ golang.foldlM (userPass rangeCategories rangeResults ta beforeDate stories p)
        (metricsSummary p) (FindAll_users ta).1 = Some summary1
    ∧ golang.foldlM openedClaimsPass summary1 (OpenedClaimsSummary ta beforeDate).1
      = Some summary.
Proof.
  unfold aggregate.
  destruct (RunQuery_stories ta) as [err|stories]; simpl.
  { intros [[=]|[]%elem_of_nil]%elem_of_cons. }
  destruct (decide _); simpl.
  { intros [[=]|[]%elem_of_nil]%elem_of_cons. }
  destruct (storiesPass _ _ _ _) as [p|] eqn:Hstories; simpl; [|by intros []%elem_of_nil].
  destruct (FindAll_users ta) as [users err]; simpl.
  destruct (OpenedClaimsSummary ta beforeDate) as [openedClaims err']; simpl.
  destruct (golang.foldlM (userPass _ _ _ _ _ _) _ _) as [summary1|] eqn:Husers; simpl.
  2:{ destruct err; simpl; intros Hin; which_output Hin. }
  destruct (golang.foldlM openedClaimsPass _ _) as [summary2|] eqn:Hopened;
    destruct err, err'; simpl; intros Hin; which_output Hin; eauto 10.
Qed.

End Staked.

Lemma imap_pair_snd {A} (g : nat → nat) (l : list A) :
  (imap (λ idx x, (g idx, x)) l).*2 = l.
Proof.
  revert g. induction l as [|x l IH]; intros g; [done|].
  simpl. f_equal. apply (IH (g ∘ S)).
Qed.

(** The sum the loop over the stories leaves in [TotalAmountStaked] is still
    there when the summary is rendered. *)
Lemma TotalAmountStaked_observed
    (time_Parse : string → string + golang.Time)
    (rangeCategories : gmap Z metrics.category.Category
                       → list (Z * metrics.category.Category))
    (rangeResults : gmap Z metrics.storyRewardResult → list (Z * metrics.storyRewardResult))
    (ta : metrics.TruAPI) (r : metrics.Request)
    (beforeDate : golang.Time) (stories : list metrics.story.Story)
    (summary : metrics.MetricsSummary) (code : Z) :
  time_Parse (metrics.FormValue_date r) = inr beforeDate →
  metrics.RunQuery_stories ta = inr stories →
  metrics.RenderJSON summary code
    ∈ (metrics.HandleMetrics time_Parse rangeCategories rangeResults ta r).1 →
  ∀ user categoryID,
    spec.TotalAmountStaked summary user categoryID
    = spec.stakedOnStoriesBefore ta beforeDate stories user categoryID.
Proof.
  intros Hdate Hstories Hin user categoryID.
  unfold metrics.HandleMetrics in Hin.
  destruct (metrics.ParseForm r); simpl in Hin; [which_output Hin|].
  destruct (decide _); simpl in Hin; [which_output Hin|].
  rewrite Hdate in Hin.
  apply aggregate_rendered in Hin
    as (stories' & p & summary1 & Hstories' & Hpass & Husers & Hopened).
  rewrite Hstories in Hstories'. injection Hstories' as <-.
  transitivity (spec.TotalAmountStaked summary1 user categoryID).
  { revert user categoryID.
    eapply (foldlM_invariant
              (λ x, ∀ u c, spec.TotalAmountStaked x u c = spec.TotalAmountStaked summary1 u c));
      [| |exact Hopened]; [done|].
    intros x e x' Hx Hstep u c. rewrite <- Hx. by eapply openedClaimsPass_keeps. }
  transitivity (spec.TotalAmountStaked (metrics.metricsSummary p) user categoryID).
  { revert user categoryID.
    eapply (foldlM_invariant
              (λ x, ∀ u c, spec.TotalAmountStaked x u c
                           = spec.TotalAmountStaked (metrics.metricsSummary p) u c));
      [| |exact Husers]; [done|].
    intros x e x' Hx Hstep u c. rewrite <- Hx. by eapply userPass_keeps. }
  unfold metrics.storiesPass in Hpass.
  rewrite (storiesPass_staked _ _ _ _ _ Hpass). simpl.
  rewrite (imap_pair_snd id), sum_stories_observed.
  unfold spec.TotalAmountStaked. simpl. by rewrite lookup_empty.
Qed.

(** C1. When [HandleMetrics] renders its summary, the [TotalAmountStaked] the
    summary holds for a user and a category (zero when it has no entry for
    them) is the sum of the amounts of the backings and challenges of that
    user that were created strictly before the date, on the stories of that
    category that were themselves created strictly before the date.  A story
    created at the date or after it is skipped with all its stakes, also
    those created before the date; the stakes created at the date or after it
    add nothing. *)
Theorem TotalAmountStaked_sums_observed_stakes
    (time_Parse : string → string + golang.Time)
    (rangeCategories : gmap Z metrics.category.Category
                       → list (Z * metrics.category.Category))
    (rangeResults : gmap Z metrics.storyRewardResult → list (Z * metrics.storyRewardResult))
    (ta : metrics.TruAPI) (r : metrics.Request)
    (beforeDate : golang.Time) (stories : list metrics.story.Story)
    (summary : metrics.MetricsSummary) (code : Z) :
  time_Parse (metrics.FormValue_date r) = inr beforeDate →
  metrics.RunQuery_stories ta = inr stories →
  metrics.RenderJSON summary code
    ∈ (metrics.HandleMetrics time_Parse rangeCategories rangeResults ta r).1 →
  ∀ user categoryID,
    spec.TotalAmountStaked summary user categoryID
    = spec.stakedOnStoriesBefore ta beforeDate stories user categoryID.
Proof.
  intros Hdate Hstories Hin user categoryID.
  by eapply TotalAmountStaked_observed.
Qed.

(** When no stake is older than the story it is placed on, the stories the
    loop skips carry no stake before the date, and [TotalAmountStaked] is the
    sum of the amounts of all the stakes of the user in the category that
    were created strictly before the date. *)
Corollary TotalAmountStaked_sums_stakes_before_date
    (time_Parse : string → string + golang.Time)
    (rangeCategories : gmap Z metrics.category.Category
                       → list (Z * metrics.category.Category))
    (rangeResults : gmap Z metrics.storyRewardResult → list (Z * metrics.storyRewardResult))
    (ta : metrics.TruAPI) (r : metrics.Request)
    (beforeDate : golang.Time) (stories : list metrics.story.Story)
    (summary : metrics.MetricsSummary) (code : Z) :
  time_Parse (metrics.FormValue_date r) = inr beforeDate →
  metrics.RunQuery_stories ta = inr stories →
  spec.stakesFollowStories ta stories →
  metrics.RenderJSON summary code
    ∈ (metrics.HandleMetrics time_Parse rangeCategories rangeResults ta r).1 →
  ∀ user categoryID,
    spec.TotalAmountStaked summary user categoryID
    = spec.stakedBefore ta beforeDate stories user categoryID.
Proof.
  intros Hdate Hstories Hfollow Hin user categoryID.
  rewrite (TotalAmountStaked_observed _ _ _ _ _ _ _ _ _ Hdate Hstories Hin).
  by apply stakedOnStoriesBefore_all.
Qed.

Lemma rendered_elem out summary code :
  spec.rendered out = Some (summary, code) → metrics.RenderJSON summary code ∈ out.
Proof.
  unfold spec.rendered. induction out as [|o out IH]; [done|].
  destruct o as [msg c|body c]; simpl.
  - intros H. right. by apply IH.
  - intros [= <- <-]. left.
Qed.

Lemma TotalAmountStaked_sums_observed_stakes_witness :
  ∃ summary code,
    metrics.RenderJSON summary code
      ∈ (metrics.HandleMetrics sample.time_Parse map_to_list map_to_list sample.chain
           sample.metricsRequest).1
    ∧ spec.TotalAmountStaked summary "tru1alice" 10 = 35%Z
    ∧ spec.TotalAmountStaked summary "tru1bob" 10 = 30%Z
    ∧ spec.TotalAmountStaked summary "tru1bob" 20 = 0%Z.
Proof.
  destruct (spec.rendered
              (metrics.HandleMetrics sample.time_Parse map_to_list map_to_list sample.chain
                 sample.metricsRequest).1) as [[summary code]|] eqn:Hrendered.
  - apply rendered_elem in Hrendered. exists summary, code. split; [exact Hrendered|].
    pose proof (TotalAmountStaked_sums_observed_stakes sample.time_Parse map_to_list
                  map_to_list sample.chain sample.metricsRequest 1000%Z sample.stories
                  summary code eq_refl eq_refl Hrendered) as Hsum.
    rewrite !Hsum. split_and!; vm_compute; reflexivity.
  - exfalso. vm_compute in Hrendered. discriminate Hrendered.
Defined.

(** A stake that is older than its story is not counted: on a chain whose
    only story is created after the date, with a backing of 50 by bob created
    before the date, the summary rendered holds no stake for bob, while the
    amounts of his stakes created before the date sum to 50. *)
Lemma TotalAmountStaked_misses_stake_older_than_story :
  ∃ summary code,
    metrics.RenderJSON summary code
      ∈ (metrics.HandleMetrics sample.time_Parse map_to_list map_to_list
           sample.earlyStakeChain sample.metricsRequest).1
    ∧ spec.TotalAmountStaked summary "tru1bob" 20%Z = 0%Z
    ∧ spec.stakedBefore sample.earlyStakeChain 1000%Z [sample.lateStory] "tru1bob" 20%Z
      = 50%Z.
Proof.
  destruct (spec.rendered
              (metrics.HandleMetrics sample.time_Parse map_to_list map_to_list
                 sample.earlyStakeChain sample.metricsRequest).1)
    as [[summary code]|] eqn:Hrendered.
  - pose proof Hrendered as Hin. apply rendered_elem in Hin.
    exists summary, code. split; [exact Hin|].
    vm_compute in Hrendered. injection Hrendered as <- <-.
    split; vm_compute; reflexivity.
  - exfalso. vm_compute in Hrendered. discriminate Hrendered.
Qed.

(** ** [HandleMetrics]: the rewards *)

Section Rewards.

Import metrics.
Local Open Scope Z_scope.

Lemma NewCoin_amount denom amount coin :
  sdk.NewCoin denom amount = Some coin → sdk.Amount coin = amount ∧ 0 ≤ amount.
Proof.
  unfold sdk.NewCoin. case_bool_decide; [done|]. intros [= <-]. simpl. lia.
Qed.

Lemma copyCoin_amount amount coin : copyCoin amount = Some coin → 0 ≤ sdk.Amount coin.
Proof.
  unfold copyCoin. destruct (sdk.Int64 _) as [a|]; simpl; [|done].
  intros [-> ?]%NewCoin_amount. done.
Qed.

Lemma sdk_Sub_amount a b r :
  sdk.Sub a b = Some r → sdk.Amount r = sdk.Amount a - sdk.Amount b ∧ 0 ≤ sdk.Amount r.
Proof.
  unfold sdk.Sub, sdk.IntSub, sdk.checked.
  destruct (decide _); [|done]. destruct (sdk.inRange _); simpl; [|done].
  case_bool_decide; [done|]. intros [= <-]. simpl. lia.
Qed.

Lemma transaction_rewards beforeDate stories mapped acc tx acc' :
  rewardsNotNegative acc.2 →
  transaction beforeDate stories mapped acc tx = Some acc' →
  rewardsNotNegative acc'.2.
Proof.
  destruct acc as [um results]. simpl. intros Hinv. unfold transaction.
  destruct (negb _); [by intros [= <-]|].
  destruct (addRunningBalance _ um) as [um1|]; simpl; [|done].
  destruct (trubank.TransactionType_ tx) eqn:Hty; try (by intros [= <-]);
    (destruct (mapped !! trubank.GroupID tx) as [i|]; [|by intros [= <-]]);
    (destruct (stories !! i) as [s|]; simpl; [|done]).
  1-3: repeat (match goal with
               | |- context [addInterestEarned ?a ?b ?c] =>
                   destruct (addInterestEarned a b c); simpl
               | |- context [addCredEarned ?a ?b ?c] => destruct (addCredEarned a b c); simpl
               | |- context [increaseEndorsementsReceivedCount ?a ?b] =>
                   destruct (increaseEndorsementsReceivedCount a b); simpl
               end); try done; by intros [= <-].
  all: destruct (decide _); [by intros [= <-]|].
  all: set (old := default _ (results !! trubank.GroupID tx)).
  all: assert (∀ reward, Reward old = Some reward → 0 ≤ sdk.Amount reward) as Hold
         by (intros reward; unfold old;
             destruct (results !! trubank.GroupID tx) as [res|] eqn:Hres; simpl;
             [by apply (Hinv _ _ _ Hres)|done]).
  all: destruct (copyCoin (trubank.Amount tx)) as [coin|] eqn:Hcoin; simpl; [|done].
  all: intros [= <-]; simpl; intros storyID storyResult reward Hlookup Hreward.
  all: destruct (decide (storyID = trubank.GroupID tx)) as [->|Hne];
         [rewrite lookup_insert_eq in Hlookup|
          rewrite lookup_insert_ne in Hlookup by done; by eapply Hinv].
  all: injection Hlookup as <-; simpl in Hreward.
  - injection Hreward as <-. by eapply copyCoin_amount.
  - by apply Hold.
  - by apply Hold.
Qed.

Lemma transactionsPass_rewards ta beforeDate stories p userAddress um um' results :
  transactionsPass ta beforeDate stories p userAddress um = Some (um', results) →
  rewardsNotNegative results.
Proof.
  unfold transactionsPass. intros Hpass.
  change results with (um', results).2.
  eapply (foldlM_invariant (λ acc : UserMetrics * gmap Z storyRewardResult,
                              rewardsNotNegative acc.2)); [| |exact Hpass].
  - intros storyID storyResult reward Hlookup. simpl in Hlookup.
    by rewrite lookup_empty in Hlookup.
  - intros acc tx acc'. apply transaction_rewards.
Qed.

End Rewards.

(** An amount that the loop over [userStoryResults] passes to
    [addStakeEarned] is not negative.  When no returned stake was recorded for
    the story, that amount is the reward less the amount found in
    [mapUserStakeByStoryID], and it is greater than zero: a net reward of zero
    is skipped. *)
Lemma stake_earned_amount_not_negative
    (rangeResults : gmap Z metrics.storyRewardResult → list (Z * metrics.storyRewardResult))
    (rangeResults_perm : ∀ m, rangeResults m ≡ₚ map_to_list m)
    (ta : metrics.TruAPI) (beforeDate : golang.Time) (stories : list metrics.story.Story)
    (p : metrics.Pass) (userAddress : string) (um um' : metrics.UserMetrics)
    (userStoryResults : gmap Z metrics.storyRewardResult)
    (storyID : Z) (storyResult : metrics.storyRewardResult) (amount : sdk.Coin) :
  metrics.transactionsPass ta beforeDate stories p userAddress um
  = Some (um', userStoryResults) →
  (storyID, storyResult) ∈ rangeResults userStoryResults →
  metrics.stakeEarnedAmount (metrics.mapUserStakeByStoryID p) userAddress storyID storyResult
  = Some (Some amount) →
  (0 ≤ sdk.Amount amount)%Z
  ∧ (metrics.StakeReturned storyResult = None →
     ∃ reward stakedAmount,
       metrics.Reward storyResult = Some reward
       ∧ metrics.mapUserStakeByStoryID p
           !! metrics.mapUserStakeByStoryIDKey userAddress storyID = Some stakedAmount
       ∧ sdk.Amount amount = (sdk.Amount reward - sdk.Amount stakedAmount)%Z
       ∧ (0 < sdk.Amount amount)%Z).
Proof.
  intros Hpass Hentry Hamount.
  apply transactionsPass_rewards in Hpass.
  rewrite rangeResults_perm in Hentry. apply elem_of_map_to_list in Hentry.
  unfold metrics.stakeEarnedAmount in Hamount.
  destruct (metrics.Reward storyResult) as [reward|] eqn:Hreward; [|done].
  pose proof (Hpass _ _ _ Hentry Hreward) as Hnonneg.
  destruct (metrics.StakeReturned storyResult) as [returned|].
  { injection Hamount as <-. by split. }
  destruct (metrics.mapUserStakeByStoryID p !! _) as [stakedAmount|]; [|done].
  destruct (sdk.Sub reward stakedAmount) as [net|] eqn:Hsub; simpl in Hamount; [|done].
  apply sdk_Sub_amount in Hsub as [Hnet Hnet0].
  unfold sdk.IsZero, sdk.IsNegative in Hamount.
  repeat case_bool_decide; try done. injection Hamount as <-.
  split; [lia|]. intros _. exists reward, stakedAmount. repeat split; [done|lia].
Qed.

Lemma stake_earned_amount_not_negative_witness :
  ∃ um' userStoryResults,
    metrics.transactionsPass sample.chain 1000%Z sample.stories sample.pass "tru1alice"
      sample.freshUser = Some (um', userStoryResults)
    ∧ (1%Z, sample.aliceResult) ∈ map_to_list userStoryResults
    ∧ metrics.stakeEarnedAmount (metrics.mapUserStakeByStoryID sample.pass) "tru1alice" 1%Z
        sample.aliceResult = Some (Some (sample.stakeCoin 15))
    ∧ (0 ≤ sdk.Amount (sample.stakeCoin 15))%Z.
Proof.
  destruct (metrics.transactionsPass sample.chain 1000%Z sample.stories sample.pass
              "tru1alice" sample.freshUser) as [[um' userStoryResults]|] eqn:Hpass.
  - pose proof Hpass as Hrun. vm_compute in Hrun.
    injection Hrun as Hum Hresults. subst um' userStoryResults.
    assert (metrics.stakeEarnedAmount (metrics.mapUserStakeByStoryID sample.pass)
              "tru1alice" 1%Z sample.aliceResult = Some (Some (sample.stakeCoin 15)))
      as Hamount by (vm_compute; reflexivity).
    eexists. eexists. split; [exact Hpass|].
    split; [vm_compute; apply list_elem_of_here|]. split; [exact Hamount|].
    refine (proj1 (stake_earned_amount_not_negative map_to_list (λ m, reflexivity _)
                     sample.chain 1000%Z sample.stories sample.pass "tru1alice"
                     sample.freshUser _ _ 1%Z sample.aliceResult (sample.stakeCoin 15)
                     Hpass _ Hamount)).
    vm_compute. apply list_elem_of_here.
  - exfalso. vm_compute in Hpass. discriminate Hpass.
Defined.

(** A reward smaller than the amount found in [mapUserStakeByStoryID] is never
    clamped: [Coin.Sub] panics on the negative difference, before the handler
    looks at its sign, so that the branch on [IsNegative] is never taken. *)
Lemma storyResultPass_reward_below_stake
    (stakeByStory : gmap string sdk.Coin) (userAddress : string)
    (um : metrics.UserMetrics) (storyID : Z) (storyResult : metrics.storyRewardResult)
    (reward stakedAmount : sdk.Coin) :
  metrics.Reward storyResult = Some reward →
  metrics.StakeReturned storyResult = None →
  stakeByStory !! metrics.mapUserStakeByStoryIDKey userAddress storyID = Some stakedAmount →
  (sdk.Amount reward < sdk.Amount stakedAmount)%Z →
  metrics.stakeEarnedAmount stakeByStory userAddress storyID storyResult = None
  ∧ metrics.storyResultPass stakeByStory userAddress um (storyID, storyResult) = None.
Proof.
  intros Hreward Hreturned Hstaked Hless.
  assert (metrics.stakeEarnedAmount stakeByStory userAddress storyID storyResult = None)
    as Hamount.
  { unfold metrics.stakeEarnedAmount. rewrite Hreward, Hreturned, Hstaked.
    unfold sdk.Sub, sdk.IntSub, sdk.checked.
    destruct (decide _); [|done]. destruct (sdk.inRange _); simpl; [|done].
    by rewrite bool_decide_eq_true_2 by lia. }
  split; [done|]. unfold metrics.storyResultPass. by rewrite Hamount.
Qed.

(** C2. [HandleMetrics] on a chain on which alice backs the expired story 1
    before the date and is rewarded 45 for it in one transaction.  With a
    stake of 30 the summary rendered holds a [StakeEarned] of 15 for her, and
    with a stake of 45 one of zero.  With a stake of 50 the net reward is
    negative: the handler panics in the subtraction and renders nothing, where
    a reward clamped at zero would leave [StakeEarned] at zero in a rendered
    summary. *)
Theorem HandleMetrics_reward_below_stake_panics :
  (∃ summary,
     metrics.HandleMetrics sample.time_Parse map_to_list map_to_list
       (sample.rewardedChain 30) sample.metricsRequest
     = ([metrics.RenderJSON summary metrics.StatusOK], http.Continue tt)
     ∧ spec.StakeEarned summary "tru1alice" 10%Z = 15%Z)
  ∧ (∃ summary,
       metrics.HandleMetrics sample.time_Parse map_to_list map_to_list
         (sample.rewardedChain 45) sample.metricsRequest
       = ([metrics.RenderJSON summary metrics.StatusOK], http.Continue tt)
       ∧ spec.StakeEarned summary "tru1alice" 10%Z = 0%Z)
  ∧ metrics.HandleMetrics sample.time_Parse map_to_list map_to_list
      (sample.rewardedChain 50) sample.metricsRequest
    = ([], http.Panicked).
Proof.
  split_and!.
  - eexists. split; vm_compute; reflexivity.
  - eexists. split; vm_compute; reflexivity.
  - vm_compute. reflexivity.
Qed.

(** * Further properties of the code *)

Set Warnings "-clear-no-such-hyp".

(** ** Handlers: what they go on with and when they stop *)

Section HandlerSteps.

Context {O : Type}.

Lemma yields_bind {A B} (P : A → Prop) (Q : B → Prop) (m : http.Handler O A)
    (k : A → http.Handler O B) :
  yields P m → (∀ a, P a → yields Q (k a)) → yields Q (http.bind m k).
Proof.
  unfold yields. destruct m as [out [a| |]]; simpl; intros Hm Hk; [|done..].
  specialize (Hk a Hm). by destruct (k a).
Qed.

Lemma yields_forEach {A S} (P : S → Prop) (l : list A) (s : S)
    (body : S → A → http.Handler O S) :
  P s → (∀ s a, P s → yields P (body s a)) → yields P (http.forEach l s body).
Proof.
  intros Hs Hbody. revert s Hs. induction l as [|a l IH]; intros s Hs; simpl; [done|].
  eapply yields_bind; [by apply Hbody|]. intros s' Hs'. by apply IH.
Qed.

Lemma stops_bind_r {A B} (m : http.Handler O A) (k : A → http.Handler O B) :
  (∀ a, stops (k a)) → stops (http.bind m k).
Proof.
  unfold stops. destruct m as [out [a| |]]; simpl; intros Hk; [|done..].
  specialize (Hk a). by destruct (k a).
Qed.

End HandlerSteps.

#[local] Instance Forall_additive (P : list string → Prop) : Additive (Forall P).
Proof. split; [constructor|]. intros a b ??. by apply Forall_app. Qed.

Lemma records_bind_yields {A B} Q `{!Additive Q} (P : A → Prop)
    (m : http.Handler reports.Output A) (k : A → http.Handler reports.Output B) :
  records Q m → yields P m → (∀ a, P a → records Q (k a)) → records Q (http.bind m k).
Proof.
  unfold records, yields. destruct m as [out [a| |]]; simpl; intros Hm HP Hk; [|done..].
  specialize (Hk a HP). destruct (k a) as [out' c]; simpl in *.
  rewrite csvRecords_app. by apply additive_app.
Qed.

Lemma records_csv (P : list string → Prop) row :
  P row → records (Forall P) (http.write (reports.CsvWrite row)).
Proof. intros Hrow. unfold records. simpl. by repeat constructor. Qed.

(** ** The metrics of a user in a community ([getUserCommunityMetric]) *)

(** X1. [getUserCommunityMetric] gets or creates: the metrics it returns are
    those the map then holds for the address and the community, namely the
    ones it held before or fresh zero metrics; no other pair of an address
    and a community changes, no balance changes, and a second call returns
    the same map and the same metrics. *)
Theorem getUserCommunityMetric_get_or_create
    (m : gmap string reports.UserMetrics) (address communityID : string) :
  let m' := (reports.getUserCommunityMetric m address communityID).1 in
  let ucm := (reports.getUserCommunityMetric m address communityID).2 in
  vocab.metricAt m' address communityID = Some ucm
  ∧ ucm = default reports.newUserCommunityMetrics (vocab.metricAt m address communityID)
  ∧ (∀ a c, (a, c) ≠ (address, communityID) → vocab.metricAt m' a c = vocab.metricAt m a c)
  ∧ (∀ a um, m !! a = Some um →
       ∃ um', m' !! a = Some um' ∧ reports.Balance um' = reports.Balance um)
  ∧ reports.getUserCommunityMetric m' address communityID = (m', ucm).
Proof.
  simpl. unfold reports.getUserCommunityMetric, reports.getUserMetrics, vocab.metricAt.
  destruct (m !! address) as [um|] eqn:Hm; simpl.
  - destruct (reports.CommunityMetrics um !! communityID) as [ucm|] eqn:Hc; simpl.
    + rewrite Hm. simpl. rewrite Hc.
      split_and!; first [done | intros a um' Ha; by exists um' | by rewrite Hm, Hc].
    + rewrite lookup_insert_eq. simpl. rewrite lookup_insert_eq. split_and!; try done.
      * intros a c Hne. destruct (decide (a = address)) as [->|Ha].
        -- rewrite lookup_insert_eq, Hm. simpl.
           rewrite lookup_insert_ne; [done|]. congruence.
        -- by rewrite lookup_insert_ne.
      * intros a um' Ha. destruct (decide (a = address)) as [->|Hne].
        -- rewrite lookup_insert_eq. eexists; split; [done|]. simpl. congruence.
        -- rewrite lookup_insert_ne by done. by exists um'.
  - rewrite lookup_empty. simpl. rewrite lookup_insert_eq. simpl.
    rewrite lookup_insert_eq. split_and!; try done.
    + intros a c Hne. destruct (decide (a = address)) as [->|Ha].
      * rewrite lookup_insert_eq, Hm. simpl.
        rewrite lookup_insert_ne; [|congruence]. by rewrite lookup_empty.
      * rewrite lookup_insert_ne by done. by rewrite lookup_insert_ne.
    + intros a um' Ha. destruct (decide (a = address)) as [->|Hne]; [congruence|].
      rewrite !lookup_insert_ne by done. by exists um'.
Qed.

(** ** [HandleUserClaims]: the participants of a claim *)

Section Participants.

Import reports.
Local Open Scope Z_scope.

Lemma addParticipant_fold {A} (creator : A → string) (created : A → golang.Time)
    (targetDate previousDay : golang.Time) (l : list A) (ps : gset string * gset string) :
  previousDay ≤ targetDate →
  foldl (λ ps x, addParticipant targetDate previousDay (creator x) (created x) ps) ps l
  = (ps.1 ∪ list_to_set (creator <$> filter (λ x, created x < targetDate) l),
     ps.2 ∪ list_to_set (creator <$> filter (λ x, created x < previousDay) l)).
Proof.
  intros Hle. revert ps. induction l as [|x l IH]; intros [p1 p2]; simpl.
  - f_equal; set_solver.
  - rewrite IH. rewrite !filter_cons. unfold addParticipant, golang.Before.
    repeat case_bool_decide; repeat case_decide; simpl; try lia; f_equal; set_solver.
Qed.

(** X2. The last field of a row of [HandleUserClaims], "participants", is the
    number of accounts that staked on the claim or commented on it before the
    target date but not before the day before it: the accounts that took part
    in the claim for the first time during that day.  It is never negative. *)
Theorem userClaimsRow_counts_new_participants
    (jobTime : string) (Format : golang.Time → string) (ta : TruAPI)
    (targetDate : golang.Time) (c : claim.Claim) :
  last (userClaimsRow jobTime Format ta targetDate c)
  = Some (pretty (Z.of_nat (size (vocab.activeBefore ta c targetDate
                                  ∖ vocab.activeBefore ta c (targetDate - vocab.day))))).
Proof.
  unfold userClaimsRow. cbv zeta.
  rewrite (addParticipant_fold staking.Stake.Creator staking.Stake.CreatedTime) by lia.
  rewrite (addParticipant_fold Comment.Creator Comment.CreatedAt) by lia.
  simpl. do 2 f_equal.
  rewrite !(left_id_L ∅ (∪)).
  fold (vocab.activeBefore ta c targetDate).
  change (24 * 3600 * 1000000000) with vocab.day.
  fold (vocab.activeBefore ta c (targetDate - vocab.day)).
  assert (vocab.activeBefore ta c (targetDate - vocab.day)
          ⊆ vocab.activeBefore ta c targetDate) as Hsub.
  { unfold vocab.activeBefore. intros a.
    rewrite !elem_of_union, !elem_of_list_to_set, !list_elem_of_fmap.
    intros [(s & -> & Hs)|(s & -> & Hs)]; [left|right]; exists s; split; try done;
      apply list_elem_of_filter in Hs as [Hlt Hin]; apply list_elem_of_filter;
      (split; [unfold vocab.day in Hlt; lia|done]). }
  rewrite (size_difference _ _ Hsub).
  apply subseteq_size in Hsub. lia.
Qed.

End Participants.

(** ** [HandleClaimMetrics]: the lookup tables *)

Section Index.

Context {A : Type} (key : A → Z).

Lemma indexOf_snoc l c : indexOf key (l ++ [c]) = <[key c := length l]> (indexOf key l).
Proof.
  unfold indexOf. rewrite imap_app, foldl_app. simpl.
  by rewrite Nat.add_0_r.
Qed.

(** The index kept under a key is that of the last element with the key. *)
Lemma indexOf_lookup l k :
  match indexOf key l !! k with
  | Some i => l !! i = vocab.lastWith key k l ∧ is_Some (vocab.lastWith key k l)
  | None => vocab.lastWith key k l = None ∧ Forall (λ c, key c ≠ k) l
  end.
Proof.
  unfold vocab.lastWith.
  induction l as [|c l IH] using rev_ind.
  - unfold indexOf. simpl. rewrite lookup_empty. by split.
  - rewrite indexOf_snoc, filter_app, filter_cons, filter_nil.
    destruct (decide (key c = k)) as [Hk|Hk].
    + subst k. rewrite lookup_insert_eq.
      rewrite last_snoc. split; [|done]. by apply list_lookup_middle.
    + rewrite lookup_insert_ne by done. rewrite app_nil_r.
      destruct (indexOf key l !! k) as [i|].
      * destruct IH as [Hi Hsome]. split; [|done].
        rewrite <- Hi. destruct Hsome as [x Hx]. rewrite Hx in Hi.
        by rewrite (lookup_app_l_Some _ _ _ _ Hi).
      * destruct IH as [Hnone Hall]. split; [done|].
        apply Forall_app. split; [done|]. by constructor.
Qed.

End Index.

(** X3. The statistics of a claim, looked up through the table
    [HandleClaimMetrics] builds from the rows of the data store
    ([getClaimViewsStats], [getClaimRepliesStats]): the lookup never indexes out
    of range; it gives the last row whose claim id, as a [uint64], is the id
    asked for, and the zero statistics when there is none. *)
Theorem getStats_never_out_of_range {A} (key : A → Z) (zero : A) (l : list A)
    (claimID : Z) :
  reports.getStats zero l (reports.indexBy key l) claimID
  = Some (default zero (vocab.lastWith (λ c, reports.uint64 (key c)) claimID l)).
Proof.
  unfold reports.getStats.
  change (reports.indexBy key l) with (indexOf (reports.uint64 ∘ key) l).
  pose proof (indexOf_lookup (reports.uint64 ∘ key) l claimID) as H.
  destruct (indexOf _ l !! claimID) as [i|].
  - destruct H as [-> [x Hx]]. unfold compose in *. by rewrite Hx.
  - destruct H as [H _]. unfold compose in *. by rewrite H.
Qed.

(** ** [HandleClaimMetrics]: the arguments and the stakes of a claim *)

Section ClaimArguments.

Import reports.
Local Open Scope Z_scope.

Lemma wrap64_succ a : golang.wrap64 (golang.wrap64 a + 1) = golang.wrap64 (a + 1).
Proof.
  unfold golang.wrap64. f_equal.
  replace ((a + 2 ^ 63) `mod` 2 ^ 64 - 2 ^ 63 + 1 + 2 ^ 63)
    with ((a + 2 ^ 63) `mod` 2 ^ 64 + 1) by lia.
  rewrite Zplus_mod_idemp_l. f_equal. lia.
Qed.

Lemma foldr_max_snoc x ts :
  foldr Z.max 0 (ts ++ [x]) = Z.max x (foldr Z.max 0 ts) ∧ 0 ≤ foldr Z.max 0 ts.
Proof. rewrite foldr_app. simpl. induction ts as [|y ts [IH1 IH2]]; simpl; lia. Qed.

Lemma scanArguments_snoc beforeDate arguments a :
  scanArguments beforeDate (arguments ++ [a])
  = let '(mapArguments, lastActivityArgument, totalArguments) :=
      scanArguments beforeDate arguments in
    let mapArguments := <[staking.Argument.ID a := length arguments]> mapArguments in
    if negb (golang.Before (staking.Argument.CreatedTime a) beforeDate)
    then (mapArguments, lastActivityArgument, totalArguments)
    else (mapArguments,
          if golang.Before lastActivityArgument (staking.Argument.CreatedTime a)
          then staking.Argument.CreatedTime a else lastActivityArgument,
          golang.wrap64 (totalArguments + 1)).
Proof.
  unfold scanArguments. rewrite imap_app, foldl_app. simpl.
  rewrite Nat.add_0_r.
  by destruct (foldl _ _ _) as [[m l] t].
Qed.

Lemma scanArguments_index beforeDate arguments :
  (scanArguments beforeDate arguments).1.1 = indexOf staking.Argument.ID arguments.
Proof.
  induction arguments as [|a arguments IH] using rev_ind; [done|].
  rewrite scanArguments_snoc, indexOf_snoc.
  destruct (scanArguments beforeDate arguments) as [[m l] t]. simpl in *.
  destruct (negb _); simpl; by rewrite IH.
Qed.

(** X4. The loop of [HandleClaimMetrics] over the arguments of a claim leaves
    in [totalArguments] the number of arguments created strictly before the
    date (as an [int]) and in [lastActivityArgument] the latest creation time
    among them, the zero time when there is none. *)
Theorem scanArguments_counts_arguments_before_date
    (beforeDate : golang.Time) (arguments : list staking.Argument.t) :
  let before := filter (λ a, staking.Argument.CreatedTime a < beforeDate) arguments in
  (scanArguments beforeDate arguments).2 = golang.wrap64 (Z.of_nat (length before))
  ∧ (scanArguments beforeDate arguments).1.2
    = foldr Z.max 0 (staking.Argument.CreatedTime <$> before).
Proof.
  simpl. induction arguments as [|a arguments [IHn IHt]] using rev_ind; [done|].
  rewrite scanArguments_snoc, filter_app, filter_cons, filter_nil.
  destruct (scanArguments beforeDate arguments) as [[m l] t]. simpl in *.
  unfold golang.Before.
  case_bool_decide; simpl.
  - rewrite decide_True by done. rewrite length_app, fmap_app. simpl.
    rewrite IHn. split.
    { rewrite wrap64_succ. f_equal. lia. }
    rewrite IHt.
    match goal with
    | |- context [foldr Z.max 0 (?ts ++ [?x])] =>
        destruct (foldr_max_snoc x ts) as [Heq Hpos]
    end.
    etrans; [|symmetry; exact Heq].
    case_bool_decide; lia.
  - rewrite decide_False by done. by rewrite app_nil_r.
Qed.

(** X5. With the table the loop over the arguments builds, the loop over
    the stakes reports "unable to find argument with id N" exactly for a stake
    created before the date whose argument id is the id of none of the
    arguments of the claim; for every other stake it writes nothing. *)
Theorem claimStake_reports_unlisted_arguments
    (beforeDate : golang.Time) (arguments : list staking.Argument.t)
    (t : ClaimTotals) (stake : staking.Stake.t) :
  (claimStake beforeDate arguments (scanArguments beforeDate arguments).1.1 t stake).1
  = if bool_decide (staking.Stake.CreatedTime stake < beforeDate
                    ∧ staking.Stake.ArgumentID stake ∉ staking.Argument.ID <$> arguments)
    then [RenderError ("unable to find argument with id " +:+
                       pretty (staking.Stake.ArgumentID stake))
                      StatusInternalServerError]
    else [].
Proof.
  rewrite scanArguments_index. unfold claimStake, golang.Before.
  case_bool_decide as Hbefore; simpl.
  2:{ rewrite bool_decide_eq_false_2; [done|]. by intros [? _]. }
  pose proof (indexOf_lookup staking.Argument.ID arguments (staking.Stake.ArgumentID stake))
    as Hlookup.
  destruct (indexOf _ arguments !! _) as [i|]; simpl.
  - destruct Hlookup as [Hi [a Ha]]. rewrite Ha in Hi. rewrite Hi. simpl.
    rewrite (bool_decide_eq_false_2 (_ ∧ _)).
    2:{ intros [_ Hnot]. apply Hnot.
        unfold vocab.lastWith in Ha. apply last_Some_elem_of in Ha.
        apply list_elem_of_filter in Ha as [Hid Hin].
        apply list_elem_of_fmap. by exists a. }
    repeat (match goal with
            | |- context [if ?b then _ else _] => destruct b
            | |- context [sdk.IntAdd ?x ?y] => destruct (sdk.IntAdd x y)
            end; simpl); done.
  - destruct Hlookup as [_ Hall].
    rewrite (bool_decide_eq_true_2 (_ ∧ _)).
    2:{ split; [done|]. intros (a & Hid & Hin)%list_elem_of_fmap.
        rewrite Forall_forall in Hall. by apply (Hall a Hin). }
    destruct arguments as [|a arguments]; simpl; [done|].
    repeat (match goal with
            | |- context [if ?b then _ else _] => destruct b
            | |- context [sdk.IntAdd ?x ?y] => destruct (sdk.IntAdd x y)
            end; simpl); done.
Qed.

Lemma IntAdd_Some a b c : sdk.IntAdd a b = Some c → c = a + b.
Proof.
  unfold sdk.IntAdd, sdk.checked. destruct (sdk.inRange _); [|done]. by intros [= <-].
Qed.

Lemma claimStake_totals beforeDate arguments mapArguments t stake :
  vocab.totalsAddUp t →
  yields vocab.totalsAddUp (claimStake beforeDate arguments mapArguments t stake).
Proof.
  intros [Hb Hc]. unfold claimStake.
  destruct (negb _); [done|].
  destruct (mapArguments !! _) as [i|]; simpl.
  all: destruct (arguments !! _) as [a|]; simpl; [|done].
  all: destruct (bool_decide (staking.Stake.Type_ stake = staking.StakeUpvote)); simpl.
  all: try destruct (golang.Before (lastActivityAgree t) _); simpl.
  all: destruct (bool_decide (staking.Argument.StakeType_ a = staking.StakeBacking)); simpl.
  all: destruct (bool_decide (staking.Argument.StakeType_ a = staking.StakeChallenge)); simpl.
  all: repeat (match goal with
               | |- context [sdk.IntAdd ?x ?y] =>
                   let H := fresh "Hadd" in
                   destruct (sdk.IntAdd x y) eqn:H; [apply IntAdd_Some in H|]; simpl
               end); try done.
  all: unfold yields, vocab.totalsAddUp; simpl in *; lia.
Qed.

Lemma claim_totals_add_up beforeDate arguments mapArguments stakes :
  yields vocab.totalsAddUp
    (http.forEach stakes noTotals (claimStake beforeDate arguments mapArguments)).
Proof.
  apply yields_forEach; [done|]. intros t stake. apply claimStake_totals.
Qed.

Variables (jobTime : string) (time_Parse : string → string + golang.Time).
Variables (Format : golang.Time → string) (TrimSpace : string → string).
Variable ta : reports.TruAPI.

Lemma claimMetrics_totals beforeDate views replies flagged c :
  records (Forall (vocab.claimRow jobTime Format TrimSpace))
    (claimMetrics jobTime Format TrimSpace ta beforeDate views replies flagged c).
Proof.
  unfold claimMetrics.
  destruct (negb _); [records_auto|].
  destruct (getClaimArguments ta (claim.ID c)) as [arguments err].
  destruct (scanArguments beforeDate arguments) as [[mapArguments last] total].
  records_step; try typeclasses eauto; [records_auto|].
  eapply records_bind_yields; [typeclasses eauto| |apply claim_totals_add_up|].
  { records_auto; try apply records_claimStake; typeclasses eauto. }
  intros t Ht.
  records_auto.
  apply records_csv. right. eauto 12.
Qed.

(** X6. Every record [HandleClaimMetrics] writes is the header or the row of
    a claim whose totals add up: the amount in "staked_backed" is the sum of
    "staked_argument_backed" and "staked_agree_backed", and the amount in
    "staked_challenged" the sum of "staked_argument_challenged" and
    "staked_agree_challenged", on every request and whatever the chain
    returns. *)
Theorem HandleClaimMetrics_totals_add_up (r : Request) :
  Forall (vocab.claimRow jobTime Format TrimSpace)
    (spec.csvRecords (HandleClaimMetrics jobTime time_Parse Format TrimSpace ta r).1).
Proof.
  change (records (Forall (vocab.claimRow jobTime Format TrimSpace))
            (HandleClaimMetrics jobTime time_Parse Format TrimSpace ta r)).
  unfold HandleClaimMetrics.
  records_auto; try apply claimMetrics_totals.
  apply records_csv. by left.
Qed.

End ClaimArguments.

(** ** [HandleUserBase]: the rows *)

Section UserBase.

Import reports.
Local Open Scope Z_scope.

Variable Format : golang.Time → string.

Lemma UserGroup_String_None ug : db.UserGroup_String ug = None ↔ ug < 0.
Proof.
  unfold db.UserGroup_String. simpl length.
  destruct (decide (4 ≤ ug)) as [Hbig|Hsmall].
  { rewrite bool_decide_eq_true_2 by lia. split; [done|lia]. }
  rewrite bool_decide_eq_false_2 by lia.
  destruct (decide (ug < 0)) as [Hneg|Hpos].
  { by rewrite bool_decide_eq_true_2 by lia. }
  rewrite bool_decide_eq_false_2 by lia.
  destruct (db.userGroupTypeName !! Z.to_nat ug) as [name|] eqn:Hname; [split; [done|lia]|].
  apply lookup_ge_None_1 in Hname. simpl in Hname. lia.
Qed.

(** X7. [UserGroup.String] indexes the table of names out of range, and so
    panics, exactly on a negative group; it is "Unknown" on every group from 4
    on and the name in the table on the groups 0 to 3. *)
Theorem UserGroup_String_bounds (ug : Z) :
  (db.UserGroup_String ug = None ↔ ug < 0)
  ∧ (4 ≤ ug → db.UserGroup_String ug = Some "Unknown")
  ∧ (0 ≤ ug < 4 → ∃ name, db.UserGroup_String ug = Some name
                          ∧ db.userGroupTypeName !! Z.to_nat ug = Some name).
Proof.
  split; [apply UserGroup_String_None|]. split.
  - intros Hbig. unfold db.UserGroup_String. simpl length.
    by rewrite bool_decide_eq_true_2 by lia.
  - intros Hin. unfold db.UserGroup_String. simpl length.
    rewrite !bool_decide_eq_false_2 by lia.
    destruct (db.userGroupTypeName !! Z.to_nat ug) as [name|] eqn:Hname; [by eauto|].
    apply lookup_ge_None_1 in Hname. simpl in Hname. lia.
Qed.

Lemma userBaseRow_Some user :
  0 ≤ db.UserGroup user → is_Some (userBaseRow Format user).
Proof.
  intros Hug. unfold userBaseRow.
  destruct (db.UserGroup_String (db.UserGroup user)) as [name|] eqn:Hname; simpl;
    [by eexists|].
  apply UserGroup_String_None in Hname. lia.
Qed.

Lemma forEach_userBase_rows users :
  let run := http.forEach users tt (λ _ user,
               if decide (db.Address user = "") then http.ret tt
               else let* row := http.must (userBaseRow Format user) in
                    http.write (CsvWrite row)) in
  let listed := filter (λ u, db.Address u ≠ "") users in
  ∃ rows,
    run.1 = CsvWrite <$> rows
    ∧ Forall2 (λ u row, userBaseRow Format u = Some row) (take (length rows) listed) rows
    ∧ (run.2 = http.Continue tt → length rows = length listed)
    ∧ run.2 ≠ http.Returned.
Proof.
  induction users as [|u users (rows & Hout & Hrows & Hend & Hret)]; simpl.
  - exists []. by split_and!.
  - rewrite filter_cons. destruct (decide (db.Address u = "")) as [Hempty|Haddr].
    + rewrite decide_False by (by intros ?). simpl.
      exists rows. simpl in *.
      destruct (http.forEach users tt _) as [out c]. simpl in *. by split_and!.
    + rewrite decide_True by done.
      destruct (userBaseRow Format u) as [row|] eqn:Hrow; simpl.
      * exists (row :: rows). simpl in *.
        destruct (http.forEach users tt _) as [out c]. simpl in *.
        split_and!; [by rewrite Hout|by constructor|by intros ->%Hend|done].
      * exists []. by split_and!.
Qed.

(** X8. With the right token, the records [HandleUserBase] hands to its CSV
    writer after the header are the rows of the users of the data store that
    have an address, in the order of the data store, one row each and nothing
    for a user without an address: the rows of all of them when the handler
    runs to its end, those of the first of them when it stops before.  When
    the data store fails, the handler hands no row to the writer, adds the
    content type, answers 500 with the error and returns. *)
Theorem HandleUserBase_lists_users_with_address (ta : TruAPI) (r : Request) :
  Config_Metrics_Secret ta ≠ "" →
  Config_Metrics_Secret ta = Header_MetricsSecret r →
  let run := HandleUserBase Format ta r in
  let listed := filter (λ u, db.Address u ≠ "") (FindAll_users ta).1 in
  let rows := tail (spec.csvRecords run.1) in
  Forall2 (λ u row, userBaseRow Format u = Some row) (take (length rows) listed) rows
  ∧ (run.2 = http.Continue tt →
     (FindAll_users ta).2 = None ∧ length rows = length listed)
  ∧ (∀ err, (FindAll_users ta).2 = Some err →
       rows = []
       ∧ directWrites run.1
         = [HeaderAdd "Content-Type" "text/csv"; RenderError err StatusInternalServerError]
       ∧ run.2 = http.Returned).
Proof.
  intros Hfull Heq. unfold HandleUserBase.
  rewrite (bool_decide_eq_false_2 _ Hfull).
  rewrite bool_decide_eq_false_2 by (by intros ?). simpl.
  destruct (FindAll_users ta) as [users [err|]]; simpl.
  - split_and!; [constructor|done|]. by intros ? [= <-].
  - destruct (forEach_userBase_rows users) as (rows & Hout & Hrows & Hend & Hret).
    simpl in *. destruct (http.forEach users tt _) as [out c]. simpl in *. subst out.
    assert (spec.csvRecords (CsvWrite <$> rows) = rows) as Hcsv.
    { clear. induction rows as [|row rows IH]; [done|].
      change (spec.csvRecords (CsvWrite <$> row :: rows))
        with (row :: spec.csvRecords (CsvWrite <$> rows)).
      by rewrite IH. }
    change (spec.csvRecords (HeaderAdd "Content-Type" "text/csv"
                               :: CsvWrite userBaseHeader :: (CsvWrite <$> rows)))
      with (userBaseHeader :: spec.csvRecords (CsvWrite <$> rows)).
    rewrite Hcsv. simpl.
    split_and!; [done| |done]. intros ->. by split; [|apply Hend].
Qed.

End UserBase.

Lemma HandleUserBase_lists_users_with_address_witness :
  let run := reports.HandleUserBase sample.Format (sample.api []) (sample.request "s3cret") in
  run.2 = http.Continue tt
  ∧ length (tail (spec.csvRecords run.1)) = 2%nat
  ∧ Forall2 (λ u row, reports.userBaseRow sample.Format u = Some row)
            [sample.alice; sample.bob] (tail (spec.csvRecords run.1)).
Proof.
  pose proof (HandleUserBase_lists_users_with_address sample.Format (sample.api [])
                (sample.request "s3cret") ltac:(vm_compute; discriminate) eq_refl)
    as (Hrows & Hend & _).
  assert ((reports.HandleUserBase sample.Format (sample.api []) (sample.request "s3cret")).2
          = http.Continue tt) as Hrun by (vm_compute; reflexivity).
  destruct (Hend Hrun) as [_ Hlength].
  split; [exact Hrun|]. split; [exact Hlength|].
  rewrite Hlength in Hrows. exact Hrows.
Defined.

(** ** The dated reports: requests they refuse *)

Section Dates.

Import reports.

Variables (jobTime : string) (time_Parse : string → string + golang.Time).
Variables (Format : golang.Time → string) (TrimSpace : string → string).
Variable AllowedForDeduction : reports.exported.TransactionType → bool.
Variable TransactionType_String : reports.exported.TransactionType → string.
Variable ta : reports.TruAPI.


(** X10. When the chain knows no community, or the communities cannot be
    decoded, [HandleUsersMetrics] writes no CSV record at all, not even the
    header, and never runs to its end: it returns early or panics. *)
Theorem HandleUsersMetrics_without_communities (r : Request) :
  (∀ communities, DecodeCommunities ta = inr communities → communities = []) →
  let run := HandleUsersMetrics jobTime time_Parse Format AllowedForDeduction
               TransactionType_String ta r in
  spec.csvRecords run.1 = [] ∧ stops run.
Proof.
  intros Hnone. simpl. split.
  - change (records (λ rs, rs = []) (HandleUsersMetrics jobTime time_Parse Format
              AllowedForDeduction TransactionType_String ta r)).
    unfold HandleUsersMetrics.
    do 3 (records_step; try typeclasses eauto; [records_auto|]).
    destruct (FindAll_users ta) as [users err].
    do 2 (records_step; try typeclasses eauto; [records_auto|]).
    records_step; try typeclasses eauto.
    { apply records_forEach; [typeclasses eauto|]. intros. apply records_usersClaim.
      typeclasses eauto. }
    records_step; try typeclasses eauto; [records_auto|].
    destruct (DecodeCommunities ta) as [err'|communities] eqn:Hdecode.
    + done.
    + by rewrite (Hnone _ eq_refl).
  - unfold HandleUsersMetrics.
    do 3 (apply stops_bind_r; intros ?).
    destruct (FindAll_users ta) as [users err].
    do 4 (apply stops_bind_r; intros ?).
    destruct (DecodeCommunities ta) as [err'|communities] eqn:Hdecode.
    + done.
    + by rewrite (Hnone _ eq_refl).
Qed.

End Dates.


Lemma HandleUsersMetrics_without_communities_witness :
  spec.csvRecords
    (reports.HandleUsersMetrics "201909110000" sample.time_Parse sample.Format
       sample.AllowedForDeduction sample.TransactionType_String
       sample.apiWithoutCommunities (sample.request "s3cret")).1 = []
  ∧ stops (reports.HandleUsersMetrics "201909110000" sample.time_Parse sample.Format
             sample.AllowedForDeduction sample.TransactionType_String
             sample.apiWithoutCommunities (sample.request "s3cret")).
Proof.
  apply (HandleUsersMetrics_without_communities "201909110000" sample.time_Parse
           sample.Format sample.AllowedForDeduction sample.TransactionType_String
           sample.apiWithoutCommunities (sample.request "s3cret")).
  intros communities Hdecode. by injection Hdecode as <-.
Defined.

(** ** The reward notifications in TRU *)

Section TruRewards.

Variable UserByID : Z → option db.User * option db.error.
Variable ParseCoin : string → option sdk.Coin.
Variable CoinDisplayName : string.

(** X11. A reward in TRU whose request names no causer, or a causer the data
    store has no row for, makes the worker panic on [causer.Username] once
    the lookup of the rewardee has returned without an error: unlike an invite
    reward, it has no wording for a missing causer. *)
Theorem tru_reward_without_causer_crashes (n : app.RewardNotificationRequest) :
  app.RewardKind n = app.RewardTypeTru →
  (UserByID (app.RewardeeID n)).2 = None →
  app.CauserID n = 0%Z ∨ UserByID (app.CauserID n) = (None, None) →
  push.processRewardNotification UserByID ParseCoin CoinDisplayName n = push.Crashed.
Proof.
  intros Htru Hrewardee Hcauser. unfold push.processRewardNotification.
  destruct (UserByID (app.RewardeeID n)) as [user err]; simpl in Hrewardee; subst err.
  assert (push.lookupCauser UserByID n = Some None) as ->.
  { unfold push.lookupCauser. case_bool_decide as Hid; [|done].
    destruct Hcauser as [?|Hnil]; [done|]. by rewrite Hnil. }
  unfold push.buildNotification, push.getRewardReasonFromRequest. rewrite Htru.
  destruct user; simpl; [|done].
  by destruct (push.getRewardStringFromRequest _ _ _).
Qed.

(** X12. A reward in TRU that the worker turns into a notification has a
    causer with a row in the data store, and its message is "rewarded with
    <reward> because <username of the causer> <step> on TruStory.", where
    <reward> is the amount of the request as it stands when it does not parse
    as a coin, and otherwise the amount of the coin divided by 10^9, rounded
    towards zero, followed by the display name of the coin. *)
Theorem tru_message_names_causer_and_step
    (n : app.RewardNotificationRequest) (x : push.Notification) :
  app.RewardKind n = app.RewardTypeTru →
  push.processRewardNotification UserByID ParseCoin CoinDisplayName n = push.Sent x →
  ∃ causer reward,
    app.CauserID n ≠ 0%Z
    ∧ UserByID (app.CauserID n) = (Some causer, None)
    ∧ match ParseCoin (app.RewardAmount n) with
      | None => reward = app.RewardAmount n
      | Some amount =>
          (- 2 ^ 63 ≤ sdk.Amount amount < 2 ^ 63)%Z
          ∧ reward = pretty (sdk.Amount amount `quot` 1000000000)%Z +:+ " " +:+ CoinDisplayName
      end
    ∧ push.Msg x
      = "rewarded with " +:+ reward +:+ " because " +:+
        (db.Username causer +:+ " " +:+
         match app.CauserAction n with
         | app.RewardCauserActionSignedUp => "signed up"
         | app.RewardCauserActionOneArgument => "has written at least one argument"
         | app.RewardCauserActionReceiveFiveAgrees => "has received at least five agrees"
         | app.RewardCauserActionOther => ""
         end +:+ " on TruStory.").
Proof.
  intros Htru. unfold push.processRewardNotification.
  destruct (UserByID (app.RewardeeID n)) as [user [err|]]; [done|].
  unfold push.lookupCauser. case_bool_decide as Hid; simpl.
  2:{ unfold push.buildNotification, push.getRewardReasonFromRequest. rewrite Htru.
      destruct user; simpl; [|done].
      by destruct (push.getRewardStringFromRequest _ _ _). }
  destruct (UserByID (app.CauserID n)) as [causer [err|]] eqn:Hcauser; [done|].
  unfold push.buildNotification, push.getRewardReasonFromRequest,
    push.getRewardStringFromRequest.
  rewrite Htru. destruct user as [u|]; simpl; [|done].
  destruct causer as [c|]; simpl.
  2:{ by destruct (ParseCoin _) as [amount|]; simpl; [destruct (sdk.Int64 _)|]. }
  destruct (ParseCoin (app.RewardAmount n)) as [amount|]; simpl.
  - unfold sdk.Int64. case_bool_decide; simpl; [|done].
    intros [= <-]. exists c. eexists. split_and!; [done|done|lia|lia|reflexivity|done].
  - intros [= <-]. exists c. eexists. split_and!; [done|done|reflexivity|done].
Qed.

(** X13. Every notification the worker sends for a reward goes to the
    address of the rewardee the data store returned, never to the causer, with
    the type of the request, the type id 0 and the action "Reward unlocked". *)
Theorem reward_notification_goes_to_rewardee
    (n : app.RewardNotificationRequest) (x : push.Notification) :
  push.processRewardNotification UserByID ParseCoin CoinDisplayName n = push.Sent x →
  ∃ user,
    UserByID (app.RewardeeID n) = (Some user, None)
    ∧ push.To x = db.Address user
    ∧ push.Type_ x = push.getNotificationTypeFromRequest n
    ∧ push.TypeID x = 0%Z
    ∧ push.Action x = "Reward unlocked"
    ∧ push.Trim x = true.
Proof.
  unfold push.processRewardNotification.
  destruct (UserByID (app.RewardeeID n)) as [user [err|]]; [done|].
  destruct (push.lookupCauser UserByID n) as [causer|]; [|done].
  destruct (push.buildNotification _ _ n user causer) as [y|] eqn:Hb; [|done].
  intros [= <-]. unfold push.buildNotification in Hb.
  destruct user as [u|]; simpl in Hb; [|done].
  destruct (push.getRewardStringFromRequest _ _ _); simpl in Hb; [|done].
  destruct (push.getRewardReasonFromRequest _ _); simpl in Hb; [|done].
  injection Hb as <-. by exists u.
Qed.

End TruRewards.

Lemma tru_reward_without_causer_crashes_witness :
  push.processRewardNotification (db.UserByID sample.client) sample.ParseCoin "TRU"
    (sample.truReward 1 0) = push.Crashed
  ∧ push.processRewardNotification (db.UserByID sample.client) sample.ParseCoin "TRU"
      (sample.truReward 1 5) = push.Crashed.
Proof.
  split.
  - apply (tru_reward_without_causer_crashes (db.UserByID sample.client) sample.ParseCoin
             "TRU" (sample.truReward 1 0)); [reflexivity|reflexivity|left; reflexivity].
  - apply (tru_reward_without_causer_crashes (db.UserByID sample.client) sample.ParseCoin
             "TRU" (sample.truReward 1 5)); [reflexivity|reflexivity|right; reflexivity].
Defined.

Lemma tru_message_names_causer_and_step_witness :
  push.processRewardNotification (db.UserByID sample.client) sample.ParseCoin "TRU"
    (sample.truReward 1 2)
  = push.Sent (sample.truNotification "tru1alice"
                 "rewarded with 5 TRU because bob signed up on TruStory.")
  ∧ ∃ causer reward,
      app.CauserID (sample.truReward 1 2) ≠ 0%Z
      ∧ db.UserByID sample.client (app.CauserID (sample.truReward 1 2)) = (Some causer, None)
      ∧ match sample.ParseCoin (app.RewardAmount (sample.truReward 1 2)) with
        | None => reward = app.RewardAmount (sample.truReward 1 2)
        | Some amount =>
            (- 2 ^ 63 ≤ sdk.Amount amount < 2 ^ 63)%Z
            ∧ reward = pretty (sdk.Amount amount `quot` 1000000000)%Z +:+ " " +:+ "TRU"
        end
      ∧ push.Msg (sample.truNotification "tru1alice"
                    "rewarded with 5 TRU because bob signed up on TruStory.")
        = "rewarded with " +:+ reward +:+ " because " +:+
          (db.Username causer +:+ " " +:+
           match app.CauserAction (sample.truReward 1 2) with
           | app.RewardCauserActionSignedUp => "signed up"
           | app.RewardCauserActionOneArgument => "has written at least one argument"
           | app.RewardCauserActionReceiveFiveAgrees => "has received at least five agrees"
           | app.RewardCauserActionOther => ""
           end +:+ " on TruStory.").
Proof.
  split; [vm_compute; reflexivity|].
  apply (tru_message_names_causer_and_step (db.UserByID sample.client) sample.ParseCoin
           "TRU" (sample.truReward 1 2)); [reflexivity|vm_compute; reflexivity].
Defined.

Lemma reward_notification_goes_to_rewardee_witness :
  ∃ user,
    db.UserByID sample.client (app.RewardeeID (sample.invite 2 1)) = (Some user, None)
    ∧ push.To (sample.inviteNotification "tru1bob" "alice became an active user on TruStory.")
      = db.Address user
    ∧ push.Type_ (sample.inviteNotification "tru1bob" "alice became an active user on TruStory.")
      = push.getNotificationTypeFromRequest (sample.invite 2 1)
    ∧ push.TypeID (sample.inviteNotification "tru1bob"
                     "alice became an active user on TruStory.") = 0%Z
    ∧ push.Action (sample.inviteNotification "tru1bob"
                     "alice became an active user on TruStory.") = "Reward unlocked"
    ∧ push.Trim (sample.inviteNotification "tru1bob"
                   "alice became an active user on TruStory.") = true.
Proof.
  apply (reward_notification_goes_to_rewardee (db.UserByID sample.client) sample.noParseCoin
           "TRU" (sample.invite 2 1)).
  vm_compute. reflexivity.
Defined.

(** ** Mentions: lookups that fail and usernames without a profile *)

Section StringLemmas.

Import golang.

Lemma HasPrefix_app s p :
  HasPrefix s p = true → s = p +:+ dropString (String.length p) s.
Proof.
  revert s. induction p as [|a p IH]; intros s; simpl; [intros _; reflexivity|].
  destruct s as [|b s]; simpl; [done|]. destruct (decide (a = b)) as [->|]; [|done].
  intros H. change (String b s = String b (p +:+ dropString (String.length p) s)).
  f_equal. by apply IH.
Qed.

Lemma replaceScan_same skip s a old :
  replaceScan skip s (String a old) (String a old) = dropString skip s.
Proof.
  revert skip. induction s as [|c s IH]; intros skip; simpl.
  - by destruct skip.
  - destruct skip as [|k]; [|apply IH].
    destruct (decide (a = c)) as [->|]; [|by rewrite IH].
    destruct (HasPrefix s old) eqn:Hprefix; [|by rewrite IH].
    rewrite IH, Nat.sub_0_r. apply HasPrefix_app in Hprefix.
    change (String c (old +:+ dropString (String.length old) s) = String c s).
    by rewrite <- Hprefix.
Qed.

Lemma intersperse_empty s : intersperse s "" = s.
Proof. induction s as [|c s IH]; simpl; [done|]. by rewrite IH. Qed.

(** Replacing a string by itself changes nothing. *)
Lemma ReplaceAll_same s old : ReplaceAll s old old = s.
Proof.
  unfold ReplaceAll. destruct old as [|a old]; [apply intersperse_empty|].
  apply replaceScan_same.
Qed.

End StringLemmas.

Section UnknownMentions.

Variable parseMentions : string → list string.
Variable TwitterProfileByUsername : string → option db.TwitterProfile.t * option db.error.
Variable mapRange : gmap string string → list (string * string).
Hypothesis mapRange_perm : ∀ m, mapRange m ≡ₚ map_to_list m.

Lemma lookupUsernames_error usernames m err :
  db.lookupUsernames TwitterProfileByUsername usernames m = inr err →
  ∃ before username after,
    usernames = before ++ username :: after
    ∧ (TwitterProfileByUsername username).2 = Some err
    ∧ Forall (λ u, (TwitterProfileByUsername u).2 = None) before.
Proof.
  revert m. induction usernames as [|u usernames IH]; intros m; simpl; [done|].
  destruct (TwitterProfileByUsername u) as [profile [e|]] eqn:Hu.
  - intros He. assert (e = err) as -> by (by destruct profile; injection He).
    exists [], u, usernames. rewrite Hu. by split_and!.
  - intros H.
    assert (∃ m', db.lookupUsernames TwitterProfileByUsername usernames m' = inr err)
      as [m' Hm'] by (destruct profile; eauto).
    destruct (IH _ Hm') as (before & username & after & -> & Herr & Hbefore).
    exists (u :: before), username, after. split_and!; [done|done|].
    constructor; [by rewrite Hu|done].
Qed.

Lemma lookupUsernames_ok usernames m :
  Forall (λ u, (TwitterProfileByUsername u).2 = None) usernames →
  ∃ m', db.lookupUsernames TwitterProfileByUsername usernames m = inl m'.
Proof.
  intros Hall. revert m. induction Hall as [|u usernames Hu _ IH]; intros m; simpl;
    [by eauto|].
  destruct (TwitterProfileByUsername u) as [[profile|] [e|]]; try done; apply IH.
Qed.

(** X14. When [replaceUsernamesWithAddress] returns an error, it returns the
    text unchanged, and the error is that of the first mention, in the order
    of [parseMentions], whose lookup failed: no mention before it failed.
    When it returns no error, no lookup failed. *)
Theorem replaceUsernamesWithAddress_first_lookup_error (body : string) :
  let run := db.replaceUsernamesWithAddress parseMentions TwitterProfileByUsername mapRange
               body in
  (∀ err, run.2 = Some err →
     run.1 = body
     ∧ ∃ before username after,
         parseMentions body = before ++ username :: after
         ∧ (TwitterProfileByUsername username).2 = Some err
         ∧ Forall (λ u, (TwitterProfileByUsername u).2 = None) before)
  ∧ (run.2 = None → Forall (λ u, (TwitterProfileByUsername u).2 = None) (parseMentions body)).
Proof.
  simpl. unfold db.replaceUsernamesWithAddress.
  destruct (db.lookupUsernames _ _ _) as [m|err'] eqn:Hlookup; simpl.
  - split; [done|]. intros _.
    destruct (decide (Forall (λ u, (TwitterProfileByUsername u).2 = None) (parseMentions body)))
      as [|Hnot]; [done|].
    exfalso. revert Hlookup. generalize (∅ : gmap string string).
    induction (parseMentions body) as [|u usernames IH]; intros m0; [by destruct Hnot|].
    simpl. destruct (TwitterProfileByUsername u) as [profile [e|]] eqn:Hu;
      [by destruct profile|].
    assert (¬ Forall (λ u, (TwitterProfileByUsername u).2 = None) usernames) as Hrest.
    { intros Hrest. apply Hnot. constructor; [by rewrite Hu|done]. }
    destruct profile; by apply IH.
  - split; [|done]. intros err [= <-]. split; [done|].
    by eapply lookupUsernames_error.
Qed.

Lemma lookupUsernames_unknown usernames m m' :
  Forall (λ u, TwitterProfileByUsername u = (None, None)) usernames →
  (∀ k v, m !! k = Some v → k = v) →
  db.lookupUsernames TwitterProfileByUsername usernames m = inl m' →
  ∀ k v, m' !! k = Some v → k = v.
Proof.
  intros Hall. revert m. induction Hall as [|u usernames Hu _ IH]; intros m Hm; simpl.
  - by intros [= <-].
  - rewrite Hu. apply IH. intros k v.
    destruct (decide (k = u)) as [->|Hne].
    + rewrite lookup_insert_eq. by intros [= <-].
    + rewrite lookup_insert_ne by done. apply Hm.
Qed.

(** X15. On a text all of whose mentions are usernames without a profile,
    [TranslateToCosmosMentions] returns the text unchanged and a nil error:
    each such username is replaced by itself, in whatever order the map is
    ranged over. *)
Theorem TranslateToCosmosMentions_unknown_usernames (body : string) :
  Forall (λ u, TwitterProfileByUsername u = (None, None)) (parseMentions body) →
  db.TranslateToCosmosMentions parseMentions TwitterProfileByUsername mapRange body
  = (body, None).
Proof.
  intros Hunknown.
  unfold db.TranslateToCosmosMentions, db.replaceUsernamesWithAddress.
  destruct (lookupUsernames_ok (parseMentions body) ∅) as [m Hm].
  { eapply Forall_impl; [exact Hunknown|]. by intros u ->. }
  rewrite Hm. f_equal.
  assert (Forall (λ '(k, v), k = v) (mapRange m)) as Hsame.
  { apply Forall_forall. intros [k v] Hin.
    rewrite mapRange_perm in Hin. apply elem_of_map_to_list in Hin.
    eapply (lookupUsernames_unknown _ ∅); [exact Hunknown| |exact Hm|exact Hin].
    intros k' v'. by rewrite lookup_empty. }
  induction Hsame as [|[k v] l Hkv _ IH]; simpl; [done|].
  subst v. by rewrite ReplaceAll_same.
Qed.

End UnknownMentions.

Lemma TranslateToCosmosMentions_unknown_usernames_witness :
  sample.parseMentions "hello @carol and @dave" = ["carol"; "dave"]
  ∧ db.TranslateToCosmosMentions sample.parseMentions sample.TwitterProfileByUsername
      map_to_list "hello @carol and @dave" = ("hello @carol and @dave", None).
Proof.
  split; [vm_compute; reflexivity|].
  apply (TranslateToCosmosMentions_unknown_usernames sample.parseMentions
           sample.TwitterProfileByUsername map_to_list (λ m, reflexivity _)
           "hello @carol and @dave").
  vm_compute. repeat constructor.
Defined.

(** ** [HandleMetrics]: what is rendered *)

Section Renders.
Import metrics.
Variable time_Parse : string → string + golang.Time.
Variable rangeCategories : gmap Z category.Category → list (Z * category.Category).
Variable rangeResults : gmap Z storyRewardResult → list (Z * storyRewardResult).
Variable ta : TruAPI.

Lemma aggregate_renders_last beforeDate summary code :
  RenderJSON summary code ∈ (aggregate rangeCategories rangeResults ta beforeDate).1 →
  code = StatusOK
  ∧ (∃ stories, RunQuery_stories ta = inr stories)
  ∧ allCategoriesResolver ta ≠ []
  ∧ (aggregate rangeCategories rangeResults ta beforeDate).2 = http.Continue tt
  ∧ ∃ errors,
      (aggregate rangeCategories rangeResults ta beforeDate).1
      = errors ++ [RenderJSON summary code]
      ∧ Forall (λ o, ∃ msg, o = RenderError msg StatusInternalServerError) errors.
Proof.
  unfold aggregate.
  destruct (RunQuery_stories ta) as [err|stories]; simpl.
  { intros Hin. which_output Hin. }
  destruct (decide _) as [Hempty|Hfull]; simpl.
  { intros Hin. which_output Hin. }
  assert (allCategoriesResolver ta ≠ []) as Hcats.
  { intros Hnil. apply Hfull. by rewrite Hnil. }
  destruct (storiesPass _ _ _ _) as [p|] eqn:Hstories; simpl; [|by intros []%elem_of_nil].
  destruct (FindAll_users ta) as [users err]; simpl.
  destruct (OpenedClaimsSummary ta beforeDate) as [openedClaims err']; simpl.
  destruct (golang.foldlM (userPass _ _ _ _ _ _) _ _) as [summary1|] eqn:Husers; simpl.
  2:{ destruct err; simpl; intros Hin; which_output Hin. }
  destruct (golang.foldlM openedClaimsPass _ _) as [summary2|] eqn:Hopened;
    destruct err as [e|], err' as [e'|]; simpl; intros Hin; which_output Hin.
  all: split_and!; [done|by eauto|done|done|].
  - exists [RenderError e StatusInternalServerError; RenderError e' StatusInternalServerError].
    split; [done|]. repeat constructor; by eauto.
  - exists [RenderError e StatusInternalServerError].
    split; [done|]. repeat constructor; by eauto.
  - exists [RenderError e' StatusInternalServerError].
    split; [done|]. repeat constructor; by eauto.
  - by exists [].
Qed.

(** X16. [HandleMetrics] renders a summary only for a request whose form
    parses and whose date is present and well formed, when the query of the
    stories succeeds and there is at least one category; the summary is then
    rendered with the status 200 as the last thing written, after nothing but
    the errors (500) of the data store, and the handler runs to its end. *)
Theorem HandleMetrics_renders_summary_last (r : Request)
    (summary : MetricsSummary) (code : Z) :
  let run := HandleMetrics time_Parse rangeCategories rangeResults ta r in
  RenderJSON summary code ∈ run.1 →
  code = StatusOK
  ∧ ParseForm r = None
  ∧ FormValue_date r ≠ ""
  ∧ (∃ beforeDate, time_Parse (FormValue_date r) = inr beforeDate)
  ∧ (∃ stories, RunQuery_stories ta = inr stories)
  ∧ allCategoriesResolver ta ≠ []
  ∧ run.2 = http.Continue tt
  ∧ ∃ errors,
      run.1 = errors ++ [RenderJSON summary code]
      ∧ Forall (λ o, ∃ msg, o = RenderError msg StatusInternalServerError) errors.
Proof.
  simpl. unfold HandleMetrics.
  destruct (ParseForm r); simpl; [intros Hin; which_output Hin|].
  destruct (decide _); simpl; [intros Hin; which_output Hin|].
  destruct (time_Parse _) as [err|beforeDate]; simpl; [intros Hin; which_output Hin|].
  intros (-> & Hstories & Hcats & Hend & Herrors)%aggregate_renders_last.
  split_and!; try done. by eauto.
Qed.
End Renders.

Lemma HandleMetrics_renders_summary_last_witness :
  ∃ summary code,
    metrics.RenderJSON summary code
      ∈ (metrics.HandleMetrics sample.time_Parse map_to_list map_to_list sample.chain
           sample.metricsRequest).1
    ∧ code = metrics.StatusOK
    ∧ (metrics.HandleMetrics sample.time_Parse map_to_list map_to_list sample.chain
         sample.metricsRequest).2 = http.Continue tt.
Proof.
  destruct (spec.rendered
              (metrics.HandleMetrics sample.time_Parse map_to_list map_to_list sample.chain
                 sample.metricsRequest).1) as [[summary code]|] eqn:Hrendered.
  - apply rendered_elem in Hrendered. exists summary, code. split; [exact Hrendered|].
    pose proof (HandleMetrics_renders_summary_last sample.time_Parse map_to_list
                  map_to_list sample.chain sample.metricsRequest summary code Hrendered)
      as (Hcode & _ & _ & _ & _ & _ & Hend & _).
    by split.
  - exfalso. vm_compute in Hrendered. discriminate Hrendered.
Defined.

(** ** [HandleMetrics]: the key of the side map *)

Section Keys.
Local Open Scope Z_scope.

Lemma pretty_N_go_colon x s : hasColon s = false → hasColon (pretty_N_go x s) = false.
Proof.
  revert s. induction (N.lt_wf_0 x) as [x _ IH]; intros s Hs.
  assert (x = 0 ∨ 0 < x)%N as [->|?] by lia.
  - by rewrite pretty_N_go_0.
  - rewrite pretty_N_go_step by done. apply IH.
    { by apply N.div_lt. }
    simpl. rewrite Hs. unfold pretty_N_char. by repeat case_match.
Qed.

Lemma pretty_N_colon (x : N) : hasColon (pretty x) = false.
Proof.
  unfold pretty, pretty_N. case_decide; [done|]. by apply pretty_N_go_colon.
Qed.

Lemma pretty_Z_colon (z : Z) : hasColon (pretty z) = false.
Proof.
  destruct z as [|p|p]; [done|apply pretty_N_colon|].
  change (pretty (Z.neg p)) with (String (Ascii.ascii_of_nat 45) (pretty (N.pos p))).
  simpl. apply pretty_N_colon.
Qed.

Lemma colon_split u u' p p' :
  hasColon p = false → hasColon p' = false →
  u +:+ ":" +:+ p = u' +:+ ":" +:+ p' → u = u' ∧ p = p'.
Proof.
  intros Hp Hp'. revert u'. induction u as [|c u IH]; intros [|c' u'].
  - intros H. by injection H.
  - change ("" +:+ ":" +:+ p) with (String (Ascii.ascii_of_nat 58) p).
    change (String c' u' +:+ ":" +:+ p') with (String c' (u' +:+ ":" +:+ p')).
    intros [= <- ->]. exfalso.
    clear -Hp. induction u' as [|d u' IH]; simpl in Hp.
    + done.
    + change (String d u' +:+ ":" +:+ p') with (String d (u' +:+ ":" +:+ p')) in Hp.
      simpl in Hp. apply orb_false_iff in Hp as [_ Hp]. by apply IH.
  - change ("" +:+ ":" +:+ p') with (String (Ascii.ascii_of_nat 58) p').
    change (String c u +:+ ":" +:+ p) with (String c (u +:+ ":" +:+ p)).
    intros [= -> <-]. exfalso.
    clear -Hp'. induction u as [|d u IH]; simpl in Hp'.
    + done.
    + change (String d u +:+ ":" +:+ p) with (String d (u +:+ ":" +:+ p)) in Hp'.
      simpl in Hp'. apply orb_false_iff in Hp' as [_ Hp']. by apply IH.
  - change (String c u +:+ ":" +:+ p) with (String c (u +:+ ":" +:+ p)).
    change (String c' u' +:+ ":" +:+ p') with (String c' (u' +:+ ":" +:+ p')).
    intros [= -> H]. apply IH in H as [-> ->]. done.
Qed.

Lemma colon_key_inj user user' storyID storyID' :
  metrics.mapUserStakeByStoryIDKey user storyID
  = metrics.mapUserStakeByStoryIDKey user' storyID' →
  user = user' ∧ storyID = storyID'.
Proof.
  unfold metrics.mapUserStakeByStoryIDKey.
  intros [-> Hp]%colon_split; [|apply pretty_Z_colon..].
  split; [done|]. by apply (inj pretty).
Qed.

(** X17. [mapUserStakeByStoryIDKey] is injective: two pairs of a user and a
    story have the same key only when they are the same pair, whatever
    characters the address of the user holds, so that an entry of
    [mapUserStakeByStoryID] is only ever overwritten by a stake of the same
    user on the same story. *)
Theorem mapUserStakeByStoryIDKey_inj (user user' : string) (storyID storyID' : Z) :
  metrics.mapUserStakeByStoryIDKey user storyID
  = metrics.mapUserStakeByStoryIDKey user' storyID'
  ↔ user = user' ∧ storyID = storyID'.
Proof.
  split; [apply colon_key_inj|by intros [-> ->]].
Qed.
End Keys.

(** ** [HandleMetrics]: what is staked is backed or challenged *)

Section Surplus.
Import metrics summaries.
Local Open Scope Z_scope.

Lemma getMetricsByCategory_surplus um c c' :
  surplusOfUser (getMetricsByCategory um c).1 c' = surplusOfUser um c'.
Proof.
  unfold getMetricsByCategory, surplusOfUser.
  destruct (CategoryMetrics_ um !! c) as [cm|] eqn:Hc; simpl; [done|].
  destruct (decide (c' = c)) as [->|Hne].
  - by rewrite lookup_insert_eq, Hc.
  - by rewrite lookup_insert_ne.
Qed.

Lemma getMetricsByCategory_surplus_self um c :
  surplusOfUser um c = surplus (Metrics_ (getMetricsByCategory um c).2).
Proof.
  unfold getMetricsByCategory, surplusOfUser.
  by destruct (CategoryMetrics_ um !! c) as [cm|] eqn:Hc.
Qed.

Lemma setCategoryMetrics_surplus um c cm c' :
  surplusOfUser (setCategoryMetrics um c cm) c'
  = if decide (c' = c) then surplus (Metrics_ cm) else surplusOfUser um c'.
Proof.
  unfold setCategoryMetrics, surplusOfUser. simpl.
  destruct (decide (c' = c)) as [->|Hne].
  - by rewrite lookup_insert_eq.
  - by rewrite lookup_insert_ne.
Qed.

Lemma onMetrics_shifts c f delta :
  (∀ m m', f m = Some m' → surplus m' = surplus m + delta) →
  shifts c delta (onMetrics c f).
Proof.
  intros Hf um um'. unfold onMetrics.
  pose proof (getMetricsByCategory_surplus um c) as Hget.
  pose proof (getMetricsByCategory_surplus_self um c) as Hself.
  destruct (getMetricsByCategory um c) as [um1 cm]; simpl in *.
  destruct (f (Metrics_ cm)) as [m'|] eqn:Hm; simpl; [|done].
  intros [= <-] c'. rewrite setCategoryMetrics_surplus. simpl.
  destruct (decide (c' = c)) as [->|Hne].
  - rewrite (Hf _ _ Hm). by rewrite Hself.
  - rewrite Hget. lia.
Qed.

Lemma shifts_0_keeps c f : shifts c 0 f → keepsSurplus f.
Proof. intros Hf um um' H c'. rewrite (Hf _ _ H). case_decide; lia. Qed.

Ltac surplus_field :=
  apply onMetrics_shifts; intros m m' Hm; simpl in Hm;
  repeat match goal with
         | H : context [sdk.Add ?a ?b] |- _ =>
             let Hadd := fresh "Hadd" in
             destruct (sdk.Add a b) eqn:Hadd; simpl in H;
             [apply sdk_Add_amount in Hadd|discriminate H]
         end;
  simplify_eq; unfold surplus; simpl; lia.

Lemma addStakedAmount_shifts c a : shifts c (sdk.Amount a) (addStakedAmount c a).
Proof. surplus_field. Qed.
Lemma addBackedAmount_shifts c a : shifts c (- sdk.Amount a) (addBackedAmount c a).
Proof. surplus_field. Qed.
Lemma addChallengedAmount_shifts c a : shifts c (- sdk.Amount a) (addChallengedAmount c a).
Proof. surplus_field. Qed.

Lemma increaseArgumentsCount_surplus c : keepsSurplus (increaseArgumentsCount c).
Proof. apply (shifts_0_keeps c). surplus_field. Qed.
Lemma increaseClaimsCount_surplus c : keepsSurplus (increaseClaimsCount c).
Proof. apply (shifts_0_keeps c). surplus_field. Qed.
Lemma increaseEndorsementsGivenCount_surplus c :
  keepsSurplus (increaseEndorsementsGivenCount c).
Proof. apply (shifts_0_keeps c). surplus_field. Qed.
Lemma increaseEndorsementsReceivedCount_surplus c :
  keepsSurplus (increaseEndorsementsReceivedCount c).
Proof. apply (shifts_0_keeps c). surplus_field. Qed.
Lemma increaseTotalBackings_surplus c : keepsSurplus (increaseTotalBackings c).
Proof. apply (shifts_0_keeps c). surplus_field. Qed.
Lemma increaseTotalChallenges_surplus c : keepsSurplus (increaseTotalChallenges c).
Proof. apply (shifts_0_keeps c). surplus_field. Qed.
Lemma setTotalOpenedClaims_surplus c n : keepsSurplus (setTotalOpenedClaims c n).
Proof. apply (shifts_0_keeps c). surplus_field. Qed.
Lemma addAmoutAtStake_surplus c a : keepsSurplus (addAmoutAtStake c a).
Proof. apply (shifts_0_keeps c). surplus_field. Qed.
Lemma addStakeLost_surplus c a : keepsSurplus (addStakeLost c a).
Proof. apply (shifts_0_keeps c). surplus_field. Qed.
Lemma addInterestEarned_surplus c a : keepsSurplus (addInterestEarned c a).
Proof. apply (shifts_0_keeps c). surplus_field. Qed.
Lemma addStakeEarned_surplus c a : keepsSurplus (addStakeEarned c a).
Proof. apply (shifts_0_keeps c). surplus_field. Qed.

Lemma addCredEarned_surplus c a : keepsSurplus (addCredEarned c a).
Proof.
  intros um um'. unfold addCredEarned.
  pose proof (getMetricsByCategory_surplus um c) as Hget.
  pose proof (getMetricsByCategory_surplus_self um c) as Hself.
  destruct (getMetricsByCategory um c) as [um1 cm]; simpl in *.
  destruct (CredEarned cm) as [credEarned|]; simpl; [|done].
  destruct (sdk.Add credEarned a) as [v|]; simpl; [|done].
  intros [= <-] c'. rewrite setCategoryMetrics_surplus. simpl.
  destruct (decide (c' = c)) as [->|Hne]; [by rewrite Hself|apply Hget].
Qed.

Lemma addRunningBalance_surplus a : keepsSurplus (addRunningBalance a).
Proof.
  intros um um'. unfold addRunningBalance.
  destruct (decide _); [|by intros [= <-]].
  destruct (RunningBalance um) as [rb|]; simpl; [|done].
  destruct (sdk.Add rb a) as [v|]; simpl; [|done].
  by intros [= <-].
Qed.

Lemma surplus_Some : keepsSurplus Some.
Proof. by intros um um' [= <-]. Qed.

Lemma surplus_bind f g :
  keepsSurplus f → keepsSurplus g → keepsSurplus (λ um, f um ≫= g).
Proof.
  intros Hf Hg um um' H. destruct (f um) as [um1|] eqn:Hum1; simpl in H; [|done].
  intros c. by rewrite (Hg _ _ H), (Hf _ _ Hum1).
Qed.

Lemma surplus_if (b : bool) f g :
  keepsSurplus f → keepsSurplus g → keepsSurplus (λ um, if b then f um else g um).
Proof. by destruct b. Qed.

Lemma surplus_decide P `{Decision P} f g :
  keepsSurplus f → keepsSurplus g → keepsSurplus (λ um, if decide P then f um else g um).
Proof. by destruct (decide P). Qed.

Ltac surplus_auto :=
  repeat first
    [ apply surplus_Some | apply surplus_bind | apply surplus_if | apply surplus_decide
    | apply increaseArgumentsCount_surplus | apply increaseClaimsCount_surplus
    | apply increaseEndorsementsGivenCount_surplus
    | apply increaseEndorsementsReceivedCount_surplus
    | apply increaseTotalBackings_surplus | apply increaseTotalChallenges_surplus
    | apply setTotalOpenedClaims_surplus | apply addAmoutAtStake_surplus
    | apply addStakeLost_surplus | apply addInterestEarned_surplus
    | apply addStakeEarned_surplus | apply addCredEarned_surplus
    | apply addRunningBalance_surplus ].

(** Staking: the amount goes to the staked total and to one of the two sides. *)
Lemma stake_then_side c a (backing : bool) :
  keepsSurplus (λ um, addStakedAmount c a um ≫= λ um,
                  if backing then addBackedAmount c a um else addChallengedAmount c a um).
Proof.
  intros um um' H c'.
  destruct (addStakedAmount c a um) as [um1|] eqn:H1; simpl in H; [|done].
  apply addStakedAmount_shifts in H1. rewrite <- (Z.add_0_r (surplusOfUser um c')).
  destruct backing.
  - apply addBackedAmount_shifts in H. rewrite H, H1. case_decide; lia.
  - apply addChallengedAmount_shifts in H. rewrite H, H1. case_decide; lia.
Qed.

Lemma onUser_surplus u f summary summary' :
  keepsSurplus f →
  onUser u f summary = Some summary' →
  ∀ u' c, surplusAt summary' u' c = surplusAt summary u' c.
Proof.
  intros Hf. unfold onUser, GetUserMetrics.
  destruct (f _) as [um'|] eqn:Hum; simpl; [|done].
  intros [= <-] u' c. unfold surplusAt, setUserMetrics. simpl.
  destruct (decide (u' = u)) as [->|Hne].
  - rewrite lookup_insert_eq. rewrite (Hf _ _ Hum).
    destruct (Users summary !! u) as [um|]; simpl; [done|].
    unfold surplusOfUser. simpl. by rewrite lookup_empty.
  - by rewrite !lookup_insert_ne by done.
Qed.

Variable ta : TruAPI.

Lemma stake_surplus beforeDate s backing acc b acc' :
  stake ta beforeDate s backing acc b = Some acc' →
  ∀ u c, surplusAt acc'.1.2 u c = surplusAt acc.1.2 u c.
Proof.
  destruct acc as [[stakedAmount summary] stakeByStory]. unfold stake.
  destruct (negb _); simpl; [by intros [= <-]|].
  destruct (sdk.Add stakedAmount _) as [stakedAmount'|]; simpl; [|done].
  destruct (onUser _ _ summary) as [summary'|] eqn:Hon; simpl; [|done].
  intros [= <-]. simpl. eapply onUser_surplus; [|exact Hon].
  intros um um' Hchain.
  destruct (addStakedAmount _ _ um) as [um0|] eqn:Hadd; simpl in Hchain; [|done].
  destruct (if backing then addBackedAmount _ _ um0 else addChallengedAmount _ _ um0)
    as [um1|] eqn:Hside; simpl in Hchain; [|done].
  intros c. transitivity (surplusOfUser um1 c).
  - revert c. revert Hchain. clear Hadd Hside. revert um1 um'.
    lazymatch goal with
    | |- ∀ um um', @?f um = Some um' → _ => change (keepsSurplus f)
    end.
    surplus_auto.
  - eapply (stake_then_side (story.CategoryID s) (Stake.Amount b) backing um um1).
    rewrite Hadd. simpl. by destruct backing.
Qed.

Lemma stakes_surplus beforeDate s backing l acc acc' :
  golang.foldlM (stake ta beforeDate s backing) acc l = Some acc' →
  ∀ u c, surplusAt acc'.1.2 u c = surplusAt acc.1.2 u c.
Proof.
  apply (foldlM_invariant (λ x, ∀ u c, surplusAt x.1.2 u c = surplusAt acc.1.2 u c)).
  - done.
  - intros x b x' Hx Hstake u c. rewrite <- Hx. by eapply stake_surplus.
Qed.

Lemma stakesLost_surplus c l summary summary' :
  stakesLost c l summary = Some summary' →
  ∀ u c', surplusAt summary' u c' = surplusAt summary u c'.
Proof.
  unfold stakesLost.
  apply (foldlM_invariant (λ x, ∀ u c', surplusAt x u c' = surplusAt summary u c')).
  - done.
  - intros x b x' Hx Hon u c'. rewrite <- Hx.
    eapply onUser_surplus; [|exact Hon]. apply addStakeLost_surplus.
Qed.

Lemma storyPass_surplus beforeDate p entry p' :
  storyPass ta beforeDate p entry = Some p' →
  ∀ u c, surplusAt (metricsSummary p') u c = surplusAt (metricsSummary p) u c.
Proof.
  destruct entry as [idx s]. unfold storyPass.
  destruct (negb _); simpl; [by intros [= <-]|].
  destruct (onUser _ _ (metricsSummary p)) as [summary0|] eqn:Hclaims; simpl; [|done].
  destruct (golang.foldlM (stake ta beforeDate s true) _ _)
    as [[[backingAmount summary1] stakeByStory1]|] eqn:Hbackings; simpl; [|done].
  destruct (golang.foldlM (stake ta beforeDate s false) _ _)
    as [[[challengeAmount summary2] stakeByStory2]|] eqn:Hchallenges; simpl; [|done].
  assert (∀ u c, surplusAt summary2 u c = surplusAt (metricsSummary p) u c) as Hsum.
  { intros u c.
    pose proof (stakes_surplus _ _ _ _ _ _ Hchallenges u c) as H2.
    pose proof (stakes_surplus _ _ _ _ _ _ Hbackings u c) as H1.
    simpl in H1, H2. rewrite H2, H1.
    by rewrite (onUser_surplus _ _ _ _ (increaseClaimsCount_surplus _) Hclaims). }
  destruct (decide (story.Status_ s = story.Pending)); [by intros [= <-]|].
  destruct (if sdk.IsLT backingAmount challengeAmount then _ else _)
    as [summary3|] eqn:Hlost1; simpl; [|done].
  destruct (if sdk.IsLT challengeAmount backingAmount then _ else _)
    as [summary4|] eqn:Hlost2; simpl; [|done].
  intros [= <-] u c. simpl. rewrite <- Hsum.
  transitivity (surplusAt summary3 u c).
  - destruct (sdk.IsLT challengeAmount backingAmount); [|by simplify_eq].
    by eapply stakesLost_surplus.
  - destruct (sdk.IsLT backingAmount challengeAmount); [|by simplify_eq].
    by eapply stakesLost_surplus.
Qed.

Lemma categoryPass_surplus um entry um' :
  categoryPass um entry = Some um' →
  ∀ c, surplusOfUser um' c = surplusOfUser um c.
Proof.
  destruct entry as [cID cat]. unfold categoryPass.
  pose proof (getMetricsByCategory_surplus um cID) as Hget.
  pose proof (getMetricsByCategory_surplus_self um cID) as Hself.
  destruct (getMetricsByCategory um cID) as [um1 cm]; simpl in *.
  intros [= <-] c. rewrite setCategoryMetrics_surplus. simpl.
  destruct (decide (c = cID)) as [->|Hne]; [by rewrite Hself|apply Hget].
Qed.

Lemma transaction_surplus beforeDate stories mapped acc tx acc' :
  transaction beforeDate stories mapped acc tx = Some acc' →
  ∀ c, surplusOfUser acc'.1 c = surplusOfUser acc.1 c.
Proof.
  destruct acc as [um results]. unfold transaction.
  destruct (negb _); [by intros [= <-]|].
  destruct (addRunningBalance _ um) as [um1|] eqn:Hrun; simpl; [|done].
  intros H c.
  assert (surplusOfUser acc'.1 c = surplusOfUser um1 c) as ->;
    [|by apply addRunningBalance_surplus in Hrun].
  revert H.
  destruct (trubank.TransactionType_ tx) eqn:Hty; try (by intros [= <-]);
    (destruct (mapped !! trubank.GroupID tx) as [i|]; [|by intros [= <-]]);
    (destruct (stories !! i) as [s|]; simpl; [|done]).
  - destruct (addInterestEarned _ _ um1) as [um2|] eqn:H2; simpl; [|done].
    intros [= <-]. simpl. by apply addInterestEarned_surplus in H2.
  - destruct (addCredEarned _ _ um1) as [um2|] eqn:H2; simpl; [|done].
    destruct (increaseEndorsementsReceivedCount _ um2) as [um3|] eqn:H3; simpl; [|done].
    intros [= <-]. simpl.
    apply addCredEarned_surplus in H2.
    apply increaseEndorsementsReceivedCount_surplus in H3. by rewrite H3, H2.
  - destruct (addCredEarned _ _ um1) as [um2|] eqn:H2; simpl; [|done].
    destruct (increaseEndorsementsReceivedCount _ um2) as [um3|] eqn:H3; simpl; [|done].
    intros [= <-]. simpl.
    apply addCredEarned_surplus in H2.
    apply increaseEndorsementsReceivedCount_surplus in H3. by rewrite H3, H2.
  - destruct (decide _); [by intros [= <-]|].
    repeat (match goal with
            | |- context [copyCoin ?a] => destruct (copyCoin a); simpl
            | |- context [decide ?P] => destruct (decide P); simpl
            | |- context [bool_decide ?P] => destruct (bool_decide P); simpl
            end); by intros [= <-].
  - destruct (decide _); [by intros [= <-]|].
    repeat (match goal with
            | |- context [copyCoin ?a] => destruct (copyCoin a); simpl
            | |- context [decide ?P] => destruct (decide P); simpl
            | |- context [bool_decide ?P] => destruct (bool_decide P); simpl
            end); by intros [= <-].
  - destruct (decide _); [by intros [= <-]|].
    repeat (match goal with
            | |- context [copyCoin ?a] => destruct (copyCoin a); simpl
            | |- context [decide ?P] => destruct (decide P); simpl
            | |- context [bool_decide ?P] => destruct (bool_decide P); simpl
            end); by intros [= <-].
Qed.

Lemma storyResultPass_surplus stakeByStory userAddress um entry um' :
  storyResultPass stakeByStory userAddress um entry = Some um' →
  ∀ c, surplusOfUser um' c = surplusOfUser um c.
Proof.
  destruct entry as [storyID storyResult]. unfold storyResultPass.
  destruct (stakeEarnedAmount _ _ _ _) as [[reward|]|]; simpl; [|by intros [= <-]|done].
  apply addStakeEarned_surplus.
Qed.

Lemma userPass_surplus rangeCategories rangeResults beforeDate stories p summary profile
    summary' :
  userPass rangeCategories rangeResults ta beforeDate stories p summary profile
  = Some summary' →
  ∀ u c, surplusAt summary' u c = surplusAt summary u c.
Proof.
  unfold userPass, GetUserMetrics.
  set (um0 := default _ (Users summary !! TwitterProfile.Address profile)).
  destruct (sdk.NewCoin _ _) as [balance|]; simpl; [|done].
  destruct (sdk.NewInt64Coin _ _) as [runningBalance|]; simpl; [|done].
  destruct (golang.foldlM categoryPass _ _) as [um1|] eqn:Hcategories; simpl; [|done].
  set (um2 := match TwitterProfileByAddress ta _ with
              | (Some _, None) => _
              | _ => um1
              end).
  destruct (transactionsPass _ _ _ _ _ um2) as [[um3 results]|] eqn:Htxs; simpl; [|done].
  destruct (golang.foldlM (storyResultPass _ _) um3 _) as [um4|] eqn:Hresults; simpl;
    [|done].
  intros [= <-] u c. unfold surplusAt, setUserMetrics. simpl.
  destruct (decide (u = TwitterProfile.Address profile)) as [->|Hne];
    [|by rewrite !lookup_insert_ne].
  rewrite lookup_insert_eq.
  assert (surplusOfUser um4 c = surplusOfUser um0 c) as ->.
  { transitivity (surplusOfUser um3 c).
    { revert c.
      eapply (foldlM_invariant (λ x, ∀ c, surplusOfUser x c = surplusOfUser um3 c));
        [| |exact Hresults]; [done|].
      intros x e x' Hx Hstep c. rewrite <- Hx. by eapply storyResultPass_surplus. }
    transitivity (surplusOfUser um2 c).
    { unfold transactionsPass in Htxs.
      change um3 with (um3, results).1. change um2 with (um2, (∅ : gmap Z storyRewardResult)).1.
      revert c.
      eapply (foldlM_invariant
                (λ x : UserMetrics * gmap Z storyRewardResult,
                   ∀ c, surplusOfUser x.1 c = surplusOfUser um2 c));
        [| |exact Htxs]; [done|].
      intros x e x' Hx Hstep c. rewrite <- Hx. by eapply transaction_surplus. }
    transitivity (surplusOfUser um1 c).
    { unfold um2. by destruct (TwitterProfileByAddress ta _) as [[?|] [?|]]. }
    revert c.
    eapply (foldlM_invariant (λ x, ∀ c, surplusOfUser x c = surplusOfUser _ c));
      [| |exact Hcategories]; [done|].
    intros x e x' Hx Hstep c. rewrite <- Hx. by eapply categoryPass_surplus. }
  unfold um0. destruct (Users summary !! TwitterProfile.Address profile); simpl; [done|].
  unfold surplusOfUser. simpl. by rewrite lookup_empty.
Qed.

Lemma openedClaimsPass_surplus summary uoc summary' :
  openedClaimsPass summary uoc = Some summary' →
  ∀ u c, surplusAt summary' u c = surplusAt summary u c.
Proof. apply onUser_surplus. apply setTotalOpenedClaims_surplus. Qed.

End Surplus.

(** X18. In every summary [HandleMetrics] renders, the [TotalAmountStaked]
    of a user in a category is the sum of its [TotalAmountBacked] and its
    [TotalAmountChallenged]. *)
Theorem rendered_staked_is_backed_plus_challenged
    (time_Parse : string → string + golang.Time)
    (rangeCategories : gmap Z metrics.category.Category
                       → list (Z * metrics.category.Category))
    (rangeResults : gmap Z metrics.storyRewardResult → list (Z * metrics.storyRewardResult))
    (ta : metrics.TruAPI) (r : metrics.Request)
    (summary : metrics.MetricsSummary) (code : Z) :
  metrics.RenderJSON summary code
    ∈ (metrics.HandleMetrics time_Parse rangeCategories rangeResults ta r).1 →
  ∀ user um categoryID cm,
    metrics.Users summary !! user = Some um →
    metrics.CategoryMetrics_ um !! categoryID = Some cm →
    sdk.Amount (metrics.TotalAmountStaked (metrics.Metrics_ cm))
    = (sdk.Amount (metrics.TotalAmountBacked (metrics.Metrics_ cm))
       + sdk.Amount (metrics.TotalAmountChallenged (metrics.Metrics_ cm)))%Z.
Proof.
  intros Hin.
  assert (∀ user categoryID, summaries.surplusAt summary user categoryID = 0%Z) as Hzero.
  { intros user categoryID. unfold metrics.HandleMetrics in Hin.
    destruct (metrics.ParseForm r); simpl in Hin; [which_output Hin|].
    destruct (decide _); simpl in Hin; [which_output Hin|].
    destruct (time_Parse _) as [err|beforeDate]; simpl in Hin; [which_output Hin|].
    apply aggregate_rendered in Hin
      as (stories & p & summary1 & Hstories & Hpass & Husers & Hopened).
    transitivity (summaries.surplusAt summary1 user categoryID).
    { revert user categoryID.
      eapply (foldlM_invariant
                (λ x, ∀ u c, summaries.surplusAt x u c = summaries.surplusAt summary1 u c));
        [| |exact Hopened]; [done|].
      intros x e x' Hx Hstep u c. rewrite <- Hx. by eapply openedClaimsPass_surplus. }
    transitivity (summaries.surplusAt (metrics.metricsSummary p) user categoryID).
    { revert user categoryID.
      eapply (foldlM_invariant
                (λ x, ∀ u c, summaries.surplusAt x u c
                             = summaries.surplusAt (metrics.metricsSummary p) u c));
        [| |exact Husers]; [done|].
      intros x e x' Hx Hstep u c. rewrite <- Hx. by eapply userPass_surplus. }
    unfold metrics.storiesPass in Hpass.
    transitivity (summaries.surplusAt
                    (metrics.metricsSummary
                       (metrics.mkPass
                          (metrics.mkMetricsSummary ∅
                             (foldl (λ m cat, <[metrics.category.ID cat := cat]> m) ∅
                                (metrics.allCategoriesResolver ta))) ∅ ∅))
                    user categoryID).
    { revert user categoryID.
      eapply (foldlM_invariant
                (λ x, ∀ u c, summaries.surplusAt (metrics.metricsSummary x) u c
                             = summaries.surplusAt _ u c));
        [| |exact Hpass]; [done|].
      intros x e x' Hx Hstep u c. rewrite <- Hx. by eapply storyPass_surplus. }
    unfold summaries.surplusAt. simpl. by rewrite lookup_empty. }
  intros user um categoryID cm Hum Hcm. specialize (Hzero user categoryID).
  unfold summaries.surplusAt, summaries.surplusOfUser in Hzero. rewrite Hum, Hcm in Hzero.
  unfold summaries.surplus in Hzero. lia.
Qed.

Lemma rendered_staked_is_backed_plus_challenged_witness :
  ∃ summary code,
    metrics.RenderJSON summary code
      ∈ (metrics.HandleMetrics sample.time_Parse map_to_list map_to_list sample.chain
           sample.metricsRequest).1
    ∧ ∃ um cm,
        metrics.Users summary !! "tru1bob" = Some um
        ∧ metrics.CategoryMetrics_ um !! 10%Z = Some cm
        ∧ sdk.Amount (metrics.TotalAmountBacked (metrics.Metrics_ cm)) = 20%Z
        ∧ sdk.Amount (metrics.TotalAmountChallenged (metrics.Metrics_ cm)) = 10%Z
        ∧ sdk.Amount (metrics.TotalAmountStaked (metrics.Metrics_ cm))
          = (sdk.Amount (metrics.TotalAmountBacked (metrics.Metrics_ cm))
             + sdk.Amount (metrics.TotalAmountChallenged (metrics.Metrics_ cm)))%Z.
Proof.
  destruct (spec.rendered
              (metrics.HandleMetrics sample.time_Parse map_to_list map_to_list sample.chain
                 sample.metricsRequest).1) as [[summary code]|] eqn:Hrendered.
  - pose proof Hrendered as Hin. apply rendered_elem in Hin.
    exists summary, code. split; [exact Hin|].
    destruct (metrics.Users summary !! "tru1bob") as [um|] eqn:Hum.
    + destruct (metrics.CategoryMetrics_ um !! 10%Z) as [cm|] eqn:Hcm.
      * exists um, cm. split; [done|]. split; [done|].
        pose proof (rendered_staked_is_backed_plus_challenged sample.time_Parse map_to_list
                      map_to_list sample.chain sample.metricsRequest summary code Hin
                      "tru1bob" um 10%Z cm Hum Hcm) as Hsum.
        split_and!; [| |exact Hsum].
        -- vm_compute in Hrendered. injection Hrendered as <- <-.
           vm_compute in Hum. injection Hum as <-.
           vm_compute in Hcm. injection Hcm as <-. reflexivity.
        -- vm_compute in Hrendered. injection Hrendered as <- <-.
           vm_compute in Hum. injection Hum as <-.
           vm_compute in Hcm. injection Hcm as <-. reflexivity.
      * exfalso. vm_compute in Hrendered. injection Hrendered as <- <-.
        vm_compute in Hum. injection Hum as <-.
        vm_compute in Hcm. discriminate Hcm.
    + exfalso. vm_compute in Hrendered. injection Hrendered as <- <-.
      vm_compute in Hum. discriminate Hum.
  - exfalso. vm_compute in Hrendered. discriminate Hrendered.
Defined.

(** ** [HandleMetrics]: the side map keeps the last stake *)

Section StakeMap.
Import metrics.
Local Open Scope Z_scope.
Variable ta : TruAPI.

Lemma recordStake_lookup l m u sid :
  foldl summaries.recordStake m l !! mapUserStakeByStoryIDKey u sid
  = match last (filter (λ b, Stake.Creator b = u ∧ Stake.StoryID b = sid) l) with
    | Some b => Some (Stake.Amount b)
    | None => m !! mapUserStakeByStoryIDKey u sid
    end.
Proof.
  revert m. induction l as [|b l IH] using rev_ind; intros m; [done|].
  rewrite foldl_app, filter_app, filter_cons, filter_nil. simpl. unfold summaries.recordStake at 1.
  destruct (decide (Stake.Creator b = u ∧ Stake.StoryID b = sid)) as [[-> ->]|Hne].
  - by rewrite lookup_insert_eq, last_snoc.
  - rewrite lookup_insert_ne, app_nil_r; [apply IH|].
    intros Heq. apply Hne. by apply colon_key_inj in Heq.
Qed.

Lemma stake_map beforeDate s backing acc b acc' :
  stake ta beforeDate s backing acc b = Some acc' →
  acc'.2 = foldl summaries.recordStake acc.2 (filter (λ b, Stake.CreatedTime b < beforeDate) [b]).
Proof.
  destruct acc as [[stakedAmount summary] stakeByStory]. unfold stake, golang.Before.
  rewrite filter_cons, filter_nil.
  case_bool_decide; simpl.
  - rewrite decide_True by done.
    destruct (sdk.Add _ _); simpl; [|done]. destruct (onUser _ _ _); simpl; [|done].
    by intros [= <-].
  - rewrite decide_False by done. by intros [= <-].
Qed.

Lemma stakes_map beforeDate s backing l acc acc' :
  golang.foldlM (stake ta beforeDate s backing) acc l = Some acc' →
  acc'.2 = foldl summaries.recordStake acc.2 (filter (λ b, Stake.CreatedTime b < beforeDate) l).
Proof.
  revert acc. induction l as [|b l IH]; intros acc.
  - by intros [= <-].
  - rewrite foldlM_cons.
    destruct (stake ta beforeDate s backing acc b) as [acc1|] eqn:Hstake; [|done].
    intros Hrest. simpl in Hrest. rewrite (IH _ Hrest), (stake_map _ _ _ _ _ _ Hstake).
    rewrite <- foldl_app. f_equal. by rewrite <- filter_app.
Qed.

Lemma storyPass_map beforeDate p idx s p' :
  storyPass ta beforeDate p (idx, s) = Some p' →
  mapUserStakeByStoryID p'
  = foldl summaries.recordStake (mapUserStakeByStoryID p) (summaries.visitedStakes ta beforeDate [s]).
Proof.
  unfold storyPass, golang.Before, summaries.visitedStakes.
  rewrite filter_cons, filter_nil.
  case_bool_decide as Hbefore; simpl.
  2:{ rewrite decide_False by done. by intros [= <-]. }
  rewrite decide_True by done. simpl. rewrite app_nil_r.
  destruct (onUser _ _ (metricsSummary p)) as [summary0|] eqn:Hclaims; simpl; [|done].
  destruct (golang.foldlM (stake ta beforeDate s true) _ _)
    as [[[backingAmount summary1] stakeByStory1]|] eqn:Hbackings; simpl; [|done].
  destruct (golang.foldlM (stake ta beforeDate s false) _ _)
    as [[[challengeAmount summary2] stakeByStory2]|] eqn:Hchallenges; simpl; [|done].
  apply stakes_map in Hbackings, Hchallenges. simpl in Hbackings, Hchallenges.
  assert (stakeByStory2
          = foldl summaries.recordStake (mapUserStakeByStoryID p)
              (filter (λ b, Stake.CreatedTime b < beforeDate)
                 (backingsResolver ta (story.ID s) ++ challengesResolver ta (story.ID s))))
    as Hmap.
  { by rewrite filter_app, foldl_app, <- Hbackings. }
  destruct (decide _); [by intros [= <-]|].
  destruct (if sdk.IsLT backingAmount challengeAmount then _ else _); simpl; [|done].
  destruct (if sdk.IsLT challengeAmount backingAmount then _ else _); simpl; [|done].
  by intros [= <-].
Qed.

Lemma visitedStakes_cons beforeDate s stories :
  summaries.visitedStakes ta beforeDate (s :: stories)
  = summaries.visitedStakes ta beforeDate [s] ++ summaries.visitedStakes ta beforeDate stories.
Proof.
  unfold summaries.visitedStakes. rewrite !filter_cons, filter_nil.
  case_decide; simpl; [|done]. by rewrite app_nil_r.
Qed.

Lemma storiesPass_map beforeDate l p p' :
  golang.foldlM (storyPass ta beforeDate) p l = Some p' →
  mapUserStakeByStoryID p'
  = foldl summaries.recordStake (mapUserStakeByStoryID p) (summaries.visitedStakes ta beforeDate l.*2).
Proof.
  revert p. induction l as [|[idx s] l IH]; intros p.
  - by intros [= <-].
  - rewrite foldlM_cons, fmap_cons.
    destruct (storyPass ta beforeDate p (idx, s)) as [p1|] eqn:Hstory; [|done].
    intros Hrest. simpl in Hrest.
    rewrite (IH _ Hrest), (storyPass_map _ _ _ _ _ Hstory). cbn [snd].
    by rewrite (visitedStakes_cons _ s (l.*2)), foldl_app.
Qed.

(** X19. After the loop over the stories, [mapUserStakeByStoryID] holds for
    a user and a story the amount of the last stake, in the order of the loop,
    that the user placed on the story before the date, and nothing when there
    is none: a later stake replaces an earlier one, the amounts are not
    added. *)
Theorem mapUserStakeByStoryID_keeps_last_stake
    (beforeDate : golang.Time) (stories : list story.Story) (summary : MetricsSummary)
    (p : Pass) (user : string) (storyID : Z) :
  storiesPass ta beforeDate stories summary = Some p →
  mapUserStakeByStoryID p !! mapUserStakeByStoryIDKey user storyID
  = Stake.Amount <$>
      last (filter (λ b, Stake.Creator b = user ∧ Stake.StoryID b = storyID)
              (summaries.visitedStakes ta beforeDate stories)).
Proof.
  unfold storiesPass. intros Hpass%storiesPass_map.
  rewrite Hpass, (imap_pair_snd id), recordStake_lookup. simpl.
  destruct (last _); [done|]. by rewrite lookup_empty.
Qed.
End StakeMap.

Lemma mapUserStakeByStoryID_keeps_last_stake_witness :
  metrics.mapUserStakeByStoryID sample.pass !! metrics.mapUserStakeByStoryIDKey "tru1bob" 1%Z
  = Some (sample.stakeCoin 10).
Proof.
  etrans.
  - apply (mapUserStakeByStoryID_keeps_last_stake sample.chain 1000%Z sample.stories
             (metrics.mkMetricsSummary ∅ ∅) sample.pass "tru1bob" 1%Z).
    vm_compute. reflexivity.
  - vm_compute. reflexivity.
Defined.

(** ** [HandleUsersMetrics]: the stakes and the balance of a row *)

Section Ledger.
Import reports ledger.
Local Open Scope Z_scope.

Lemma getUserCommunityMetric_lookup m a c :
  (getUserCommunityMetric m a c).2
    = default newUserCommunityMetrics (vocab.metricAt m a c)
  ∧ (∃ um, (getUserCommunityMetric m a c).1 !! a = Some um
           ∧ CommunityMetrics um !! c = Some (getUserCommunityMetric m a c).2)
  ∧ ∀ a' c', vocab.metricAt (getUserCommunityMetric m a c).1 a' c'
             = if decide (a' = a ∧ c' = c) then Some (getUserCommunityMetric m a c).2
               else vocab.metricAt m a' c'.
Proof.
  unfold getUserCommunityMetric, getUserMetrics, vocab.metricAt.
  destruct (m !! a) as [um|] eqn:Hm; simpl.
  - destruct (CommunityMetrics um !! c) as [ucm|] eqn:Hc; simpl.
    + split; [done|]. split; [by exists um|].
      intros a' c'. case_decide as H; [|done]. destruct H as [-> ->].
      by rewrite Hm.
    + split; [done|]. split.
      { eexists. rewrite lookup_insert_eq. split; [done|]. simpl. by rewrite lookup_insert_eq. }
      intros a' c'. case_decide as H.
      * destruct H as [-> ->]. rewrite lookup_insert_eq. simpl. by rewrite lookup_insert_eq.
      * destruct (decide (a' = a)) as [->|Ha].
        -- rewrite lookup_insert_eq, Hm. simpl. rewrite lookup_insert_ne; [done|]. naive_solver.
        -- by rewrite lookup_insert_ne.
  - rewrite lookup_empty. simpl. split; [done|]. split.
    { eexists. rewrite lookup_insert_eq. split; [done|]. simpl. by rewrite lookup_insert_eq. }
    intros a' c'. case_decide as H.
    + destruct H as [-> ->]. rewrite lookup_insert_eq. simpl. by rewrite lookup_insert_eq.
    + destruct (decide (a' = a)) as [->|Ha].
      * rewrite lookup_insert_eq, Hm. simpl. rewrite lookup_insert_ne; [|naive_solver].
        by rewrite lookup_empty.
      * rewrite lookup_insert_ne by done. by rewrite lookup_insert_ne.
Qed.

Lemma assign_metricAt m a c f a' c' :
  vocab.metricAt (assign m a c f) a' c'
  = if decide (a' = a ∧ c' = c)
    then Some (f (default newUserCommunityMetrics (vocab.metricAt m a c)))
    else vocab.metricAt m a' c'.
Proof.
  unfold assign.
  destruct (getUserCommunityMetric_lookup m a c) as (Hucm & (um & Hum & Hc) & Hother).
  destruct (getUserCommunityMetric m a c) as [m1 ucm]. simpl in *. subst ucm.
  specialize (Hother a' c'). unfold vocab.metricAt in *.
  destruct (decide (a' = a)) as [->|Ha].
  - rewrite lookup_alter_eq, Hum. simpl. rewrite Hum in Hother. simpl in Hother.
    destruct (decide (c' = c)) as [->|Hc'].
    + rewrite lookup_insert_eq. by rewrite decide_True.
    + rewrite lookup_insert_ne by done. rewrite Hother.
      by rewrite !decide_False by naive_solver.
  - rewrite lookup_alter_ne by done. rewrite Hother. by rewrite !decide_False by naive_solver.
Qed.

Lemma update_assign m a c f :
  update m a c f
  = ucm' ← f (default newUserCommunityMetrics (vocab.metricAt m a c));
    Some (assign m a c (λ _, ucm')).
Proof.
  unfold update, assign.
  destruct (getUserCommunityMetric_lookup m a c) as (Hucm & _).
  destruct (getUserCommunityMetric m a c) as [m1 ucm]. simpl in *. by subst ucm.
Qed.

Lemma unexplainedAt_default m a c :
  unexplainedAt m a c = unexplained (default newUserCommunityMetrics (vocab.metricAt m a c)).
Proof. unfold unexplainedAt. by destruct (vocab.metricAt m a c). Qed.

Lemma getUserCommunityMetric_unexplained m a c a' c' :
  unexplainedAt (getUserCommunityMetric m a c).1 a' c' = unexplainedAt m a' c'.
Proof.
  destruct (getUserCommunityMetric_lookup m a c) as (Hucm & _ & Hother).
  unfold unexplainedAt at 1. rewrite Hother. case_decide as H; [|done].
  destruct H as [-> ->]. simpl. by rewrite Hucm, unexplainedAt_default.
Qed.

Lemma assign_unexplained m a c f delta :
  (∀ ucm, unexplained (f ucm) = unexplained ucm + delta) →
  ∀ a' c', unexplainedAt (assign m a c f) a' c'
           = unexplainedAt m a' c' + (if decide (a' = a ∧ c' = c) then delta else 0).
Proof.
  intros Hf a' c'. unfold unexplainedAt at 1. rewrite assign_metricAt.
  case_decide as H; [|unfold unexplainedAt; lia].
  destruct H as [-> ->]. simpl. by rewrite Hf, unexplainedAt_default.
Qed.

Lemma update_unexplained m a c f delta m' :
  (∀ ucm ucm', f ucm = Some ucm' → unexplained ucm' = unexplained ucm + delta) →
  update m a c f = Some m' →
  ∀ a' c', unexplainedAt m' a' c'
           = unexplainedAt m a' c' + (if decide (a' = a ∧ c' = c) then delta else 0).
Proof.
  intros Hf. rewrite update_assign.
  destruct (f _) as [ucm'|] eqn:Hucm; simpl; [|done]. intros [= <-] a' c'.
  unfold unexplainedAt at 1. rewrite assign_metricAt.
  case_decide as H; [|unfold unexplainedAt; lia].
  destruct H as [-> ->]. simpl. by rewrite (Hf _ _ Hucm), unexplainedAt_default.
Qed.


Ltac unexplained_field :=
  intros ucm ucm' Hf; simplify_option_eq;
  repeat match goal with
         | H : sdk.Add _ _ = Some _ |- _ => apply sdk_Add_amount in H
         end;
  unfold unexplained; simpl; lia.

Ltac unexplained_shift H delta :=
  let E := fresh "E" in
  pose proof (λ Hf, update_unexplained _ _ _ _ delta _ Hf H) as E;
  lapply E; [clear E H; intros H | unexplained_field].

Lemma usersStake_unexplained beforeDate c argumentIDCreator m stake m' :
  usersStake beforeDate c argumentIDCreator m stake = Some m' →
  ∀ a' c', unexplainedAt m' a' c' = unexplainedAt m a' c'.
Proof.
  unfold usersStake. destruct (negb (golang.Before _ _)); [by intros [= <-]|]. cbv zeta.
  set (creator := staking.Stake.Creator stake).
  set (communityID := claim.CommunityID c).
  set (amount := staking.Stake.Amount stake).
  pose proof (getUserCommunityMetric_unexplained m creator communityID) as H0.
  generalize dependent ((getUserCommunityMetric m creator communityID).1). intros m0 H0.
  intros Hrun.
  destruct (if _ || _ then _ else Some m0) as [m1|] eqn:H1; simpl in Hrun; [|done].
  assert (∀ a' c', unexplainedAt m1 a' c' = unexplainedAt m0 a' c') as E1.
  { destruct (_ || _).
    - intros a' c'. unexplained_shift H1 (0).
      rewrite H1. destruct (decide _); lia.
    - by injection H1 as <-. }
  clear H1.
  destruct (bool_decide (staking.Stake.Type_ stake = staking.StakeUpvote)); simpl in Hrun.
  - destruct (update m1 _ _ _) as [m2|] eqn:H2; simpl in Hrun; [|done].
    unexplained_shift H2 ((- sdk.Amount amount)).
    unexplained_shift Hrun ((sdk.Amount amount)).
    intros a' c'. rewrite Hrun.
    rewrite (assign_unexplained _ _ _ _ 0) by (intros; unfold unexplained; simpl; lia).
    rewrite (assign_unexplained _ _ _ _ 0) by (intros; unfold unexplained; simpl; lia).
    rewrite H2, E1, H0. repeat case_decide; lia.
  - destruct (update m1 _ _ _) as [m2|] eqn:H2; simpl in Hrun; [|done].
    unexplained_shift H2 ((- sdk.Amount amount)).
    unexplained_shift Hrun ((sdk.Amount amount)).
    intros a' c'. rewrite Hrun, H2, E1, H0. repeat case_decide; lia.
Qed.


Lemma stakesAddUp_empty : stakesAddUp ∅.
Proof. intros a c. unfold unexplainedAt, vocab.metricAt. by rewrite lookup_empty. Qed.

Lemma assign_stakesAddUp m a c f :
  (∀ ucm, unexplained (f ucm) = unexplained ucm) →
  stakesAddUp m → stakesAddUp (assign m a c f).
Proof.
  intros Hf Hm a' c'. rewrite (assign_unexplained _ _ _ _ 0).
  - rewrite Hm. by destruct (decide _).
  - intros ucm. rewrite Hf. lia.
Qed.

Lemma foldl_assign_stakesAddUp {A} (address community : A → string)
    (f : A → UserCommunityMetrics → UserCommunityMetrics) l m :
  (∀ x ucm, unexplained (f x ucm) = unexplained ucm) →
  stakesAddUp m →
  stakesAddUp (foldl (λ m x, assign m (address x) (community x) (f x)) m l).
Proof.
  intros Hf. revert m. induction l as [|x l IH]; intros m Hm; simpl; [done|].
  apply IH. by apply assign_stakesAddUp.
Qed.

Lemma usersArgument_stakesAddUp beforeDate c arguments s :
  stakesAddUp s.1 → stakesAddUp (foldl (usersArgument beforeDate c) s arguments).1.
Proof.
  revert s. induction arguments as [|a l IH]; intros s Hs; simpl; [done|].
  apply IH. unfold usersArgument. destruct (negb _); [done|]. simpl.
  by apply assign_stakesAddUp.
Qed.

Lemma getUserCommunityMetric_stakesAddUp m a c :
  stakesAddUp m →
  stakesAddUp (getUserCommunityMetric m a c).1
  ∧ unexplained (getUserCommunityMetric m a c).2 = 0.
Proof.
  intros Hm. split.
  - intros a' c'. by rewrite getUserCommunityMetric_unexplained.
  - destruct (getUserCommunityMetric_lookup m a c) as (-> & _).
    by rewrite <- unexplainedAt_default.
Qed.

Lemma update_stakesAddUp m a c f m' :
  (∀ ucm ucm', f ucm = Some ucm' → unexplained ucm' = unexplained ucm) →
  stakesAddUp m → update m a c f = Some m' → stakesAddUp m'.
Proof.
  intros Hf Hm Hrun a' c'.
  rewrite (update_unexplained m a c f 0 m'); [|intros ?? H; rewrite (Hf _ _ H); lia|done].
  rewrite Hm. by destruct (decide _).
Qed.

Lemma trackTransaction_unexplained ty communityID amount ucm ucm' :
  trackTransaction ty communityID amount ucm = Some ucm' →
  unexplained ucm' = unexplained ucm.
Proof.
  unfold trackTransaction, earned, slashedFrom, sdk.NewCoin.
  destruct ty; intros H; simplify_option_eq; try done;
    repeat case_bool_decide; simplify_option_eq; done.
Qed.

Lemma yields_forEach_prefix {O A S} (P : list A → S → Prop) (l : list A) (s : S)
    (body : S → A → http.Handler O S) :
  P [] s → (∀ pre a s, P pre s → yields (P (pre ++ [a])) (body s a)) →
  yields (P l) (http.forEach l s body).
Proof.
  intros Hs Hbody.
  cut (∀ pre s, P pre s → yields (P (pre ++ l)) (http.forEach l s body)).
  { intros H. by apply (H []). }
  clear s Hs. induction l as [|a l IH]; intros pre s Hs; simpl.
  - by rewrite app_nil_r.
  - eapply yields_bind; [by apply Hbody|]. intros s' Hs'.
    rewrite (assoc_L _ pre [a] l : pre ++ a :: l = (pre ++ [a]) ++ l). by apply IH.
Qed.

Lemma forEach_elem {A S} Q `{!Additive Q} (P : S → Prop) (l : list A) (s : S)
    (body : S → A → http.Handler Output S) :
  P s →
  (∀ s a, a ∈ l → P s → records Q (body s a) ∧ yields P (body s a)) →
  records Q (http.forEach l s body) ∧ yields P (http.forEach l s body).
Proof.
  revert s. induction l as [|a l IH]; intros s Hs Hbody; simpl.
  - split; [apply records_ret; typeclasses eauto|done].
  - destruct (Hbody s a ltac:(left) Hs) as [Hr Hy].
    assert (∀ s', P s' → records Q (http.forEach l s' body)
                          ∧ yields P (http.forEach l s' body)) as Hrest.
    { intros s' Hs'. apply IH; [done|]. intros s'' a' Ha'. apply Hbody. by right. }
    split.
    + eapply records_bind_yields; [done|exact Hr|exact Hy|]. intros s' Hs'.
      by apply Hrest.
    + eapply yields_bind; [exact Hy|]. intros s' Hs'. by apply Hrest.
Qed.

Lemma bind_both {A B} Q `{!Additive Q} (P : A → Prop) (P' : B → Prop)
    (m : http.Handler Output A) (k : A → http.Handler Output B) :
  records Q m → yields P m →
  (∀ a, P a → records Q (k a) ∧ yields P' (k a)) →
  records Q (http.bind m k) ∧ yields P' (http.bind m k).
Proof.
  intros Hr Hy Hk. split.
  - eapply records_bind_yields; [done|exact Hr|exact Hy|]. intros a Ha. by apply Hk.
  - eapply yields_bind; [exact Hy|]. intros a Ha. by apply Hk.
Qed.

Section UsersReport.

Variables (jobTime : string) (time_Parse : string → string + golang.Time).
Variables (Format : golang.Time → string).
Variable AllowedForDeduction : exported.TransactionType → bool.
Variable TransactionType_String : exported.TransactionType → string.
Variable ta : TruAPI.

Lemma usersClaim_stakesAddUp beforeDate m c :
  stakesAddUp m → yields stakesAddUp (usersClaim ta beforeDate m c).
Proof.
  intros Hm. unfold usersClaim. destruct (negb _); [done|]. cbv zeta.
  destruct (getClaimArguments ta (claim.ID c)) as [arguments err].
  eapply yields_bind with (P := λ _, True); [by destruct err|]. intros _ _.
  match goal with
  | |- context [foldl ?f ?s ?l] =>
      pose proof (usersArgument_stakesAddUp beforeDate c l s) as Hargs;
      destruct (foldl f s l) as [m1 argumentIDCreator]
  end.
  simpl in Hargs.
  apply yields_forEach.
  - apply Hargs. by apply assign_stakesAddUp.
  - intros m2 stake Hm2.
    destruct (usersStake beforeDate c argumentIDCreator m2 stake) as [m3|] eqn:Hs; [|done].
    simpl. intros a' c'. by rewrite (usersStake_unexplained _ _ _ _ _ _ Hs).
Qed.

Lemma balanceBefore_snoc date pre transaction :
  balanceBefore AllowedForDeduction date (pre ++ [transaction])
  = balanceBefore AllowedForDeduction date pre
    + (if golang.Before (exported.CreatedTime transaction) date
       then signedAmount AllowedForDeduction transaction else 0).
Proof.
  unfold balanceBefore, golang.Before.
  rewrite filter_app, fmap_app, sumZ_app. f_equal.
  rewrite filter_cons, filter_nil. case_bool_decide; case_decide; try done; simpl; lia.
Qed.

Lemma usersTransaction_ledger beforeDate user pre balance m transaction :
  sdk.Amount balance = balanceBefore AllowedForDeduction beforeDate pre →
  stakesAddUp m →
  yields (λ s, sdk.Amount s.1
               = balanceBefore AllowedForDeduction beforeDate (pre ++ [transaction])
               ∧ stakesAddUp s.2)
    (usersTransaction AllowedForDeduction TransactionType_String beforeDate user
       (balance, m) transaction).
Proof.
  intros Hbalance Hm. unfold usersTransaction. rewrite balanceBefore_snoc.
  destruct (golang.Before _ _); simpl; [|unfold yields; simpl; split; [lia|done]].
  match goal with |- context [sdk.Add balance ?a] =>
    destruct (sdk.Add balance a) as [balance'|] eqn:Hadd; [|done] end.
  apply sdk_Add_amount in Hadd.
  assert (sdk.Amount balance'
          = balanceBefore AllowedForDeduction beforeDate pre
            + signedAmount AllowedForDeduction transaction) as Hbalance'.
  { rewrite Hadd, Hbalance. unfold signedAmount, sdk.IntNeg.
    by destruct (AllowedForDeduction _). }
  change (http.bind (http.must (Some balance')) ?k) with (http.bind (http.ret balance') k).
  unfold yields. simpl.
  destruct (negb _); simpl; [done|].
  destruct (decide _); simpl; [done|].
  match goal with |- context [update ?m0 ?a ?c ?f] =>
    destruct (update m0 a c f) as [m'|] eqn:Hupdate; [|done] end.
  simpl. split; [done|].
  eapply update_stakesAddUp; [|apply getUserCommunityMetric_stakesAddUp, Hm|exact Hupdate].
  intros ucm ucm'. apply trackTransaction_unexplained.
Qed.

Variable r : Request.

Lemma usersUser_rows beforeDate communities m user :
  time_Parse (FormValue_date r) = inr beforeDate →
  user ∈ (FindAll_users ta).1 →
  DecodeCommunities ta = inr communities →
  stakesAddUp m →
  records (Forall (ledgerRow jobTime time_Parse Format AllowedForDeduction ta r))
    (usersUser jobTime Format AllowedForDeduction TransactionType_String ta
       beforeDate communities m user)
  ∧ yields stakesAddUp
      (usersUser jobTime Format AllowedForDeduction TransactionType_String ta
         beforeDate communities m user).
Proof.
  intros Hdate Huser Hcommunities Hm. unfold usersUser.
  destruct (bool_decide (db.Address user = "")) eqn:Haddress; simpl;
    [split; [apply records_ret; typeclasses eauto|done]|].
  destruct (golang.Before (db.CreatedAt user) beforeDate) eqn:Hcreated; simpl;
    [|split; [apply records_ret; typeclasses eauto|done]].
  apply bool_decide_eq_false in Haddress. apply bool_decide_eq_true in Hcreated.
  eapply bind_both with
    (P := λ s, sdk.Amount s.1
               = balanceBefore AllowedForDeduction beforeDate
                   (appAccountTransactionsResolver ta (db.Address user))
               ∧ stakesAddUp s.2).
  - typeclasses eauto.
  - apply records_forEach; [typeclasses eauto|]. intros s transaction.
    apply records_usersTransaction. typeclasses eauto.
  - apply (yields_forEach_prefix
             (λ pre s, sdk.Amount s.1 = balanceBefore AllowedForDeduction beforeDate pre
                       ∧ stakesAddUp s.2)); [done|].
    intros pre transaction [balance m1] [Hbalance Hm1].
    by apply usersTransaction_ledger.
  - intros [balance m1] [Hbalance Hm1]. simpl in Hbalance, Hm1.
    apply forEach_elem; [typeclasses eauto|done|].
    intros m2 cm Hcm Hm2.
    destruct (getUserCommunityMetric_stakesAddUp m2 (db.Address user) (community.ID cm) Hm2)
      as [Hm3 Hucm].
    destruct (getUserCommunityMetric m2 (db.Address user) (community.ID cm)) as [m3 ucm].
    simpl in Hm3, Hucm. split; [|done].
    unfold records. simpl. apply Forall_singleton. right.
    exists beforeDate, user, communities, cm, ucm. rewrite Hbalance. by split_and!.
Qed.

Lemma parseDate_yields :
  yields (λ beforeDate, time_Parse (FormValue_date r) = inr beforeDate)
    (parseDate time_Parse r).
Proof.
  unfold parseDate. destruct (ParseForm r); [done|]. destruct (decide _); [done|].
  by destruct (time_Parse _).
Qed.

Lemma HandleUsersMetrics_ledger :
  records (Forall (ledgerRow jobTime time_Parse Format AllowedForDeduction ta r))
    (HandleUsersMetrics jobTime time_Parse Format AllowedForDeduction
       TransactionType_String ta r).
Proof.
  unfold HandleUsersMetrics.
  apply records_bind; [typeclasses eauto|records_auto|intros _].
  eapply records_bind_yields;
    [typeclasses eauto|records_auto|apply parseDate_yields|intros beforeDate Hdate].
  apply records_bind; [typeclasses eauto|records_auto|intros claims].
  destruct (FindAll_users ta) as [users err] eqn:Husers.
  do 2 (apply records_bind; [typeclasses eauto|records_auto|intros _]).
  eapply records_bind_yields with (P := stakesAddUp); [typeclasses eauto| | |].
  { apply records_forEach; [typeclasses eauto|]. intros. apply records_usersClaim.
    typeclasses eauto. }
  { apply yields_forEach; [apply stakesAddUp_empty|]. intros m c.
    apply usersClaim_stakesAddUp. }
  intros chainMetrics Hchain.
  apply records_bind; [typeclasses eauto|records_auto|intros _].
  eapply records_bind_yields with
    (P := λ communities, communities = [] ∨ DecodeCommunities ta = inr communities);
    [typeclasses eauto|records_auto|by destruct (DecodeCommunities ta); [left|right]|].
  intros communities Hcommunities.
  destruct (decide (length communities = 0%nat)) as [|Hlength]; [records_auto|].
  destruct Hcommunities as [->|Hcommunities]; [done|].
  apply records_bind; [typeclasses eauto|records_auto|intros _].
  apply records_bind; [typeclasses eauto|apply records_csv; by left|intros _].
  destruct (OpenedClaimsSummary ta beforeDate) as [openedClaims err1].
  apply records_bind; [typeclasses eauto|records_auto|intros _]. cbv zeta.
  destruct (OpenedArgumentsSummary ta beforeDate) as [openedArguments err2].
  apply records_bind; [typeclasses eauto|records_auto|intros _].
  destruct (UserRepliesStats_ ta beforeDate) as [replies err3].
  apply records_bind; [typeclasses eauto|records_auto|intros _].
  apply records_bind; [typeclasses eauto| |intros; apply records_ret; typeclasses eauto].
  apply forEach_elem with (P := stakesAddUp); [typeclasses eauto| |].
  - do 3 (apply foldl_assign_stakesAddUp; [done|]). exact Hchain.
  - intros m user Huser Hm. apply usersUser_rows; try done. by rewrite Husers.
Qed.

(** X20. In every row [HandleUsersMetrics] writes for a user and a
    community, the amount in "staked" is the sum of the amounts in
    "staked_arguments" and "staked_agrees", on every request and whatever the
    chain and the data store return. *)
Theorem HandleUsersMetrics_staked_adds_up :
  Forall stakedRow
    (spec.csvRecords (HandleUsersMetrics jobTime time_Parse Format AllowedForDeduction
                        TransactionType_String ta r).1).
Proof.
  eapply Forall_impl; [apply HandleUsersMetrics_ledger|].
  intros row [->|(beforeDate & user & communities & cm & ucm & H)]; [by left|right].
  destruct H as (_ & _ & _ & _ & _ & _ & -> & Hucm).
  eexists _, cm, ucm. split; [done|]. unfold unexplained in Hucm. lia.
Qed.

(** X21. Every record [HandleUsersMetrics] writes is the header or the row of
    a user that the data store lists, that has an address and was created
    before the date of the request, and of a community the chain returned;
    the row starts with the job time, the date, the address and the name of
    the user, and its "balance" is the sum of the amounts of the transactions
    of the user created before the date, those allowed for deduction counted
    negative. *)
Theorem HandleUsersMetrics_balance_sums_transactions :
  Forall (balanceRow jobTime time_Parse Format AllowedForDeduction ta r)
    (spec.csvRecords (HandleUsersMetrics jobTime time_Parse Format AllowedForDeduction
                        TransactionType_String ta r).1).
Proof.
  eapply Forall_impl; [apply HandleUsersMetrics_ledger|].
  intros row [->|(beforeDate & user & communities & cm & ucm & H)]; [by left|right].
  exists beforeDate, user, communities, cm, ucm. naive_solver.
Qed.

End UsersReport.

End Ledger.

(** ** Mentions: from addresses to profile links *)

Section ProfileLinks.

Variable parseMentions : string → list string.
Variable TwitterProfileByAddress : string → option db.TwitterProfile.t * option db.error.
Variable path_Join : string → string → string.
Variable URL : Type.
Variable url_Parse : string → string + URL.
Variable URL_String : URL → string.
Variable Host_Name : string.
Variable Host_HTTPSEnabled : bool.
Variable mapRange : gmap string string → list (string * string).

Local Abbreviation failsWith := (links.failsWith TwitterProfileByAddress path_Join url_Parse Host_Name).
Local Abbreviation lookupAddresses :=
  (mention.lookupAddresses TwitterProfileByAddress path_Join URL url_Parse URL_String
     Host_HTTPSEnabled).
Local Abbreviation TranslateToUsersMentions :=
  (mention.TranslateToUsersMentions parseMentions TwitterProfileByAddress path_Join URL
     url_Parse URL_String Host_Name Host_HTTPSEnabled mapRange).

Lemma lookupAddresses_error addresses m :
  match (lookupAddresses addresses (path_Join Host_Name "profile") m).2 with
  | Some err =>
      ∃ before address after,
        addresses = before ++ address :: after
        ∧ failsWith address err
        ∧ Forall (λ a, ∀ e, ¬ failsWith a e) before
  | None => Forall (λ a, ∀ e, ¬ failsWith a e) addresses
  end.
Proof.
  revert m. induction addresses as [|a addresses IH]; intros m; simpl; [done|].
  destruct (TwitterProfileByAddress a) as [profile [e|]] eqn:Ha.
  - assert (failsWith a (mention.DataStore e)) as Hfails.
    { left. exists e. by rewrite Ha. }
    destruct profile; simpl; by exists [], a, addresses.
  - destruct profile as [twitterProfile|].
    + destruct (url_Parse _) as [msg|profileURL] eqn:Hparse; simpl.
      * exists [], a, addresses. split_and!; [done| |done].
        right. by exists twitterProfile, msg.
      * assert (∀ e, ¬ failsWith a e) as Hok.
        { intros e [(e' & He' & _)|(tp & msg & Htp & Hmsg & _)].
          - by rewrite Ha in He'.
          - rewrite Ha in Htp. injection Htp as <-. by rewrite Hparse in Hmsg. }
        match goal with |- context [lookupAddresses addresses ?p ?m'] =>
          specialize (IH m'); destruct (lookupAddresses addresses p m').2 as [err|] end.
        -- destruct IH as (before & address & after & -> & Hfails & Hbefore).
           exists (a :: before), address, after. split_and!; [done|done|by constructor].
        -- by constructor.
    + assert (∀ e, ¬ failsWith a e) as Hok.
      { intros e [(e' & He' & _)|(tp & msg & Htp & _)]; by rewrite Ha in *. }
      match goal with |- context [lookupAddresses addresses ?p ?m'] =>
        specialize (IH m'); destruct (lookupAddresses addresses p m').2 as [err|] end.
      * destruct IH as (before & address & after & -> & Hfails & Hbefore).
        exists (a :: before), address, after. split_and!; [done|done|by constructor].
      * by constructor.
Qed.

(** X22. When [TranslateToUsersMentions] returns an error it returns the
    empty text, not the body, and the error is that of the first mention, in
    the order of [parseMentions], for which the lookup of the profile or the
    parsing of its URL failed.  When it returns no error, none failed. *)
Theorem TranslateToUsersMentions_error_returns_empty_text (body : string) :
  match (TranslateToUsersMentions body).2 with
  | Some err =>
      (TranslateToUsersMentions body).1 = ""
      ∧ ∃ before address after,
          parseMentions body = before ++ address :: after
          ∧ failsWith address err
          ∧ Forall (λ a, ∀ e, ¬ failsWith a e) before
  | None => Forall (λ a, ∀ e, ¬ failsWith a e) (parseMentions body)
  end.
Proof.
  unfold mention.TranslateToUsersMentions, mention.replaceAddressesWithProfileURLs,
    mention.mapAddressesToProfileURLs.
  cbv zeta.
  pose proof (lookupAddresses_error (parseMentions body) ∅) as H.
  destruct (lookupAddresses _ _ _) as [m [err|]]; simpl in *; [|done].
  by split.
Qed.

Hypothesis mapRange_perm : ∀ m, mapRange m ≡ₚ map_to_list m.

(** X23. The "body" of a [ClaimArgument] is the body of the argument as it
    is stored, untranslated, when the raw body is asked for, when the body
    mentions nobody, and when the lookup of the profile of one of its
    mentions, or the parsing of its URL, fails: the empty text that
    [TranslateToUsersMentions] returns with an error is never shown. *)
Theorem claimArgumentBody_untranslated (Body : string) (Raw : bool) :
  Raw = true
  ∨ parseMentions Body = []
  ∨ Exists (λ a, ∃ e, failsWith a e) (parseMentions Body) →
  resolvers.claimArgumentBody TranslateToUsersMentions Body Raw = Body.
Proof.
  unfold resolvers.claimArgumentBody. intros [->|H]; [done|]. destruct Raw; [done|].
  pose proof (TranslateToUsersMentions_error_returns_empty_text Body) as Herr.
  destruct (TranslateToUsersMentions Body) as [body [err|]] eqn:Hrun; [done|].
  simpl in Herr. destruct H as [Hnone|Hfails].
  - revert Hrun.
    unfold mention.TranslateToUsersMentions, mention.replaceAddressesWithProfileURLs,
      mention.mapAddressesToProfileURLs.
    rewrite Hnone. simpl.
    assert (mapRange ∅ = []) as ->.
    { apply Permutation_nil_r. by rewrite mapRange_perm, map_to_list_empty. }
    by intros [= <-].
  - exfalso. apply Exists_exists in Hfails as (a & Ha & e & He).
    rewrite Forall_forall in Herr. by apply (Herr a Ha e).
Qed.

End ProfileLinks.

Section SenderProfile.

Context {AppAccount : Type}.
Variable c : db.Client.
Variable appAccountResolver : string → option AppAccount.

(** X24. The "senderProfile" resolver of a notification dereferences a nil
    user, and panics, exactly when the notification has a sender, the data
    store answers and it holds no user with the id of the sender; without a
    sender, and when the data store fails, it returns nil. *)
Theorem senderProfile_panics_without_row (hasSenderProfile : bool) (SenderProfileID : Z) :
  (resolvers.senderProfile c appAccountResolver hasSenderProfile SenderProfileID = None
   ↔ hasSenderProfile = true
     ∧ db.failure c = None
     ∧ Forall (λ u, db.ID u ≠ SenderProfileID) (db.users c))
  ∧ (hasSenderProfile = false ∨ db.failure c ≠ None →
     resolvers.senderProfile c appAccountResolver hasSenderProfile SenderProfileID
     = Some None).
Proof.
  unfold resolvers.senderProfile, db.UserByID, db.First.
  destruct hasSenderProfile; [|naive_solver].
  destruct (db.failure c) as [msg|]; [naive_solver|].
  destruct (find _ _) as [u|] eqn:Hfind.
  - split; [|naive_solver]. split; [done|]. intros (_ & _ & Hall).
    apply find_some in Hfind as [Hin Hu]. apply bool_decide_eq_true in Hu.
    rewrite Forall_forall in Hall. exfalso. apply (Hall u); [|done].
    by apply list_elem_of_In.
  - split; [|naive_solver]. split; [|done]. intros _. split_and!; [done..|].
    apply Forall_forall. intros u Hu Hid.
    apply list_elem_of_In in Hu.
    pose proof (find_none _ _ Hfind u Hu) as Hnot. simpl in Hnot.
    by rewrite bool_decide_eq_true_2 in Hnot.
Qed.

End SenderProfile.

Lemma claimArgumentBody_untranslated_witness :
  resolvers.claimArgumentBody
    (mention.TranslateToUsersMentions sample.parseMentions
       sample.brokenTwitterProfileByAddress sample.path_Join string inr id
       "app.trustory.io" true map_to_list)
    "hi @tru1bob" false
  = "hi @tru1bob".
Proof.
  apply (claimArgumentBody_untranslated sample.parseMentions
           sample.brokenTwitterProfileByAddress sample.path_Join string inr id
           "app.trustory.io" true map_to_list); [done|].
  right. right.
  assert (sample.parseMentions "hi @tru1bob" = ["tru1bob"]) as -> by (vm_compute; reflexivity).
  apply Exists_cons_hd. eexists. left. eexists. split; reflexivity.
Defined.

(** ** A user name that is not taken *)

Section Numbers.

Import usernames.
Local Open Scope Z_scope.

Lemma digit_pretty_N_char (d : N) : (d < 10)%N → digit (pretty_N_char d) = Some (Z.of_N d).
Proof.
  intros Hd. unfold pretty_N_char.
  destruct d as [|p]; [done|]. do 4 (destruct p as [p|p|]; try done; try lia).
Qed.

Lemma digits_pretty_N_go (x : N) s acc :
  ∃ k : Z, 0 ≤ k ∧ digits acc (pretty_N_go x s) = digits (acc * 10 ^ k + Z.of_N x) s.
Proof.
  revert s. induction (N.lt_wf_0 x) as [x _ IH]; intros s.
  assert (x = 0 ∨ 0 < x)%N as [->|Hx] by lia.
  - exists 0. rewrite pretty_N_go_0. split; [done|]. f_equal. lia.
  - rewrite pretty_N_go_step by done.
    destruct (IH (x `div` 10)%N ltac:(by apply N.div_lt)
                (String (pretty_N_char (x `mod` 10)) s)) as (k & Hk & ->).
    exists (k + 1). split; [lia|]. simpl.
    rewrite digit_pretty_N_char by (by apply N.mod_lt). simpl. f_equal.
    rewrite Z.pow_add_r by lia.
    pose proof (N.div_mod x 10 ltac:(done)) as Hdiv. lia.
Qed.

Lemma Atoi_Itoa (i : Z) : 0 < i < 2 ^ 63 → Atoi (Itoa i) = Some i.
Proof.
  intros Hi. unfold Itoa. destruct i as [|p|p]; [lia| |lia].
  change (pretty (Z.pos p)) with (pretty_N_go (N.pos p) "").
  destruct (digits_pretty_N_go (N.pos p) "" 0) as (k & Hk & Hdigits).
  simpl in Hdigits.
  unfold Atoi.
  assert (∃ c rest, pretty_N_go (N.pos p) "" = String c rest ∧ digit c ≠ None)
    as (c & rest & Heq & Hc).
  { destruct (pretty_N_go (N.pos p) "") as [|c rest] eqn:Heq.
    - simpl in Hdigits. injection Hdigits as Hdigits. lia.
    - exists c, rest. split; [done|]. simpl in Hdigits. by destruct (digit c). }
  rewrite Heq. rewrite Heq in Hdigits.
  assert (c ≠ Ascii.ascii_of_nat 45 ∧ c ≠ Ascii.ascii_of_nat 43) as [H45 H43].
  { split; intros ->; by apply Hc. }
  rewrite !decide_False by done. rewrite Hdigits.
  rewrite bool_decide_eq_true_2; [done|]. lia.
Qed.

End Numbers.

Section FirstFree.

Import usernames candidates.

Variable UserByUsername : string → option db.User * option db.error.

Lemma append_empty_r (s : string) : s +:+ "" = s.
Proof.
  induction s as [|c s IH]; [done|].
  change (String c s +:+ "") with (String c (s +:+ "")). by rewrite IH.
Qed.

(** The suffix of the [k]-th name. *)
Lemma candidate_suffix username k :
  candidate username k
  = username +:+ (match k with O => "" | S _ => Itoa (Z.of_nat k) end).
Proof. destruct k; [by rewrite append_empty_r|done]. Qed.

Lemma getUniqueUsername_from username (k : nat) :
  (Z.of_nat k < 2 ^ 63)%Z →
  (∀ j, j < k → taken UserByUsername username j) →
  ¬ taken UserByUsername username k →
  ∀ (n j fuel : nat), k = n + j → n < fuel →
    getUniqueUsername UserByUsername fuel username
      (match j with O => "" | S _ => Itoa (Z.of_nat j) end)
    = Some (match UserByUsername (candidate username k) with
            | (_, Some err) => ("", Some (DataStore err))
            | _ => (candidate username k, None)
            end).
Proof.
  intros Hk Htaken Hfree. induction n as [|n IH]; intros j fuel Hj Hfuel.
  - simpl in Hj. subst j. destruct fuel as [|fuel]; [lia|]. simpl.
    rewrite <- candidate_suffix.
    destruct (UserByUsername (candidate username k)) as [[user|] [err|]] eqn:Hlookup;
      try done.
    exfalso. apply Hfree. by exists user.
  - destruct fuel as [|fuel]; [lia|]. simpl. rewrite <- candidate_suffix.
    destruct (Htaken j ltac:(lia)) as [user ->].
    assert ((if decide ((match j with O => "" | S _ => Itoa (Z.of_nat j) end) = "")
             then Some 0%Z
             else Atoi (match j with O => "" | S _ => Itoa (Z.of_nat j) end))
            = Some (Z.of_nat j)) as ->.
    { destruct j as [|j']; [done|].
      pose proof (Atoi_Itoa (Z.of_nat (S j')) ltac:(lia)) as Hatoi.
      case_decide as Hempty; [|done]. by rewrite Hempty in Hatoi. }
    assert (golang.wrap64 (Z.of_nat j + 1) = Z.of_nat (S j)) as ->.
    { unfold golang.wrap64. rewrite Z.mod_small; lia. }
    apply (IH (S j)); lia.
Qed.

(** X25. [getUniqueUsername] tries the name, then the name followed by 1, by
    2, and so on, and stops at the first of them that no user has: when the
    first [k] names are taken and the [k]-th is not, it returns the [k]-th
    name if its lookup finds no user, and the empty name with the error of
    the data store if its lookup fails, as soon as the recursion may be
    deeper than [k]. *)
Theorem getUniqueUsername_first_free (username : string) (k fuel : nat) :
  (Z.of_nat k < 2 ^ 63)%Z →
  (∀ j, j < k → taken UserByUsername username j) →
  ¬ taken UserByUsername username k →
  k < fuel →
  getUniqueUsername UserByUsername fuel username ""
  = Some (match UserByUsername (candidate username k) with
          | (_, Some err) => ("", Some (DataStore err))
          | _ => (candidate username k, None)
          end).
Proof.
  intros Hk Htaken Hfree Hfuel.
  apply (getUniqueUsername_from username k Hk Htaken Hfree k 0 fuel); lia.
Qed.

End FirstFree.

Lemma getUniqueUsername_first_free_witness :
  usernames.getUniqueUsername sample.UserByUsername 3 "bob" "" = Some ("bob2", None).
Proof.
  apply (getUniqueUsername_first_free sample.UserByUsername "bob" 2 3).
  - lia.
  - intros [|[|j]] Hj; [eexists; reflexivity|eexists; reflexivity|lia].
  - intros [user H]. vm_compute in H. discriminate H.
  - lia.
Defined.
